(** * Route planner: order store, payment stub, pricing, callback endpoint
      and navigation guard

    A shallow embedding of the TypeScript/JavaScript sources of the
    route-planner application, and the properties of its specification
    that concern them.

    Conventions of the embedding.
    - A JavaScript [number] is a binary64 float ([PrimFloat.float]); the
      arithmetic of the pricing rule and of the random index of the
      payment stub is the machine arithmetic.  What [Math.random]
      returns is an argument of the function that draws.
    - An awaited call to an external service (database, mail endpoint,
      payment stub) takes its outcome from an explicit argument: the
      functions below are deterministic in the state of the [orders]
      table, the state of the store and these outcomes.
    - The remote [orders] table is part of the state, so that "persisted"
      can be told apart from "cached".  The store is modelled for a
      caller whom the row-level policies of the table permit every query
      (a signed-in admin); the booking and the payment page of a caller
      whom they do not are in [Policies]. *)

From Stdlib Require Import ZArith Floats Uint63.
From Stdlib Require QArith Qround.
From Stdlib Require Import String Ascii List Bool Lia Sorted Permutation.
Import ListNotations.

(* ================================================================== *)
(** * JavaScript values *)
(* ================================================================== *)

Module JS.

(** What a [catch (err)] block of the sources looks at:
    [err instanceof Error ? err.message : fallback]. *)
Record Thrown : Type := mkThrown {
  instanceofError : bool;
  message : string
}.

(** [new Error(msg)] *)
Definition newError (msg : string) : Thrown :=
  {| instanceofError := true; message := msg |}.

(** [err instanceof Error ? err.message : fallback] *)
Definition messageOr (fallback : string) (err : Thrown) : string :=
  if instanceofError err then message err else fallback.

(** A settled promise: the value it resolved to, or what it threw. *)
Inductive Settled (A : Type) : Type :=
| Resolved (a : A)
| Rejected (err : Thrown).
Arguments Resolved {A} a.
Arguments Rejected {A} err.

(** An object whose members are strings, and [obj[key]] on it
    ([None] is [undefined]). *)
Definition Object : Type := list (string * string).

Fixpoint get (key : string) (obj : Object) : option string :=
  match obj with
  | [] => None
  | (k, v) :: rest => if String.eqb k key then Some v else get key rest
  end.

(** Truthiness of a possibly undefined string, as in [if (s)] and
    [!s]: [undefined] and the empty string are falsy. *)
Definition truthy (s : option string) : bool :=
  match s with
  | None => false
  | Some EmptyString => false
  | Some (String _ _) => true
  end.

(** The float of an integer (exact below 2^53 in magnitude). *)
Definition number_of_Z (n : Z) : float :=
  match n with
  | Z0 => PrimFloat.zero
  | Zpos _ => PrimFloat.of_uint63 (Uint63.of_Z n)
  | Zneg p => PrimFloat.opp (PrimFloat.of_uint63 (Uint63.of_Z (Zpos p)))
  end.

(** [Math.round]: NaN, the infinities, the zeros and integral numbers
    are returned as they are; any other number goes to the nearest
    integer, ties towards plus infinity, the result keeping the sign of
    the argument when it is zero.  A finite binary64 with a negative
    exponent [e] has the value [±m * 2^e], so that
    [floor (x + 1/2) = (±2m + 2^-e) / 2^(1-e)]. *)
Definition Math_round (x : float) : float :=
  match Prim2SF x with
  | S754_finite s m e =>
      if (0 <=? e)%Z then x
      else
        let sm := if s then Zneg m else Zpos m in
        let n := ((2 * sm + 2 ^ (- e)) / 2 ^ (1 - e))%Z in
        if (n =? 0)%Z
        then (if s then PrimFloat.neg_zero else PrimFloat.zero)
        else number_of_Z n
  | _ => x
  end.

(** [Math.floor]: NaN, the infinities, the zeros and integral numbers
    are returned as they are; any other number goes to the largest
    integer below it. *)
Definition Math_floor (x : float) : float :=
  match Prim2SF x with
  | S754_finite s m e =>
      if (0 <=? e)%Z then x
      else
        let n := ((if s then Zneg m else Zpos m) / 2 ^ (- e))%Z in
        if (n =? 0)%Z then PrimFloat.zero else number_of_Z n
  | _ => x
  end.

(** The integer a number is, if it is one (both zeros are 0). *)
Definition integer_value (x : float) : option Z :=
  match Prim2SF x with
  | S754_zero _ => Some 0%Z
  | S754_finite s m e =>
      let sm := if s then Zneg m else Zpos m in
      if (0 <=? e)%Z then Some (sm * 2 ^ e)%Z
      else if (sm mod 2 ^ (- e) =? 0)%Z then Some (sm / 2 ^ (- e))%Z
      else None
  | _ => None
  end.

(** [array[x]] for a number [x]: the element at that position when [x]
    is an integer within the array, [undefined] in every other case. *)
Definition index {A : Type} (l : list A) (x : float) : option A :=
  match integer_value x with
  | Some i => if (i <? 0)%Z then None else nth_error l (Z.to_nat i)
  | None => None
  end.

(** [===] on numbers. *)
Definition strict_eq (x y : float) : bool := PrimFloat.eqb x y.

End JS.

(* ================================================================== *)
(** * Pricing: the [routesfound] handler of the planner component *)
(* ================================================================== *)

Module Planner.
Import JS.
Open Scope float_scope.

(** [const PRICE_PER_KM = 20; // 20 CZK per kilometer] *)
Definition PRICE_PER_KM : float := 20.

(** The part of a route of the routing library the handler reads. *)
Record RouteSummary : Type := { totalDistance : float; totalTime : float }.
Record Route : Type := { summary : RouteSummary }.

Inductive Step : Type := details | payment.

(** The refs of the component the handler writes. *)
Record State : Type := mkState {
  routeDistance : option float;
  routePrice : option float;
  showOrderForm : bool;
  currentStep : Step
}.

(** [routingControl.on('routesfound', (e) => { ... })], on [e.routes]
    ([None] when the event carries no route array). *)
Definition on_routesfound (routes : option (list Route)) (st : State) : State :=
  match routes with
  | Some (first :: _) =>
      let distanceInMeters := totalDistance (summary first) in
      let distanceInKm := distanceInMeters / 1000 in
      {| routeDistance := Some distanceInMeters;
         routePrice := Some (Math_round (distanceInKm * PRICE_PER_KM));
         showOrderForm := true;
         currentStep := details |}
  | _ => st
  end.

(** The price the handler leaves for a first route of [d] metres; it
    depends on nothing else. *)
Definition quoted (d : float) : option float :=
  routePrice
    (on_routesfound
       (Some [ {| summary := {| totalDistance := d; totalTime := 0 |} |} ])
       (mkState None None false details)).

(** The real number a finite binary64 is, as a fraction. *)
Definition real_value (x : float) : option QArith_base.Q :=
  match Prim2SF x with
  | S754_zero _ => Some (QArith_base.inject_Z 0)
  | S754_finite s m e =>
      let sm := if s then Zneg m else Zpos m in
      Some (if (0 <=? e)%Z then QArith_base.inject_Z (sm * 2 ^ e)
            else QArith_base.Qmake sm (Z.to_pos (2 ^ (- e))))
  | _ => None
  end.

(** Rounding to the nearest integer, halves upwards. *)
Definition round_half_up (q : QArith_base.Q) : Z :=
  Qround.Qfloor (QArith_base.Qplus q (QArith_base.Qmake 1 2)).

(** The pricing rule in the words of the specification, on real
    numbers: price = round(d/1000 × 20). *)
Definition exact_quote (d : float) : option Z :=
  option_map
    (fun q =>
       round_half_up
         (QArith_base.Qmult (QArith_base.Qdiv q (QArith_base.inject_Z 1000))
                            (QArith_base.inject_Z 20)))
    (real_value d).

(** The same rule on whole metres in integer arithmetic:
    round-half-up of [d / 50]. *)
Definition exact_price (d : Z) : Z := ((d + 25) / 50)%Z.

(** On a whole-metre distance [d]: the handler quotes the number that
    the rule of the specification gives, and that number is
    [exact_price d]. *)
Definition agrees_at (d : Z) : bool :=
  match quoted (number_of_Z d), exact_quote (number_of_Z d) with
  | Some q, Some p => strict_eq q (number_of_Z p) && (p =? exact_price d)%Z
  | _, _ => false
  end.



End Planner.

(* ================================================================== *)
(** * Payment adapter: the active (mock) code of [lib/gopay] *)
(* ================================================================== *)

Module GoPay.
Import JS.
Open Scope string_scope.

(** The argument of [createPayment]. *)
Record OrderData : Type := {
  od_id : string;
  od_customerName : string;
  od_customerEmail : string;
  od_price : float;
  od_description : string
}.

(** What [createPayment] takes from its surroundings: the result of
    [uuidv4()] ([None] when the generator throws) and
    [window.location.origin] ([None] where [window] is not defined; the
    module is also loaded by the Node server). *)
Record PaymentEnv : Type := {
  uuidv4 : option string;
  window_location_origin : option string
}.

Record PaymentResult : Type := { pr_id : string; pr_url : string }.

(** [createPayment]: a mock identifier and a URL of the application's
    own payment-result page; anything thrown in the body is replaced by
    [new Error('Failed to create payment')]. *)
Definition createPayment (env : PaymentEnv) (orderData : OrderData)
  : Settled PaymentResult :=
  match uuidv4 env, window_location_origin env with
  | Some uuid, Some origin =>
      let mockPaymentId := "mock_payment_" ++ substring 0 8 uuid in
      let mockPaymentUrl :=
        origin ++ "/payment-result?orderId=" ++ od_id orderData
               ++ "&mockPayment=true" in
      Resolved {| pr_id := mockPaymentId; pr_url := mockPaymentUrl |}
  | _, _ => Rejected (newError "Failed to create payment")
  end.

(** [const statuses = [...]] of [getPaymentStatus]. *)
Definition statuses : list string :=
  ["CREATED"; "PENDING"; "PAID"; "CANCELED"; "TIMEOUTED"; "FAILED"].

(** A draw of [Math.random()]: a number [r] with [0 <= r] and [r < 1]. *)
Definition unit_draw (r : float) : Prop :=
  PrimFloat.leb 0 r = true /\ PrimFloat.ltb r 1 = true.

(** The number the literal [0.7] denotes. *)
Definition seven_tenths : float := 0x1.6666666666666p-1%float.

(** [Math.random() < 0.7 ? 2 : Math.floor(Math.random() * statuses.length)] *)
Definition randomIndex (draw1 draw2 : float) : float :=
  if PrimFloat.ltb draw1 seven_tenths then 2%float
  else Math_floor (draw2 * number_of_Z (Z.of_nat (length statuses)))%float.

(** [getPaymentStatus]; [None] is [undefined].  Nothing in the body
    throws on a string, the [catch] is not reached. *)
Definition getPaymentStatus (paymentId : string) (draw1 draw2 : float)
  : option string :=
  if prefix "mock_payment_" paymentId
  then index statuses (randomIndex draw1 draw2)
  else Some "UNKNOWN".

(** [verifyCallbackSignature]: logs and returns [true]. *)
Definition verifyCallbackSignature (body : Object) (signature : string)
  : bool := true.

End GoPay.

(* ================================================================== *)
(** * The callback endpoint of [server.js] *)
(* ================================================================== *)

Module Server.
Import JS GoPay.
Open Scope string_scope.

(** A request as the handler sees it: [req.headers] (names in lower
    case, as Node presents them) and [req.body], which the JSON body
    parser installed before the routes always sets to an object. *)
Record Request : Type := {
  headers : Object;
  body : Object
}.

Record Response : Type := {
  status : Z;
  success : bool;
  error : option string
}.

(** [app.post('/api/gopay-callback', ...)].  With [req.body] an object
    the destructuring cannot throw and the 500 branch is not taken. *)
Definition gopay_callback (req : Request) : Response :=
  let signature := get "x-gopay-signature" (headers req) in
  let rejected :=
    match signature with
    | None => true
    | Some sig =>
        negb (truthy signature) || negb (verifyCallbackSignature (body req) sig)
    end in
  if rejected
  then {| status := 401; success := false; error := Some "Invalid signature" |}
  else {| status := 200; success := true; error := None |}.

(** "The header is present", whatever its value. *)
Definition signature_present (req : Request) : bool :=
  match get "x-gopay-signature" (headers req) with
  | Some _ => true
  | None => false
  end.

End Server.

(* ================================================================== *)
(** * The [orders] table of the backend and the queries of the store *)
(* ================================================================== *)

Module Supabase.
Import JS.
Open Scope string_scope.

(** [status TEXT ... CHECK (status IN ('pending', 'confirmed',
    'completed', 'cancelled'))] *)
Inductive Status : Type := pending | confirmed | completed | cancelled.

(** A row of [orders] (the columns of the migration). *)
Record Row : Type := mkRow {
  id : string;
  customer_name : string;
  customer_email : string;
  customer_phone : string;
  pickup_date : string;
  pickup_time : string;
  start_address : string;
  end_address : string;
  start_point : float * float;
  end_point : float * float;
  distance : float;
  price : float;
  additional_notes : option string;
  created_at : string;
  status : Status;
  user_id : option string;
  payment : option string * option string * option string
}.

(** The columns [payment_id], [payment_status] and [payment_url] that
    the payment migration adds to [orders] ([ADD COLUMN IF NOT EXISTS
    ... TEXT]): nullable text columns, kept in [payment] in this
    order. *)
Definition payment_id (r : Row) : option string := fst (fst (payment r)).
Definition payment_status (r : Row) : option string := snd (fst (payment r)).
Definition payment_url (r : Row) : option string := snd (payment r).

(** The values of an insert ([mapOrderToDbRow] sends these twelve). *)
Record Insert : Type := mkInsert {
  i_customer_name : string;
  i_customer_email : string;
  i_customer_phone : string;
  i_pickup_date : string;
  i_pickup_time : string;
  i_start_address : string;
  i_end_address : string;
  i_start_point : float * float;
  i_end_point : float * float;
  i_distance : float;
  i_price : float;
  i_additional_notes : option string
}.

(** The patches of the three [update] calls of the store. *)
Definition with_status (v : Status) (r : Row) : Row :=
  mkRow (id r) (customer_name r) (customer_email r) (customer_phone r)
        (pickup_date r) (pickup_time r) (start_address r) (end_address r)
        (start_point r) (end_point r) (distance r) (price r)
        (additional_notes r) (created_at r) v (user_id r) (payment r).

Definition with_payment (v : option string * option string * option string)
  (r : Row) : Row :=
  mkRow (id r) (customer_name r) (customer_email r) (customer_phone r)
        (pickup_date r) (pickup_time r) (start_address r) (end_address r)
        (start_point r) (end_point r) (distance r) (price r)
        (additional_notes r) (created_at r) (status r) (user_id r) v.

(** [.update({ payment_status })] *)
Definition with_payment_status (v : string) (r : Row) : Row :=
  with_payment (payment_id r, Some v, payment_url r) r.

(** [.update({ payment_id, payment_status, payment_url })] *)
Definition with_payment_info (pid pstatus purl : string) (r : Row) : Row :=
  with_payment (Some pid, Some pstatus, Some purl) r.

Definition Table : Type := list Row.

(** The [{ data, error }] a query resolves to. *)
Inductive Reply (A : Type) : Type :=
| Data (data : A)
| Error (error : Thrown).
Arguments Data {A} data.
Arguments Error {A} error.

(** Errors the table itself answers with (plain objects, not
    instances of [Error]). *)
Definition duplicate_key : Thrown :=
  {| instanceofError := false;
     message := "duplicate key value violates unique constraint orders_pkey" |}.

Definition not_a_single_row : Thrown :=
  {| instanceofError := false;
     message := "JSON object requested, multiple (or no) rows returned" |}.

(** [.eq('id', v)] *)
Definition has_id (v : string) (r : Row) : bool := String.eqb (id r) v.

(** Every query takes [failure]: [Some e] when the call reports the
    error [e] (network, server, policy), in which case the table is as
    it was; [None] when the call goes through. *)

(** The row an insert of [v] makes: [id] and [created_at] are the
    defaults [gen_random_uuid()] and [now()] drawn by the database,
    [status] defaults to pending, the remaining columns to NULL. *)
Definition new_row (gen_random_uuid now : string) (v : Insert) : Row :=
  mkRow gen_random_uuid (i_customer_name v) (i_customer_email v)
        (i_customer_phone v) (i_pickup_date v) (i_pickup_time v)
        (i_start_address v) (i_end_address v) (i_start_point v)
        (i_end_point v) (i_distance v) (i_price v)
        (i_additional_notes v) now pending None (None, None, None).

(** [.insert(values).select().single()]; [id] is the primary key. *)
Definition insert (failure : option Thrown) (gen_random_uuid now : string)
  (v : Insert) (t : Table) : Reply Row * Table :=
  match failure with
  | Some e => (Error e, t)
  | None =>
      if existsb (has_id gen_random_uuid) t then (Error duplicate_key, t)
      else
        let r := new_row gen_random_uuid now v in
        (Data r, (t ++ [r])%list)
  end.

(** [.update(patch).eq('id', v)], for a caller whom the policies of
    the table let update every row (an admin); the update of a caller
    whom they do not is [Policies.update_as]. *)
Definition update (failure : option Thrown) (patch : Row -> Row) (v : string)
  (t : Table) : option Thrown * Table :=
  match failure with
  | Some e => (Some e, t)
  | None => (None, map (fun r => if has_id v r then patch r else r) t)
  end.

(** [.delete().eq('id', v)] *)
Definition delete (failure : option Thrown) (v : string) (t : Table)
  : option Thrown * Table :=
  match failure with
  | Some e => (Some e, t)
  | None => (None, filter (fun r => negb (has_id v r)) t)
  end.

(** [.order('created_at', { ascending: false })]: the timestamps are
    compared as the ISO strings the backend returns. *)
Fixpoint insert_desc (r : Row) (sorted : list Row) : list Row :=
  match sorted with
  | [] => [r]
  | r' :: rest =>
      if String.ltb (created_at r') (created_at r)
      then r :: sorted
      else r' :: insert_desc r rest
  end.

Definition order_created_at_desc (rows : list Row) : list Row :=
  fold_right insert_desc [] rows.

(** [.select('*').order('created_at', { ascending: false })] *)
Definition select_all (failure : option Thrown) (t : Table) : Reply (list Row) :=
  match failure with
  | Some e => Error e
  | None => Data (order_created_at_desc t)
  end.

(** [.select('*').eq('id', v).single()] *)
Definition select_single (failure : option Thrown) (v : string) (t : Table)
  : Reply Row :=
  match failure with
  | Some e => Error e
  | None =>
      match filter (has_id v) t with
      | [r] => Data r
      | _ => Error not_a_single_row
      end
  end.

End Supabase.

(* ================================================================== *)
(** * The orders store ([useOrdersStore]) *)
(* ================================================================== *)

Module OrdersStore.
Import JS GoPay.
Open Scope string_scope.

(** [interface Order] *)
Record Order : Type := mkOrder {
  id : string;
  customerName : string;
  customerEmail : string;
  customerPhone : string;
  pickupDate : string;
  pickupTime : string;
  startAddress : string;
  endAddress : string;
  startPoint : float * float;
  endPoint : float * float;
  distance : float;
  price : float;
  additionalNotes : option string;
  createdAt : string;
  status : Supabase.Status;
  paymentId : option string;
  paymentStatus : option string;
  paymentUrl : option string
}.

(** [Omit<Order, 'id' | 'createdAt' | 'status'>], the argument of
    [addOrder]. *)
Record NewOrder : Type := mkNewOrder {
  n_customerName : string;
  n_customerEmail : string;
  n_customerPhone : string;
  n_pickupDate : string;
  n_pickupTime : string;
  n_startAddress : string;
  n_endAddress : string;
  n_startPoint : float * float;
  n_endPoint : float * float;
  n_distance : float;
  n_price : float;
  n_additionalNotes : option string;
  n_paymentId : option string;
  n_paymentStatus : option string;
  n_paymentUrl : option string
}.

Definition mapDbRowToOrder (row : Supabase.Row) : Order :=
  {| id := Supabase.id row;
     customerName := Supabase.customer_name row;
     customerEmail := Supabase.customer_email row;
     customerPhone := Supabase.customer_phone row;
     pickupDate := Supabase.pickup_date row;
     pickupTime := Supabase.pickup_time row;
     startAddress := Supabase.start_address row;
     endAddress := Supabase.end_address row;
     startPoint := Supabase.start_point row;
     endPoint := Supabase.end_point row;
     distance := Supabase.distance row;
     price := Supabase.price row;
     additionalNotes := Supabase.additional_notes row;
     createdAt := Supabase.created_at row;
     status := Supabase.status row;
     paymentId := Supabase.payment_id row;
     paymentStatus := Supabase.payment_status row;
     paymentUrl := Supabase.payment_url row |}.

Definition mapOrderToDbRow (order : NewOrder) : Supabase.Insert :=
  {| Supabase.i_customer_name := n_customerName order;
     Supabase.i_customer_email := n_customerEmail order;
     Supabase.i_customer_phone := n_customerPhone order;
     Supabase.i_pickup_date := n_pickupDate order;
     Supabase.i_pickup_time := n_pickupTime order;
     Supabase.i_start_address := n_startAddress order;
     Supabase.i_end_address := n_endAddress order;
     Supabase.i_start_point := n_startPoint order;
     Supabase.i_end_point := n_endPoint order;
     Supabase.i_distance := n_distance order;
     Supabase.i_price := n_price order;
     Supabase.i_additional_notes := n_additionalNotes order |}.

(** [order.status = v] and [order.paymentStatus = v] on a cached order. *)
Definition set_status (v : Supabase.Status) (o : Order) : Order :=
  mkOrder (id o) (customerName o) (customerEmail o) (customerPhone o)
          (pickupDate o) (pickupTime o) (startAddress o) (endAddress o)
          (startPoint o) (endPoint o) (distance o) (price o)
          (additionalNotes o) (createdAt o) v
          (paymentId o) (paymentStatus o) (paymentUrl o).

Definition set_paymentStatus (v : string) (o : Order) : Order :=
  mkOrder (id o) (customerName o) (customerEmail o) (customerPhone o)
          (pickupDate o) (pickupTime o) (startAddress o) (endAddress o)
          (startPoint o) (endPoint o) (distance o) (price o)
          (additionalNotes o) (createdAt o) (status o)
          (paymentId o) (Some v) (paymentUrl o).

(** The refs of the store. *)
Record Store : Type := mkStore {
  orders : list Order;
  isLoading : bool;
  error : option string
}.

(** The store together with the remote table it talks to. *)
Record World : Type := mkWorld {
  table : Supabase.Table;
  store : Store
}.

(** [o => o.id === v] *)
Definition is_order (v : string) (o : Order) : bool := String.eqb (id o) v.

(** The object [orders.value.find(p)] returns is the array element
    itself: an assignment to one of its fields changes the first element
    that satisfies [p], in place. *)
Fixpoint assign_first (p : Order -> bool) (f : Order -> Order)
  (l : list Order) : list Order :=
  match l with
  | [] => []
  | o :: rest => if p o then f o :: rest else o :: assign_first p f rest
  end.

(** [isLoading.value = true; error.value = null;] *)
Definition begin (s : Store) : Store :=
  {| orders := orders s; isLoading := true; error := None |}.

(** [catch (err) { error.value = err instanceof Error ? err.message : fallback }] *)
Definition caught (fallback : string) (err : Thrown) (s : Store) : Store :=
  {| orders := orders s; isLoading := isLoading s;
     error := Some (messageOr fallback err) |}.

(** [finally { isLoading.value = false }] *)
Definition finally (s : Store) : Store :=
  {| orders := orders s; isLoading := false; error := error s |}.

(** [orders.value = l] *)
Definition with_orders (l : list Order) (s : Store) : Store :=
  {| orders := l; isLoading := isLoading s; error := error s |}.

Definition fetchOrders (failure : option Thrown) (w : World) : World :=
  let s := begin (store w) in
  let s :=
    match Supabase.select_all failure (table w) with
    | Supabase.Error supabaseError => caught "Failed to fetch orders" supabaseError s
    | Supabase.Data data => with_orders (map mapDbRowToOrder data) s
    end in
  {| table := table w; store := finally s |}.

Definition updateOrderStatus (failure : option Thrown) (v : string)
  (status' : Supabase.Status) (w : World) : World :=
  let s := begin (store w) in
  let (supabaseError, t) :=
    Supabase.update failure (Supabase.with_status status') v (table w) in
  let s :=
    match supabaseError with
    | Some err => caught "Failed to update order status" err s
    | None =>
        with_orders (assign_first (is_order v) (set_status status') (orders s)) s
    end in
  {| table := t; store := finally s |}.

(** [updatePaymentStatus]; [cascade_failure] is the outcome of the call
    made by the nested [updateOrderStatus], when it is made. *)
Definition updatePaymentStatus (failure cascade_failure : option Thrown)
  (orderId paymentStatus' : string) (w : World) : World :=
  let s := begin (store w) in
  let (supabaseError, t) :=
    Supabase.update failure (Supabase.with_payment_status paymentStatus')
                    orderId (table w) in
  match supabaseError with
  | Some err =>
      {| table := t;
         store := finally (caught "Failed to update payment status" err s) |}
  | None =>
      match find (is_order orderId) (orders s) with
      | Some _ =>
          let s :=
            with_orders
              (assign_first (is_order orderId)
                            (set_paymentStatus paymentStatus') (orders s)) s in
          let w' := {| table := t; store := s |} in
          let w' :=
            if String.eqb paymentStatus' "PAID"
            then updateOrderStatus cascade_failure orderId Supabase.confirmed w'
            else w' in
          {| table := table w'; store := finally (store w') |}
      | None => {| table := t; store := finally s |}
      end
  end.

Definition deleteOrder (failure : option Thrown) (v : string) (w : World)
  : World :=
  let s := begin (store w) in
  let (supabaseError, t) := Supabase.delete failure v (table w) in
  let s :=
    match supabaseError with
    | Some err => caught "Failed to delete order" err s
    | None => with_orders (filter (fun o => negb (is_order v o)) (orders s)) s
    end in
  {| table := t; store := finally s |}.

(** [getOrderById]: from the cache; [None] is [undefined]. *)
Definition getOrderById (v : string) (s : Store) : option Order :=
  find (is_order v) (orders s).

(** [fetchOrderById]: from the table; [None] is [null]. *)
Definition fetchOrderById (failure : option Thrown) (v : string) (w : World)
  : option Order * World :=
  let s := begin (store w) in
  match Supabase.select_single failure v (table w) with
  | Supabase.Error supabaseError =>
      (None, {| table := table w;
                store := finally (caught "Failed to fetch order" supabaseError s) |})
  | Supabase.Data data =>
      (Some (mapDbRowToOrder data), {| table := table w; store := finally s |})
  end.

(** What [addOrder] meets on its way: the outcome of the insert and the
    defaults the database draws, the surroundings of [createPayment],
    the outcome of the update that writes the payment fields back, of
    the two notifications and of the refresh of the list. *)
Record AddOrderEnv : Type := {
  insert_failure : option Thrown;
  gen_random_uuid : string;
  now : string;
  payment_env : PaymentEnv;
  payment_update_failure : option Thrown;
  admin_notification : Settled bool;
  customer_confirmation : Settled bool;
  refresh_failure : option Thrown
}.

(** The row a successful insert of [order] adds. *)
Definition inserted_row (env : AddOrderEnv) (order : NewOrder) : Supabase.Row :=
  Supabase.new_row (gen_random_uuid env) (now env) (mapOrderToDbRow order).

(** [{ orderId, paymentUrl }] *)
Record Added : Type := { orderId : string; added_paymentUrl : option string }.

(** [try { await f(orderDetails) } catch (err) { console.error(...) }]:
    whatever the notification does, the store goes on. *)
Definition logged {A : Type} (outcome : Settled A) : unit := tt.

(** [addOrder]; [None] is [null]. *)
Definition addOrder (env : AddOrderEnv) (order : NewOrder) (w : World)
  : option Added * World :=
  let s := begin (store w) in
  match Supabase.insert (insert_failure env) (gen_random_uuid env) (now env)
                        (mapOrderToDbRow order) (table w) with
  | (Supabase.Error supabaseError, t) =>
      (None, {| table := t;
                store := finally (caught "Failed to add order" supabaseError s) |})
  | (Supabase.Data data, t) =>
      let (data, t) :=
        match createPayment (payment_env env)
                {| od_id := Supabase.id data;
                   od_customerName := n_customerName order;
                   od_customerEmail := n_customerEmail order;
                   od_price := n_price order;
                   od_description :=
                     "Transportation from " ++ n_startAddress order
                       ++ " to " ++ n_endAddress order |} with
        | Resolved paymentResult =>
            let patch :=
              Supabase.with_payment_info (pr_id paymentResult) "CREATED"
                                         (pr_url paymentResult) in
            let (updateError, t) :=
              Supabase.update (payment_update_failure env) patch
                              (Supabase.id data) t in
            (patch data, t)
        | Rejected paymentError => (data, t)
        end in
      let _ := logged (admin_notification env) in
      let _ := logged (customer_confirmation env) in
      let w' := fetchOrders (refresh_failure env) {| table := t; store := s |} in
      (Some {| orderId := Supabase.id data;
               added_paymentUrl := Supabase.payment_url data |},
       {| table := table w'; store := finally (store w') |})
  end.

End OrdersStore.

(* ================================================================== *)
(** * The payment-result page: the single poll of [onMounted] *)
(* ================================================================== *)

Module PaymentResultPage.
Import JS GoPay.
Open Scope string_scope.

(** The refs of the page. *)
Record Page : Type := mkPage {
  isLoading : bool;
  error : option string;
  order : option OrdersStore.Order;
  paymentStatus : option string
}.

Definition initial : Page :=
  {| isLoading := true; error := None; order := None; paymentStatus := None |}.

(** What the poll meets: the outcome of the fetch, the two draws of the
    status stub, and the outcomes of the (at most two) updates. *)
Record PollEnv : Type := {
  fetch_failure : option Thrown;
  draw1 : float;
  draw2 : float;
  update_failure : option Thrown;
  cascade_failure : option Thrown
}.

(** The page when the poll is over: [isLoading] is false. *)
Definition failed (msg : string) : Page :=
  {| isLoading := false; error := Some msg; order := None;
     paymentStatus := None |}.

Definition shown (orderData : OrdersStore.Order) (status : option string)
  : Page :=
  {| isLoading := false; error := None; order := Some orderData;
     paymentStatus := status |}.

(** [onMounted(async () => { ... })] on [route.query.orderId]; the page
    starts from [initial].  The store functions do not throw, so the
    inner [catch] is not reached; a status that is [undefined] (there is
    none, see the facts on [getPaymentStatus]) is shown and not written. *)
Definition onMounted (env : PollEnv) (query_orderId : option string)
  (w : OrdersStore.World) : Page * OrdersStore.World :=
  match query_orderId with
  | Some orderId =>
      if negb (truthy query_orderId) then (failed "No order ID provided", w)
      else
        match OrdersStore.fetchOrderById (fetch_failure env) orderId w with
        | (None, w) => (failed (message (newError "Order not found")), w)
        | (Some orderData, w) =>
            if truthy (OrdersStore.paymentId orderData) then
              match OrdersStore.paymentId orderData with
              | Some pid =>
                  match getPaymentStatus pid (draw1 env) (draw2 env) with
                  | Some status =>
                      (shown orderData (Some status),
                       OrdersStore.updatePaymentStatus
                         (update_failure env) (cascade_failure env)
                         orderId status w)
                  | None => (shown orderData None, w)
                  end
              | None => (shown orderData (Some "UNKNOWN"), w)
              end
            else (shown orderData (Some "UNKNOWN"), w)
        end
  | None => (failed "No order ID provided", w)
  end.

End PaymentResultPage.

(* ================================================================== *)
(** * The auth store and the navigation guard *)
(* ================================================================== *)

Module AuthStore.
Import JS.
Open Scope string_scope.

(** The session user: its id and its [user_metadata] object. *)
Record User : Type := {
  user_id : string;
  user_metadata : option Object
}.

(** [const user = ref<any>(null)] *)
Record Store : Type := { user : option User }.

(** [computed(() => !!user.value)] *)
Definition isAuthenticated (s : Store) : bool :=
  match user s with
  | Some _ => true
  | None => false
  end.

(** [computed(() => user.value?.user_metadata?.role === 'admin')] *)
Definition isAdmin (s : Store) : bool :=
  match user s with
  | Some u =>
      match user_metadata u with
      | Some md =>
          match get "role" md with
          | Some role => String.eqb role "admin"
          | None => false
          end
      | None => false
      end
  | None => false
  end.

(** [user.value.user_metadata = { ...user.value.user_metadata, role: profile.role }],
    done when the profile lookup finds a profile. *)
Definition store_role (profile_role : option string) (u : User) : User :=
  match profile_role with
  | Some role =>
      let md := match user_metadata u with Some md => md | None => [] end in
      {| user_id := user_id u;
         user_metadata :=
           Some (("role", role)
                   :: filter (fun kv => negb (String.eqb (fst kv) "role")) md) |}
  | None => u
  end.

(** The state after a session of [u] was found and the profile looked
    up ([initialize], the sign-in listener and [login] do the same). *)
Definition signed_in (u : User) (profile_role : option string) : Store :=
  {| user := Some (store_role profile_role u) |}.

Definition signed_out : Store := {| user := None |}.

End AuthStore.

Module Router.
Import JS.
Open Scope string_scope.

(** A route record of [createRouter]; [requiresAuth] is
    [meta.requiresAuth], false where [meta] has none. *)
Record RouteRecord : Type := {
  path : string;
  name : string;
  requiresAuth : bool
}.

Definition routes : list RouteRecord :=
  [ {| path := "/"; name := "home"; requiresAuth := false |};
    {| path := "/admin"; name := "admin"; requiresAuth := true |};
    {| path := "/login"; name := "login"; requiresAuth := false |};
    {| path := "/payment-result"; name := "paymentResult"; requiresAuth := false |} ].

(** The target [to] of a navigation: the matched record and the full
    path (path, query and hash) that was asked for. *)
Record Location : Type := {
  matched : RouteRecord;
  fullPath : string
}.

(** Resolving a plain path (no query, no hash) against the table. *)
Definition resolve (p : string) : option Location :=
  match find (fun r => String.eqb (path r) p) routes with
  | Some r => Some {| matched := r; fullPath := p |}
  | None => None
  end.

(** What the guard passes to [next]: nothing, or a named location with a
    query. *)
Inductive Next : Type :=
| proceed
| redirect (to_name : string) (query : Object).

(** [router.beforeEach((to, _from, next) => { ... })] *)
Definition beforeEach (authStore : AuthStore.Store) (to : Location) : Next :=
  if requiresAuth (matched to) && negb (AuthStore.isAuthenticated authStore)
  then redirect "login" [("redirect", fullPath to)]
  else proceed.

(** The path of the route a named location stands for. *)
Definition path_of_name (n : string) : option string :=
  match find (fun r => String.eqb (name r) n) routes with
  | Some r => Some (path r)
  | None => None
  end.

End Router.

(* ================================================================== *)
(** * Sequences of store calls *)
(* ================================================================== *)

Module Session.
Import JS OrdersStore.

(** One call of a store function, with the outcomes it meets. *)
Inductive Call : Type :=
| call_fetchOrders (failure : option Thrown)
| call_addOrder (env : AddOrderEnv) (order : NewOrder)
| call_updateOrderStatus (failure : option Thrown) (v : string)
    (status' : Supabase.Status)
| call_updatePaymentStatus (failure cascade_failure : option Thrown)
    (orderId paymentStatus' : string)
| call_deleteOrder (failure : option Thrown) (v : string)
| call_fetchOrderById (failure : option Thrown) (v : string).

Definition step (c : Call) (w : World) : World :=
  match c with
  | call_fetchOrders failure => fetchOrders failure w
  | call_addOrder env order => snd (addOrder env order w)
  | call_updateOrderStatus failure v status' =>
      updateOrderStatus failure v status' w
  | call_updatePaymentStatus failure cascade_failure orderId paymentStatus' =>
      updatePaymentStatus failure cascade_failure orderId paymentStatus' w
  | call_deleteOrder failure v => deleteOrder failure v w
  | call_fetchOrderById failure v => snd (fetchOrderById failure v w)
  end.

(** The calls one after the other, the first of the list first. *)
Definition run (calls : list Call) (w : World) : World :=
  fold_left (fun w c => step c w) calls w.

(** The database does not hand out [v] as the id of a new row. *)
Definition does_not_generate (v : string) (c : Call) : bool :=
  match c with
  | call_addOrder env _ => negb (String.eqb (gen_random_uuid env) v)
  | _ => true
  end.

(** The ids persisted in the table and the ids held in the cache. *)
Definition persisted_ids (w : World) : list string := map Supabase.id (table w).
Definition cached_ids (w : World) : list string := map id (orders (store w)).

(** [v] is neither persisted nor cached. *)
Definition absent (v : string) (w : World) : Prop :=
  ~ In v (persisted_ids w) /\ ~ In v (cached_ids w).

End Session.

(* ================================================================== *)
(** * Sample data *)
(* ================================================================== *)

Module Samples.
Import JS GoPay.
Open Scope string_scope.
Open Scope float_scope.

(** A booking from Prague to Brno, 200 km, as the planner submits it. *)
Definition booking : OrdersStore.NewOrder :=
  OrdersStore.mkNewOrder "Jana Novakova" "jana@example.com" "+420 777 123 456"
    "2025-03-10" "08:30" "Prague" "Brno" (50.25, 14.5) (49.25, 16.5)
    200000 4000 None None None None.

(** The row of that booking, with a payment session created for it. *)
Definition row1 : Supabase.Row :=
  Supabase.mkRow "o1" "Jana Novakova" "jana@example.com" "+420 777 123 456"
    "2025-03-10" "08:30" "Prague" "Brno" (50.25, 14.5) (49.25, 16.5)
    200000 4000 None "2025-03-01T00:54:24+00:00" Supabase.pending None
    (Some "mock_payment_0a1b2c3d", Some "CREATED",
     Some "https://app.example/payment-result?orderId=o1&mockPayment=true").

Definition row2 : Supabase.Row :=
  Supabase.mkRow "o2" "Petr Svoboda" "petr@example.com" "+420 777 654 321"
    "2025-03-11" "17:00" "Brno" "Olomouc" (49.25, 16.5) (49.5, 17.25)
    78000 1560 None "2025-03-02T10:00:00+00:00" Supabase.pending None
    (None, None, None).

Definition empty_store : OrdersStore.Store :=
  OrdersStore.mkStore [] false None.

(** The payment-result page right after the redirect: the table holds
    the orders, the list was never loaded. *)
Definition fresh_page_world : OrdersStore.World :=
  OrdersStore.mkWorld [row1; row2] empty_store.

(** The admin page after [fetchOrders]: the cache mirrors the table. *)
Definition admin_world : OrdersStore.World :=
  OrdersStore.fetchOrders None fresh_page_world.

Definition empty_world : OrdersStore.World :=
  OrdersStore.mkWorld [] empty_store.

(** A browser, and a context without [window]. *)
Definition browser : PaymentEnv :=
  {| uuidv4 := Some "0a1b2c3d-0000-4000-8000-000000000000";
     window_location_origin := Some "https://app.example" |}.

Definition no_window : PaymentEnv :=
  {| uuidv4 := Some "0a1b2c3d-0000-4000-8000-000000000000";
     window_location_origin := None |}.

(** All calls of [addOrder] go through, except the payment session when
    [penv] has no [window]. *)
Definition add_env (penv : PaymentEnv) : OrdersStore.AddOrderEnv :=
  {| OrdersStore.insert_failure := None;
     OrdersStore.gen_random_uuid := "o3";
     OrdersStore.now := "2025-03-03T09:00:00+00:00";
     OrdersStore.payment_env := penv;
     OrdersStore.payment_update_failure := None;
     OrdersStore.admin_notification := Resolved true;
     OrdersStore.customer_confirmation := Resolved true;
     OrdersStore.refresh_failure := None |}.

(** What a query resolves to when the network is down: the client
    catches the failure of [fetch] and reports a plain error object,
    which is not an [Error]. *)
Definition network_down : Thrown :=
  {| instanceofError := false; message := "TypeError: Failed to fetch" |}.

Definition add_env_insert_fails : OrdersStore.AddOrderEnv :=
  {| OrdersStore.insert_failure := Some network_down;
     OrdersStore.gen_random_uuid := "o3";
     OrdersStore.now := "2025-03-03T09:00:00+00:00";
     OrdersStore.payment_env := browser;
     OrdersStore.payment_update_failure := None;
     OrdersStore.admin_notification := Resolved true;
     OrdersStore.customer_confirmation := Resolved true;
     OrdersStore.refresh_failure := None |}.

(** A poll whose first draw is below 0.7 (the stub answers PAID) and
    whose calls all go through. *)
Definition poll_paid : PaymentResultPage.PollEnv :=
  {| PaymentResultPage.fetch_failure := None;
     PaymentResultPage.draw1 := 0.5;
     PaymentResultPage.draw2 := 0;
     PaymentResultPage.update_failure := None;
     PaymentResultPage.cascade_failure := None |}.

(** Calls made after a deletion. *)
Definition later_calls : list Session.Call :=
  [ Session.call_fetchOrders None;
    Session.call_addOrder (add_env browser) booking;
    Session.call_updateOrderStatus None "o1" Supabase.confirmed;
    Session.call_updatePaymentStatus None None "o1" "PAID";
    Session.call_fetchOrders None ].

(** Requests to the callback endpoint. *)
Definition callback_body : Object :=
  [("order_number", "ORDER-1"); ("payment_id", "77"); ("state", "PAID")].

Definition req_without_signature : Server.Request :=
  {| Server.headers := [("content-type", "application/json")];
     Server.body := callback_body |}.

Definition req_empty_signature : Server.Request :=
  {| Server.headers :=
       [("content-type", "application/json"); ("x-gopay-signature", "")];
     Server.body := callback_body |}.

Definition req_some_signature : Server.Request :=
  {| Server.headers :=
       [("content-type", "application/json"); ("x-gopay-signature", "c2ln")];
     Server.body := callback_body |}.

(** Session users. *)
Definition alice : AuthStore.User :=
  {| AuthStore.user_id := "u-alice"; AuthStore.user_metadata := None |}.

End Samples.

(* ================================================================== *)
(** * Binary64 values below six *)
(* ================================================================== *)

Module Binary64.
Open Scope Z_scope.

(** [x] is a zero, or a positive [m * 2^e] that is less than 6. *)
Definition below_six (x : spec_float) : Prop :=
  match x with
  | S754_zero _ => True
  | S754_finite false m e =>
      if 0 <=? e then Zpos m * 2 ^ e < 6 else Zpos m < 6 * 2 ^ (- e)
  | _ => False
  end.

End Binary64.

(* ================================================================== *)
(** * The cache as a mirror of the table *)
(* ================================================================== *)

Module StoreInvariant.
Import JS OrdersStore.

(** Every cached order is the image of a row of the table. *)
Definition mirrors (t : Supabase.Table) (l : list Order) : Prop :=
  forall o, In o l -> exists r, In r t /\ o = mapDbRowToOrder r.

(** The ids of the table are pairwise distinct (the primary key), so
    are the ids of the cache, and the cache mirrors the table. *)
Definition coherent (w : World) : Prop :=
  NoDup (map Supabase.id (table w))
  /\ NoDup (map id (orders (store w)))
  /\ mirrors (table w) (orders (store w)).

(** [a] was not created before [b] (the timestamps compared as the
    selection of [fetchOrders] compares them). *)
Definition not_older (a b : Order) : Prop :=
  String.ltb (createdAt a) (createdAt b) = false.

(** The same on rows. *)
Definition row_not_older (a b : Supabase.Row) : Prop :=
  String.ltb (Supabase.created_at a) (Supabase.created_at b) = false.

(** The order a row made of [order] is read back as, once the payment
    fields [p] are written on it. *)
Definition stored_order (env : AddOrderEnv) (order : NewOrder)
  (p : option string * option string * option string) : Order :=
  mkOrder (gen_random_uuid env) (n_customerName order) (n_customerEmail order)
          (n_customerPhone order) (n_pickupDate order) (n_pickupTime order)
          (n_startAddress order) (n_endAddress order) (n_startPoint order)
          (n_endPoint order) (n_distance order) (n_price order)
          (n_additionalNotes order) (now env) Supabase.pending
          (fst (fst p)) (snd (fst p)) (snd p).

End StoreInvariant.

(* ================================================================== *)
(** * The payment-result page: what is rendered *)
(* ================================================================== *)

Module PaymentResultView.
Import JS GoPay PaymentResultPage.
Open Scope string_scope.

(** An entry of [statusMessages]. *)
Record StatusMessage : Type := {
  title : string;
  sm_message : string;
  color : string
}.

(** [statusMessages[key]?.]: the entry under an own key, [None] where
    the template falls back (no own entry has the fields read). *)
Definition statusMessages (key : string) : option StatusMessage :=
  if key =? "CREATED" then
    Some {| title := "Payment Created";
            sm_message := "Your payment has been created but not yet processed.";
            color := "blue" |}
  else if key =? "PENDING" then
    Some {| title := "Payment Pending";
            sm_message := "Your payment is being processed. Please wait a moment.";
            color := "yellow" |}
  else if key =? "PAID" then
    Some {| title := "Payment Successful";
            sm_message := "Your payment has been successfully processed. Thank you for your booking!";
            color := "green" |}
  else if key =? "CANCELED" then
    Some {| title := "Payment Canceled";
            sm_message := "Your payment has been canceled. You can try again if you wish.";
            color := "red" |}
  else if key =? "TIMEOUTED" then
    Some {| title := "Payment Expired";
            sm_message := "Your payment session has expired. Please try booking again.";
            color := "red" |}
  else if key =? "REFUNDED" then
    Some {| title := "Payment Refunded";
            sm_message := "Your payment has been refunded.";
            color := "yellow" |}
  else if key =? "FAILED" then
    Some {| title := "Payment Failed";
            sm_message := "There was an issue processing your payment. Please try again or contact support.";
            color := "red" |}
  else if key =? "UNKNOWN" then
    Some {| title := "Payment Status Unknown";
            sm_message := "We could not determine the status of your payment. Please contact support.";
            color := "gray" |}
  else None.

(** [statusMessages[paymentStatus]?.field || fallback] *)
Definition field_or (field : StatusMessage -> string) (fallback : string)
  (paymentStatus : string) : string :=
  match statusMessages paymentStatus with
  | Some m => if truthy (Some (field m)) then field m else fallback
  | None => fallback
  end.

(** [['CANCELED', 'TIMEOUTED', 'FAILED'].includes(paymentStatus)] *)
Definition retry_offered (paymentStatus : string) : bool :=
  existsb (String.eqb paymentStatus) ["CANCELED"; "TIMEOUTED"; "FAILED"].

(** What the template shows: the chain of [v-if], [v-else-if]. *)
Inductive View : Type :=
| loading_view
| error_view (msg : string)
| result_view (o : OrdersStore.Order) (title message color : string)
              (retry : bool)
| nothing.

Definition render (p : Page) : View :=
  if isLoading p then loading_view
  else if truthy (error p) then
    match error p with Some msg => error_view msg | None => nothing end
  else
    match order p, paymentStatus p with
    | Some o, Some s =>
        if truthy (Some s) then
          result_view o (field_or title "Unknown Status" s)
            (field_or sm_message
                      "We could not determine the status of your payment." s)
            (field_or color "gray" s)
            (retry_offered s)
        else nothing
    | _, _ => nothing
    end.

(** [tryAgain]: where the browser is sent, [None] when it stays. *)
Definition tryAgain (p : Page) : option string :=
  match order p with
  | Some o =>
      if truthy (OrdersStore.paymentUrl o) then OrdersStore.paymentUrl o
      else None
  | None => None
  end.

(** The page is reached by a full navigation ([window.location.href =
    paymentUrl]): the store, which is not persisted, is set up anew,
    the table is what it was. *)
Definition page_load (w : OrdersStore.World) : OrdersStore.World :=
  OrdersStore.mkWorld (OrdersStore.table w) (OrdersStore.mkStore [] false None).

End PaymentResultView.

(* ================================================================== *)
(** * Mail: the [/api/send-email] endpoint and its client *)
(* ================================================================== *)

Module Mail.
Import JS.
Open Scope string_scope.

(** [const msg = { to, from, subject, text, html }] *)
Record Message : Type := {
  m_to : string;
  m_from : option string;
  m_subject : string;
  m_text : string;
  m_html : string
}.

(** What a transport throws: [error.message] and, where the error
    carries a response, the body of [error.response] as text. *)
Record SendError : Type := {
  se_message : option string;
  se_response_body : option string
}.

(** What the handler takes from its surroundings:
    [process.env.VITE_FROM_EMAIL] and the outcome of each transport on a
    message ([None]: the message was accepted). *)
Record ServerEnv : Type := {
  VITE_FROM_EMAIL : option string;
  sgMail_send : Message -> option SendError;
  transporter_sendMail : Message -> option SendError
}.

(** The transports that were called, in the order of the calls. *)
Inductive Attempt : Type :=
| by_sendgrid (m : Message)
| by_nodemailer (m : Message).

(** The JSON the handler answers with ([None] is an absent member or
    [null]). *)
Record MailResponse : Type := {
  status : Z;
  success : bool;
  r_message : option string;
  error : option string;
  details : option string
}.

(** [value || fallback] on strings. *)
Definition or_else (value : option string) (fallback : string) : string :=
  match value with
  | Some v => if truthy value then v else fallback
  | None => fallback
  end.

(** [!to || !subject || (!html && !text)] *)
Definition missing_fields (body : Object) : bool :=
  negb (truthy (get "to" body)) || negb (truthy (get "subject" body))
  || (negb (truthy (get "html" body)) && negb (truthy (get "text" body))).

(** [app.post('/api/send-email', ...)] of [server.js], on the request
    of the callback endpoint's type ([req.body] is an object). *)
Definition send_email (env : ServerEnv) (req : Server.Request)
  : MailResponse * list Attempt :=
  let body := Server.body req in
  if missing_fields body then
    ({| status := 400; success := false; r_message := None;
        error := Some "Missing required fields: to, subject, and either html or text";
        details := None |}, [])
  else
    let msg :=
      {| m_to := or_else (get "to" body) "";
         m_from := if truthy (get "from" body) then get "from" body
                   else VITE_FROM_EMAIL env;
         m_subject := or_else (get "subject" body) "";
         m_text := or_else (get "text" body) "";
         m_html := or_else (get "html" body) "" |} in
    let sent := {| status := 200; success := true;
                   r_message := Some "Email sent successfully";
                   error := None; details := None |} in
    match sgMail_send env msg with
    | None => (sent, [by_sendgrid msg])
    | Some sendgridError =>
        match transporter_sendMail env msg with
        | None => (sent, [by_sendgrid msg; by_nodemailer msg])
        | Some err =>
            ({| status := 500; success := false; r_message := None;
                error := Some (or_else (se_message err) "Failed to send email");
                details := se_response_body err |},
             [by_sendgrid msg; by_nodemailer msg])
        end
    end.

(** The client side ([lib/email]): the environment of the build, whether
    the request reaches the server, and whether [window.open] of the
    [mailto:] fallback goes through. *)
Record ClientEnv : Type := {
  VITE_ADMIN_EMAIL : option string;
  client_VITE_FROM_EMAIL : option string;
  reaches_server : bool;
  window_open : bool
}.

(** [response.ok] *)
Definition response_ok (r : MailResponse) : bool :=
  (200 <=? status r)%Z && (status r <=? 299)%Z.

(** The body the two notifications post; [html] and [text] are the
    rendered templates. *)
Definition admin_body (cenv : ClientEnv) (order_id html text : string)
  : Object :=
  [ ("to", or_else (VITE_ADMIN_EMAIL cenv) "admin@example.com");
    ("from", or_else (client_VITE_FROM_EMAIL cenv) "noreply@routeplanner.app");
    ("subject", "New Order Received: " ++ order_id);
    ("html", html);
    ("text", text) ].

Definition customer_body (cenv : ClientEnv) (order_id customerEmail html text : string)
  : Object :=
  [ ("to", customerEmail);
    ("from", or_else (client_VITE_FROM_EMAIL cenv) "noreply@routeplanner.app");
    ("subject", "Your Route Booking Confirmation: " ++ order_id);
    ("html", html);
    ("text", text) ].

Definition post (body : Object) : Server.Request :=
  {| Server.headers := [("content-type", "application/json")];
     Server.body := body |}.

(** What a notification did: its result, the transports the server
    called, and whether the mail client was opened. *)
Record Outcome : Type := {
  result : bool;
  attempts : list Attempt;
  mailto_opened : bool
}.

(** [fallbackEmailNotification]: [true] when [window.open] went through. *)
Definition fallbackEmailNotification (cenv : ClientEnv) (attempts : list Attempt)
  : Outcome :=
  {| result := window_open cenv; attempts := attempts;
     mailto_opened := window_open cenv |}.

(** [sendAdminNotification], its request answered by [send_email]. *)
Definition sendAdminNotification (cenv : ClientEnv) (senv : ServerEnv)
  (order_id html text : string) : Outcome :=
  if reaches_server cenv then
    let (response, attempts) :=
      send_email senv (post (admin_body cenv order_id html text)) in
    if negb (response_ok response) then fallbackEmailNotification cenv attempts
    else if negb (success response) then fallbackEmailNotification cenv attempts
    else {| result := true; attempts := attempts; mailto_opened := false |}
  else fallbackEmailNotification cenv [].

(** [sendCustomerConfirmation], its request answered by [send_email]. *)
Definition sendCustomerConfirmation (cenv : ClientEnv) (senv : ServerEnv)
  (order_id customerEmail html text : string) : Outcome :=
  if reaches_server cenv then
    let (response, attempts) :=
      send_email senv (post (customer_body cenv order_id customerEmail html text)) in
    if negb (response_ok response)
    then {| result := false; attempts := attempts; mailto_opened := false |}
    else if negb (success response)
    then {| result := false; attempts := attempts; mailto_opened := false |}
    else {| result := true; attempts := attempts; mailto_opened := false |}
  else {| result := false; attempts := []; mailto_opened := false |}.

(** The message the server makes of the request of the admin
    notification, and of the customer confirmation. *)
Definition admin_message (cenv : ClientEnv) (order_id html text : string)
  : Message :=
  {| m_to := or_else (VITE_ADMIN_EMAIL cenv) "admin@example.com";
     m_from := Some (or_else (client_VITE_FROM_EMAIL cenv)
                             "noreply@routeplanner.app");
     m_subject := "New Order Received: " ++ order_id;
     m_text := text;
     m_html := html |}.

Definition customer_message (cenv : ClientEnv)
  (order_id customerEmail html text : string) : Message :=
  {| m_to := customerEmail;
     m_from := Some (or_else (client_VITE_FROM_EMAIL cenv)
                             "noreply@routeplanner.app");
     m_subject := "Your Route Booking Confirmation: " ++ order_id;
     m_text := text;
     m_html := html |}.

(** One of the two transports accepts [m]; and the transports that are
    called for it, SendGrid first and the other if SendGrid refuses. *)
Definition delivers (senv : ServerEnv) (m : Message) : bool :=
  match sgMail_send senv m with
  | None => true
  | Some _ =>
      match transporter_sendMail senv m with
      | None => true
      | Some _ => false
      end
  end.

Definition tried (senv : ServerEnv) (m : Message) : list Attempt :=
  by_sendgrid m
  :: match sgMail_send senv m with
     | None => []
     | Some _ => [by_nodemailer m]
     end.

(** Transports for the examples. *)
Definition accepts (m : Message) : option SendError := None.
Definition refuses (m : Message) : option SendError :=
  Some {| se_message := Some "Unauthorized"; se_response_body := None |}.

End Mail.

(* ================================================================== *)
(** * Mail: the [send-email] edge function *)
(* ================================================================== *)

Module EdgeMail.
Import JS.
Open Scope string_scope.

(** The request: its method and what [req.json()] settles to (it
    rejects when the body is not JSON). *)
Record EdgeRequest : Type := {
  method : string;
  json : Settled Object
}.

(** The argument of [client.send]. *)
Record Mail : Type := {
  mail_from : string;
  mail_to : string;
  mail_subject : string;
  mail_content : string;
  mail_html : string
}.

(** The outcomes of the three calls on the SMTP client ([None]: the
    call went through). *)
Record SmtpEnv : Type := {
  connectTLS : option Thrown;
  send : Mail -> option Thrown;
  close : option Thrown
}.

(** The calls made on the SMTP client, in order. *)
Inductive SmtpCall : Type :=
| called_connectTLS
| called_send (m : Mail)
| called_close.

(** The response: its status and its body, the text [ok] or the JSON
    with [success] or [error]. *)
Inductive Body : Type :=
| body_ok
| body_success
| body_error (msg : string).

Record EdgeResponse : Type := {
  status : Z;
  body : Body
}.

(** [!to || !subject || !html] *)
Definition edge_missing_fields (b : Object) : bool :=
  negb (truthy (get "to" b)) || negb (truthy (get "subject" b))
  || negb (truthy (get "html" b)).

(** [serve(async (req) => { ... })] *)
Definition serve (env : SmtpEnv) (req : EdgeRequest) : EdgeResponse * list SmtpCall :=
  if method req =? "OPTIONS" then ({| status := 200; body := body_ok |}, [])
  else
    match json req with
    | Rejected error => ({| status := 500; body := body_error (message error) |}, [])
    | Resolved b =>
        if edge_missing_fields b then
          ({| status := 400;
              body := body_error "Missing required fields: to, subject, or html" |},
           [])
        else
          match connectTLS env with
          | Some error =>
              ({| status := 500; body := body_error (message error) |},
               [called_connectTLS])
          | None =>
              let m :=
                {| mail_from :=
                     Mail.or_else (get "from" b)
                                  "Route Planner <noreply@routeplanner.app>";
                   mail_to := Mail.or_else (get "to" b) "";
                   mail_subject := Mail.or_else (get "subject" b) "";
                   mail_content := Mail.or_else (get "html" b) "";
                   mail_html := Mail.or_else (get "html" b) "" |} in
              match send env m with
              | Some error =>
                  ({| status := 500; body := body_error (message error) |},
                   [called_connectTLS; called_send m])
              | None =>
                  match close env with
                  | Some error =>
                      ({| status := 500; body := body_error (message error) |},
                       [called_connectTLS; called_send m; called_close])
                  | None =>
                      ({| status := 200; body := body_success |},
                       [called_connectTLS; called_send m; called_close])
                  end
              end
          end
    end.

End EdgeMail.

(* ================================================================== *)
(** * Regular expressions of the booking form *)
(* ================================================================== *)

Module RegExp.
Open Scope string_scope.

(** The patterns the sources use, anchored at both ends ([/^...$/]).
    A string is the sequence of its code units; those of the model are
    below 256. *)
Inductive re : Type :=
| Void
| Eps
| Class (p : ascii -> bool)
| Cat (r1 r2 : re)
| Alt (r1 r2 : re)
| Star (r : re).

(** [c], [r+], [r?] and [r{n,}] *)
Definition Chr (c : ascii) : re := Class (Ascii.eqb c).
Definition Plus (r : re) : re := Cat r (Star r).
Definition Opt (r : re) : re := Alt r Eps.
Fixpoint AtLeast (n : nat) (r : re) : re :=
  match n with
  | O => Star r
  | S n' => Cat r (AtLeast n' r)
  end.

Fixpoint nullable (r : re) : bool :=
  match r with
  | Void => false
  | Eps => true
  | Class _ => false
  | Cat r1 r2 => nullable r1 && nullable r2
  | Alt r1 r2 => nullable r1 || nullable r2
  | Star _ => true
  end.

(** What is left of [r] to match once [c] was read. *)
Fixpoint deriv (c : ascii) (r : re) : re :=
  match r with
  | Void => Void
  | Eps => Void
  | Class p => if p c then Eps else Void
  | Cat r1 r2 =>
      if nullable r1 then Alt (Cat (deriv c r1) r2) (deriv c r2)
      else Cat (deriv c r1) r2
  | Alt r1 r2 => Alt (deriv c r1) (deriv c r2)
  | Star r1 => Cat (deriv c r1) (Star r1)
  end.

(** [/^r$/.test(s)] *)
Fixpoint test (r : re) (s : string) : bool :=
  match s with
  | EmptyString => nullable r
  | String c s' => test (deriv c r) s'
  end.

(** The strings a pattern stands for. *)
Inductive lang : re -> string -> Prop :=
| lang_eps : lang Eps ""
| lang_class (p : ascii -> bool) (c : ascii) :
    p c = true -> lang (Class p) (String c "")
| lang_cat (r1 r2 : re) (s1 s2 : string) :
    lang r1 s1 -> lang r2 s2 -> lang (Cat r1 r2) (s1 ++ s2)
| lang_alt_l (r1 r2 : re) (s : string) : lang r1 s -> lang (Alt r1 r2) s
| lang_alt_r (r1 r2 : re) (s : string) : lang r2 s -> lang (Alt r1 r2) s
| lang_star_nil (r : re) : lang (Star r) ""
| lang_star_cons (r : re) (s1 s2 : string) :
    lang r s1 -> lang (Star r) s2 -> lang (Star r) (s1 ++ s2).

(** Every code unit of [s] satisfies [p]. *)
Fixpoint all (p : ascii -> bool) (s : string) : bool :=
  match s with
  | EmptyString => true
  | String c s' => p c && all p s'
  end.

(** [\s] on code units below 256: tab, line feed, vertical tab, form
    feed, carriage return, space, no-break space. *)
Definition is_space (c : ascii) : bool :=
  let n := nat_of_ascii c in
  (((9 <=? n) && (n <=? 13)) || (n =? 32) || (n =? 160))%nat.

(** [0-9] *)
Definition is_digit (c : ascii) : bool :=
  let n := nat_of_ascii c in ((48 <=? n) && (n <=? 57))%nat.

(** [[^\s@]] *)
Definition not_space_at (c : ascii) : bool :=
  negb (is_space c || Ascii.eqb c "@").

(** [[0-9\s\-\(\)]] *)
Definition phone_char (c : ascii) : bool :=
  is_digit c || is_space c || Ascii.eqb c "-" || Ascii.eqb c "("
  || Ascii.eqb c ")".

(** [/^[^\s@]+@[^\s@]+\.[^\s@]+$/] *)
Definition emailRegex : re :=
  Cat (Plus (Class not_space_at))
      (Cat (Chr "@")
           (Cat (Plus (Class not_space_at))
                (Cat (Chr ".") (Plus (Class not_space_at))))).

(** [/^\+?[0-9\s\-\(\)]{8,}$/] *)
Definition phoneRegex : re :=
  Cat (Opt (Chr "+")) (AtLeast 8 (Class phone_char)).

End RegExp.

(* ================================================================== *)
(** * The booking form of the planner component *)
(* ================================================================== *)

Module BookingForm.
Import JS OrdersStore RegExp.
Open Scope string_scope.

(** The refs of the component the form handlers read and write; the
    four refs of the route are those of [Planner.State]. *)
Record Form : Type := mkForm {
  route : Planner.State;
  startAddress : string;
  endAddress : string;
  startPoint : float * float;
  endPoint : option (float * float);
  customerName : string;
  customerEmail : string;
  customerPhone : string;
  pickupDate : string;
  pickupTime : string;
  additionalNotes : string;
  isSubmitting : bool;
  orderSuccess : bool;
  orderError : string;
  paymentUrl : option string
}.

(** [const defaultCoords = [49.8175, 15.4730]]: the two numbers the
    literals denote. *)
Definition defaultCoords : float * float :=
  (0x1.8e8a3d70a3d71p+5, 0x1.ef22d0e560419p+3)%float.

(** The refs as they are declared. *)
Definition initial_form : Form :=
  {| route := Planner.mkState None None false Planner.details;
     startAddress := ""; endAddress := "";
     startPoint := defaultCoords; endPoint := None;
     customerName := ""; customerEmail := ""; customerPhone := "";
     pickupDate := ""; pickupTime := ""; additionalNotes := "";
     isSubmitting := false; orderSuccess := false; orderError := "";
     paymentUrl := None |}.

Definition with_route (st : Planner.State) (f : Form) : Form :=
  mkForm st (startAddress f) (endAddress f) (startPoint f) (endPoint f)
         (customerName f) (customerEmail f) (customerPhone f) (pickupDate f)
         (pickupTime f) (additionalNotes f) (isSubmitting f) (orderSuccess f)
         (orderError f) (paymentUrl f).

Definition with_orderError (msg : string) (f : Form) : Form :=
  mkForm (route f) (startAddress f) (endAddress f) (startPoint f) (endPoint f)
         (customerName f) (customerEmail f) (customerPhone f) (pickupDate f)
         (pickupTime f) (additionalNotes f) (isSubmitting f) (orderSuccess f)
         msg (paymentUrl f).

Definition with_step (step : Planner.Step) (f : Form) : Form :=
  with_route (Planner.mkState (Planner.routeDistance (route f))
                              (Planner.routePrice (route f))
                              (Planner.showOrderForm (route f)) step) f.

(** [!s] on a string. *)
Definition empty (s : string) : bool := negb (truthy (Some s)).

(** Truthiness of a number: zero, minus zero and NaN are falsy. *)
Definition truthy_number (x : float) : bool :=
  negb (PrimFloat.eqb x 0) && PrimFloat.eqb x x.

(** [continueToPayment] *)
Definition continueToPayment (f : Form) : Form :=
  if empty (customerName f) || empty (customerEmail f)
     || empty (customerPhone f) || empty (pickupDate f)
     || empty (pickupTime f)
  then with_orderError "Please fill in all required fields" f
  else if negb (test emailRegex (customerEmail f))
  then with_orderError "Please enter a valid email address" f
  else if negb (test phoneRegex (customerPhone f))
  then with_orderError "Please enter a valid phone number" f
  else with_step Planner.payment f.

(** [backToDetails] *)
Definition backToDetails (f : Form) : Form := with_step Planner.details f.

(** The argument [submitOrder] passes to [addOrder]. *)
Definition order_of (f : Form) (distance price : float)
  (endPoint' : float * float) : NewOrder :=
  mkNewOrder (customerName f) (customerEmail f) (customerPhone f)
             (pickupDate f) (pickupTime f) (startAddress f) (endAddress f)
             (startPoint f) endPoint' distance price
             (if truthy (Some (additionalNotes f))
              then Some (additionalNotes f) else None)
             None None None.

(** [submitOrder]: the form, the world, and the order that was passed
    to [addOrder], if the call was made. *)
Definition submitOrder (env : AddOrderEnv) (f : Form) (w : World)
  : Form * World * option NewOrder :=
  match Planner.routeDistance (route f), Planner.routePrice (route f),
        endPoint f with
  | Some distance, Some price, Some endPoint' =>
      if truthy_number distance && truthy_number price then
        let order := order_of f distance price endPoint' in
        let (result, w') := addOrder env order w in
        let saved :=
          match result with
          | Some r => truthy (Some (orderId r))
          | None => false
          end in
        let f' :=
          if saved then
            mkForm (route f) (startAddress f) (endAddress f) (startPoint f)
                   (endPoint f) "" "" "" "" "" "" false true ""
                   (match result with
                    | Some r => if truthy (added_paymentUrl r)
                                then added_paymentUrl r else None
                    | None => None
                    end)
          else
            mkForm (route f) (startAddress f) (endAddress f) (startPoint f)
                   (endPoint f) (customerName f) (customerEmail f)
                   (customerPhone f) (pickupDate f) (pickupTime f)
                   (additionalNotes f) false (orderSuccess f)
                   "Failed to submit order. Please try again."
                   (paymentUrl f) in
        (f', w', Some order)
      else (f, w, None)
  | _, _, _ => (f, w, None)
  end.

(** [proceedToPayment]: where the browser is sent, [None] when it stays. *)
Definition proceedToPayment (f : Form) : option string :=
  if truthy (paymentUrl f) then paymentUrl f else None.

(** [resetForm], on the refs of the form. *)
Definition resetForm (f : Form) : Form :=
  mkForm (Planner.mkState None None false Planner.details) "" ""
         defaultCoords None "" "" "" "" "" "" (isSubmitting f)
         false "" None.

(** What the user and the routing control can do to the form:
    typing into a field, the buttons, the [routesfound] event, a change
    of the addresses and points of the route, and the start of
    [updateRoute], which withdraws the quote and the form. *)
Inductive Event : Type :=
| type_customerName (v : string)
| type_customerEmail (v : string)
| type_customerPhone (v : string)
| type_pickupDate (v : string)
| type_pickupTime (v : string)
| type_additionalNotes (v : string)
| click_continueToPayment
| click_backToDetails
| click_submitOrder (env : AddOrderEnv)
| click_resetForm
| routesfound (routes : option (list Planner.Route))
| route_inputs (startAddress' endAddress' : string)
    (startPoint' : float * float) (endPoint' : option (float * float))
| updateRoute_begins.

(** The two steps of the form as the template shows them. *)
Definition details_shown (f : Form) : bool :=
  Planner.showOrderForm (route f) && negb (orderSuccess f)
  && match Planner.currentStep (route f) with
     | Planner.details => true
     | Planner.payment => false
     end.

Definition payment_shown (f : Form) : bool :=
  Planner.showOrderForm (route f) && negb (orderSuccess f)
  && match Planner.currentStep (route f) with
     | Planner.details => false
     | Planner.payment => true
     end.

(** The button [Plan Another Route] is in the success message and
    below the planner while the form is not shown. *)
Definition reset_shown (f : Form) : bool :=
  orderSuccess f || negb (Planner.showOrderForm (route f)).

(** The state of the page: the form, the world of the orders store,
    and the orders that were passed to [addOrder], the last first. *)
Record PlannerPage : Type := mkPlannerPage {
  form : Form;
  world : World;
  submitted : list NewOrder
}.

Definition edit (enabled : bool) (g : Form -> Form) (p : PlannerPage) : PlannerPage :=
  if enabled then mkPlannerPage (g (form p)) (world p) (submitted p) else p.

(** An event on a control that is not shown does nothing.  A handler
    runs to its end before the next event is handled. *)
Definition handle (e : Event) (p : PlannerPage) : PlannerPage :=
  let f := form p in
  match e with
  | type_customerName v =>
      edit (details_shown f)
           (fun f => mkForm (route f) (startAddress f) (endAddress f)
                       (startPoint f) (endPoint f) v (customerEmail f)
                       (customerPhone f) (pickupDate f) (pickupTime f)
                       (additionalNotes f) (isSubmitting f) (orderSuccess f)
                       (orderError f) (paymentUrl f)) p
  | type_customerEmail v =>
      edit (details_shown f)
           (fun f => mkForm (route f) (startAddress f) (endAddress f)
                       (startPoint f) (endPoint f) (customerName f) v
                       (customerPhone f) (pickupDate f) (pickupTime f)
                       (additionalNotes f) (isSubmitting f) (orderSuccess f)
                       (orderError f) (paymentUrl f)) p
  | type_customerPhone v =>
      edit (details_shown f)
           (fun f => mkForm (route f) (startAddress f) (endAddress f)
                       (startPoint f) (endPoint f) (customerName f)
                       (customerEmail f) v (pickupDate f) (pickupTime f)
                       (additionalNotes f) (isSubmitting f) (orderSuccess f)
                       (orderError f) (paymentUrl f)) p
  | type_pickupDate v =>
      edit (details_shown f)
           (fun f => mkForm (route f) (startAddress f) (endAddress f)
                       (startPoint f) (endPoint f) (customerName f)
                       (customerEmail f) (customerPhone f) v (pickupTime f)
                       (additionalNotes f) (isSubmitting f) (orderSuccess f)
                       (orderError f) (paymentUrl f)) p
  | type_pickupTime v =>
      edit (details_shown f)
           (fun f => mkForm (route f) (startAddress f) (endAddress f)
                       (startPoint f) (endPoint f) (customerName f)
                       (customerEmail f) (customerPhone f) (pickupDate f) v
                       (additionalNotes f) (isSubmitting f) (orderSuccess f)
                       (orderError f) (paymentUrl f)) p
  | type_additionalNotes v =>
      edit (details_shown f)
           (fun f => mkForm (route f) (startAddress f) (endAddress f)
                       (startPoint f) (endPoint f) (customerName f)
                       (customerEmail f) (customerPhone f) (pickupDate f)
                       (pickupTime f) v (isSubmitting f) (orderSuccess f)
                       (orderError f) (paymentUrl f)) p
  | click_continueToPayment => edit (details_shown f) continueToPayment p
  | click_backToDetails => edit (payment_shown f) backToDetails p
  | click_submitOrder env =>
      if payment_shown f then
        match submitOrder env f (world p) with
        | (f', w', Some order) => mkPlannerPage f' w' (order :: submitted p)
        | (f', w', None) => mkPlannerPage f' w' (submitted p)
        end
      else p
  | click_resetForm => edit (reset_shown f) resetForm p
  | routesfound routes =>
      edit true (fun f => with_route (Planner.on_routesfound routes (route f)) f) p
  | route_inputs startAddress' endAddress' startPoint' endPoint' =>
      edit true
           (fun f => mkForm (route f) startAddress' endAddress' startPoint'
                       endPoint' (customerName f) (customerEmail f)
                       (customerPhone f) (pickupDate f) (pickupTime f)
                       (additionalNotes f) (isSubmitting f) (orderSuccess f)
                       (orderError f) (paymentUrl f)) p
  | updateRoute_begins =>
      edit true
           (fun f => with_route
                       (Planner.mkState None None false
                                        (Planner.currentStep (route f))) f) p
  end.

Definition events (es : list Event) (p : PlannerPage) : PlannerPage :=
  fold_left (fun p e => handle e p) es p.

(** The details of an order are filled in and well formed. *)
Definition validated (o : NewOrder) : Prop :=
  n_customerName o <> "" /\ n_pickupDate o <> "" /\ n_pickupTime o <> ""
  /\ test emailRegex (n_customerEmail o) = true
  /\ test phoneRegex (n_customerPhone o) = true
  /\ truthy_number (n_distance o) = true
  /\ truthy_number (n_price o) = true.

(** The customer's details in the form are filled in and well formed. *)
Definition fields_valid (f : Form) : Prop :=
  customerName f <> "" /\ pickupDate f <> "" /\ pickupTime f <> ""
  /\ test emailRegex (customerEmail f) = true
  /\ test phoneRegex (customerPhone f) = true.

(** Whenever the form is at the payment step and the order was not
    placed yet, the details are valid. *)
Definition payment_step_valid (f : Form) : Prop :=
  Planner.currentStep (route f) = Planner.payment ->
  orderSuccess f = false -> fields_valid f.

(** A route of [d] metres, as the routing control reports it. *)
Definition route_of_metres (d : Z) : Planner.Route :=
  {| Planner.summary :=
       {| Planner.totalDistance := number_of_Z d;
          Planner.totalTime := 0%float |} |}.

End BookingForm.

(* ================================================================== *)
(** * Signing in and out: the auth store, the login page, the guard *)
(* ================================================================== *)

Module AuthFlow.
Import JS AuthStore.
Open Scope string_scope.

(** The refs of the auth store. *)
Record AuthState : Type := mkAuthState {
  auth : Store;
  isLoading : bool;
  error : option string
}.

Definition initial_auth : AuthState := mkAuthState signed_out false None.

(** What [signInWithPassword] resolves to: an error, or [data.user]
    ([None] is [null]). *)
Inductive SignInReply : Type :=
| sign_in_error (authError : Thrown)
| sign_in_data (user : option User).

(** [login]; [profile_role] is the role of the profile the lookup
    finds, [None] when it finds none. *)
Definition login (reply : SignInReply) (profile_role : option string)
  (s : AuthState) : bool * AuthState :=
  match reply with
  | sign_in_error authError =>
      (false, mkAuthState (auth s) false (Some (messageOr "Login failed" authError)))
  | sign_in_data (Some u) => (true, mkAuthState (signed_in u profile_role) false None)
  | sign_in_data None => (false, mkAuthState (auth s) false None)
  end.

(** [logout]; [failure] is the error [signOut] reports. *)
Definition logout (failure : option Thrown) (s : AuthState) : AuthState :=
  match failure with
  | Some authError =>
      mkAuthState (auth s) false (Some (messageOr "Logout failed" authError))
  | None => mkAuthState signed_out false None
  end.

(** [initialize], up to the registration of the listener: [session] is
    what [getSession] settles to. *)
Definition initialize (session : Settled (option User))
  (profile_role : option string) (s : AuthState) : AuthState :=
  match session with
  | Resolved (Some u) => mkAuthState (signed_in u profile_role) false (error s)
  | _ => mkAuthState (auth s) false (error s)
  end.

(** The listener of [onAuthStateChange]. *)
Definition onAuthStateChange (event : string) (session : option User)
  (profile_role : option string) (s : AuthState) : AuthState :=
  match event =? "SIGNED_IN", session with
  | true, Some u => mkAuthState (signed_in u profile_role) (isLoading s) (error s)
  | _, _ =>
      if event =? "SIGNED_OUT"
      then mkAuthState signed_out (isLoading s) (error s)
      else s
  end.

(** The refs of the login page. *)
Record LoginPage : Type := mkLoginPage {
  email : string;
  password : string;
  errorMessage : string;
  page_isLoading : bool
}.

(** [route.query.redirect || '/admin'] *)
Definition redirectPath (query : Object) : string :=
  Mail.or_else (get "redirect" query) "/admin".

(** [onMounted] of the login page: where it sends the browser. *)
Definition login_onMounted (query : Object) (s : AuthState) : option string :=
  if isAuthenticated (auth s) then Some (redirectPath query) else None.

(** [login] of the login page: the page, the store, and where the
    browser is sent. *)
Definition login_submit (reply : SignInReply) (profile_role : option string)
  (query : Object) (page : LoginPage) (s : AuthState)
  : LoginPage * AuthState * option string :=
  if negb (truthy (Some (email page))) || negb (truthy (Some (password page)))
  then
    (mkLoginPage (email page) (password page)
                 "Please enter both email and password" (page_isLoading page),
     s, None)
  else
    let (success, s') := login reply profile_role s in
    if success
    then (mkLoginPage (email page) (password page) (errorMessage page) false,
          s', Some (redirectPath query))
    else (mkLoginPage (email page) (password page) "Invalid email or password"
                      false,
          s', None).

(** What [signOut] does: the error it reports, and whether it emits
    [SIGNED_OUT] (it does when it removes the session kept in the
    browser, which it can do also when the call to the server fails). *)
Record SignOut : Type := {
  sign_out_error : option Thrown;
  emits_SIGNED_OUT : bool
}.

(** [logout] of the admin page: the store, and where the browser is
    sent.  The page is mounted after [initialize], which has registered
    the listener of [onAuthStateChange]; an event that [signOut] emits
    reaches the listener while [signOut] is awaited. *)
Definition admin_logout (o : SignOut) (s : AuthState) : AuthState * string :=
  let s :=
    if emits_SIGNED_OUT o then onAuthStateChange "SIGNED_OUT" None None s
    else s in
  (logout (sign_out_error o) s, "/login").

(** Where a [router.push] of a plain path ends after the guard: the
    path and the query of the location that is entered. *)
Definition push (target : string) (s : AuthState) : option (string * Object) :=
  match Router.resolve target with
  | Some to =>
      match Router.beforeEach (auth s) to with
      | Router.proceed => Some (Router.fullPath to, [])
      | Router.redirect to_name query =>
          match Router.path_of_name to_name with
          | Some p => Some (p, query)
          | None => None
          end
      end
  | None => None
  end.

End AuthFlow.

(* ================================================================== *)
(** * The row-level policies of [orders] and the callers of the flows *)
(* ================================================================== *)

Module Policies.
Import JS GoPay OrdersStore PaymentResultPage.
Open Scope string_scope.

(** Who calls the backend: a visitor who is not signed in (the role
    [anon], [auth.uid()] is NULL), or a signed-in user whose profile has
    the role admin. *)
Inductive Caller : Type := anonymous | admin.

(** The rows a caller's [UPDATE] reaches.  The two policies [FOR UPDATE]
    are [Admins can update any order] and [Users can update their own
    orders] ([user_id = auth.uid()], never true of NULL); none is
    granted to [anon].  A row that is not reached is left as it is and
    the call reports no error for it.  [SELECT] and [INSERT] are open to
    both callers ([USING (true)] and [WITH CHECK (true)] for [anon]). *)
Definition may_update (c : Caller) (r : Supabase.Row) : bool :=
  match c with
  | anonymous => false
  | admin => true
  end.

(** [.update(patch).eq('id', v)] as [c]. *)
Definition update_as (c : Caller) (failure : option Thrown)
  (patch : Supabase.Row -> Supabase.Row) (v : string) (t : Supabase.Table)
  : option Thrown * Supabase.Table :=
  Supabase.update failure (fun r => if may_update c r then patch r else r) v t.

(** [updateOrderStatus] called by [c]. *)
Definition updateOrderStatus_as (c : Caller) (failure : option Thrown)
  (v : string) (status' : Supabase.Status) (w : World) : World :=
  let s := begin (store w) in
  let (supabaseError, t) :=
    update_as c failure (Supabase.with_status status') v (table w) in
  let s :=
    match supabaseError with
    | Some err => caught "Failed to update order status" err s
    | None =>
        with_orders (assign_first (is_order v) (set_status status') (orders s)) s
    end in
  {| table := t; store := finally s |}.

(** [updatePaymentStatus] called by [c]. *)
Definition updatePaymentStatus_as (c : Caller)
  (failure cascade_failure : option Thrown)
  (orderId paymentStatus' : string) (w : World) : World :=
  let s := begin (store w) in
  let (supabaseError, t) :=
    update_as c failure (Supabase.with_payment_status paymentStatus')
              orderId (table w) in
  match supabaseError with
  | Some err =>
      {| table := t;
         store := finally (caught "Failed to update payment status" err s) |}
  | None =>
      match find (is_order orderId) (orders s) with
      | Some _ =>
          let s :=
            with_orders
              (assign_first (is_order orderId)
                            (set_paymentStatus paymentStatus') (orders s)) s in
          let w' := {| table := t; store := s |} in
          let w' :=
            if String.eqb paymentStatus' "PAID"
            then updateOrderStatus_as c cascade_failure orderId
                                      Supabase.confirmed w'
            else w' in
          {| table := table w'; store := finally (store w') |}
      | None => {| table := t; store := finally s |}
      end
  end.

(** [addOrder] called by [c]; the payment fields are assigned to the
    returned [data] whatever the update reached. *)
Definition addOrder_as (c : Caller) (env : AddOrderEnv) (order : NewOrder)
  (w : World) : option Added * World :=
  let s := begin (store w) in
  match Supabase.insert (insert_failure env) (gen_random_uuid env) (now env)
                        (mapOrderToDbRow order) (table w) with
  | (Supabase.Error supabaseError, t) =>
      (None, {| table := t;
                store := finally (caught "Failed to add order" supabaseError s) |})
  | (Supabase.Data data, t) =>
      let (data, t) :=
        match createPayment (payment_env env)
                {| od_id := Supabase.id data;
                   od_customerName := n_customerName order;
                   od_customerEmail := n_customerEmail order;
                   od_price := n_price order;
                   od_description :=
                     "Transportation from " ++ n_startAddress order
                       ++ " to " ++ n_endAddress order |} with
        | Resolved paymentResult =>
            let patch :=
              Supabase.with_payment_info (pr_id paymentResult) "CREATED"
                                         (pr_url paymentResult) in
            let (updateError, t) :=
              update_as c (payment_update_failure env) patch
                        (Supabase.id data) t in
            (patch data, t)
        | Rejected paymentError => (data, t)
        end in
      let _ := logged (admin_notification env) in
      let _ := logged (customer_confirmation env) in
      let w' := fetchOrders (refresh_failure env) {| table := t; store := s |} in
      (Some {| orderId := Supabase.id data;
               added_paymentUrl := Supabase.payment_url data |},
       {| table := table w'; store := finally (store w') |})
  end.

(** [onMounted] of the payment-result page, opened by [c]. *)
Definition onMounted_as (c : Caller) (env : PollEnv)
  (query_orderId : option string) (w : World) : Page * World :=
  match query_orderId with
  | Some orderId =>
      if negb (truthy query_orderId) then (failed "No order ID provided", w)
      else
        match fetchOrderById (fetch_failure env) orderId w with
        | (None, w) => (failed (message (newError "Order not found")), w)
        | (Some orderData, w) =>
            if truthy (paymentId orderData) then
              match paymentId orderData with
              | Some pid =>
                  match getPaymentStatus pid (draw1 env) (draw2 env) with
                  | Some status =>
                      (shown orderData (Some status),
                       updatePaymentStatus_as c
                         (update_failure env) (cascade_failure env)
                         orderId status w)
                  | None => (shown orderData None, w)
                  end
              | None => (shown orderData (Some "UNKNOWN"), w)
              end
            else (shown orderData (Some "UNKNOWN"), w)
        end
  | None => (failed "No order ID provided", w)
  end.

(** The payment fields a row of [c]'s booking carries once the session
    [pid], [url] was created and the write-back reported no error. *)
Definition written_back (c : Caller) (pid url : string)
  : option string * option string * option string :=
  match c with
  | admin => (Some pid, Some "CREATED", Some url)
  | anonymous => (None, None, None)
  end.

End Policies.

(* ================================================================== *)
(** * Properties *)
(* ================================================================== *)

Module PlannerFacts.
Import JS Planner.
Open Scope float_scope.

Example Math_round_samples :
  Math_round 2.5 = 3 /\ Math_round 2.25 = 2 /\ Math_round (-2.5) = -2
  /\ Math_round (-0.25) = -0 /\ Math_round 0x1.fffffffffffffp-2 = 0
  /\ Math_round 4000 = 4000.
Proof. repeat split; reflexivity. Qed.



Example price_exact_samples :
  forallb agrees_at [199975; 199999; 200000; 200024; 200025; 1234567]%Z = true.
Proof. vm_compute. reflexivity. Qed.





End PlannerFacts.

(* ------------------------------------------------------------------ *)
(** ** Rounding of binary64 products *)
(* ------------------------------------------------------------------ *)

Module Binary64Facts.
Import JS GoPay Binary64.
Open Scope Z_scope.

(** One halving step of the rounding record, on a mantissa that is not
    negative: the mantissa is halved and the round bit is its parity. *)
Lemma shr_1_spec (m : Z) (r s : bool) :
  0 <= m ->
  shr_m (shr_1 (Build_shr_record m r s)) = m / 2
  /\ shr_r (shr_1 (Build_shr_record m r s)) = Z.odd m.
Proof.
  intros Hm. destruct m as [|p|p]; [split; reflexivity | | lia].
  destruct p as [p|p|]; simpl; split; try reflexivity.
  - rewrite Pos2Z.inj_xI. apply Z.div_unique with 1; lia.
  - rewrite Pos2Z.inj_xO. apply Z.div_unique with 0; lia.
Qed.

(** The binary iteration of the rounding functions, as a unary one. *)
Lemma iter_pos_nat {A : Type} (f : A -> A) (p : positive) (x : A) :
  iter_pos f p x = Nat.iter (Pos.to_nat p) f x.
Proof.
  revert x. induction p as [p IH|p IH|]; intros x; cbn [iter_pos].
  - rewrite !IH, <- Nat.iter_succ_r, <- Nat.iter_add.
    f_equal. rewrite Pos2Nat.inj_xI. lia.
  - rewrite !IH, <- Nat.iter_add.
    f_equal. rewrite Pos2Nat.inj_xO. lia.
  - reflexivity.
Qed.

(** [k] halvings of an exact mantissa [M]: the mantissa is [M / 2^k],
    and the round bit is set only if the remainder is at least half of
    [2^k]. *)
Lemma halvings_spec (M : Z) (k : nat) :
  0 <= M ->
  let mrs := Nat.iter k shr_1 (Build_shr_record M false false) in
  shr_m mrs = M / 2 ^ Z.of_nat k
  /\ (shr_r mrs = true -> 2 * (M mod 2 ^ Z.of_nat k) >= 2 ^ Z.of_nat k).
Proof.
  intros HM. induction k as [|k IH].
  - simpl. split; [rewrite Z.div_1_r; reflexivity | discriminate].
  - cbv zeta in *. rewrite Nat.iter_succ.
    destruct (Nat.iter k shr_1 _) as [m r s]. cbn [shr_m shr_r] in IH.
    destruct IH as [Hm Hr].
    assert (H0 : 0 <= m) by (subst m; apply Z.div_pos; lia).
    destruct (shr_1_spec m r s H0) as [E1 E2]. rewrite E1, E2.
    rewrite Nat2Z.inj_succ, Z.pow_succ_r by lia.
    split.
    + subst m. rewrite Z.div_div by lia. f_equal. lia.
    + intros Hodd. subst m.
      assert (Hp : 0 < 2 ^ Z.of_nat k) by (apply Z.pow_pos_nonneg; lia).
      rewrite (Z.mul_comm 2 (2 ^ Z.of_nat k)).
      rewrite Z.rem_mul_r by lia.
      apply Z.odd_spec in Hodd. destruct Hodd as [q Hq]. rewrite Hq.
      replace ((2 * q + 1) mod 2) with 1
        by (apply Z.mod_unique with q; lia).
      pose proof (Z.mod_pos_bound M (2 ^ Z.of_nat k) Hp). nia.
Qed.

(** Rounding to nearest adds one at most, and only with the round bit. *)
Lemma round_nearest_even_le (m : Z) (r s : bool) :
  m <= round_nearest_even m (loc_of_shr_record (Build_shr_record m r s))
    <= m + (if r then 1 else 0).
Proof.
  destruct r, s; simpl; try lia; destruct (Z.even m); lia.
Qed.

(** Rounding to nearest after [k] halvings exceeds the exact quotient
    by half a unit at most. *)
Lemma rounded_halvings_le (M : Z) (k : nat) :
  0 <= M ->
  let mrs := Nat.iter k shr_1 (Build_shr_record M false false) in
  let mr := round_nearest_even (shr_m mrs) (loc_of_shr_record mrs) in
  0 <= mr /\ 2 * (mr * 2 ^ Z.of_nat k) <= 2 * M + 2 ^ Z.of_nat k.
Proof.
  intros HM. cbv zeta.
  pose proof (halvings_spec M k HM) as H. cbv zeta in H.
  destruct (Nat.iter k shr_1 _) as [m r s]. cbn [shr_m shr_r] in H.
  destruct H as [Hm Hr]. cbn [shr_m].
  pose proof (round_nearest_even_le m r s) as Hle.
  assert (Hp : 0 < 2 ^ Z.of_nat k) by (apply Z.pow_pos_nonneg; lia).
  pose proof (Z.div_mod M (2 ^ Z.of_nat k) ltac:(lia)) as Hdm.
  pose proof (Z.mod_pos_bound M (2 ^ Z.of_nat k) Hp) as Hmod.
  assert (H0 : 0 <= m) by (subst m; apply Z.div_pos; lia).
  rewrite <- Hm in Hdm.
  split; [lia|].
  set (P := 2 ^ Z.of_nat k) in *.
  set (mr := round_nearest_even m _) in *.
  destruct r.
  - specialize (Hr eq_refl).
    assert (mr * P <= (m + 1) * P) by (apply Z.mul_le_mono_nonneg_r; lia).
    lia.
  - assert (mr * P <= m * P) by (apply Z.mul_le_mono_nonneg_r; lia).
    lia.
Qed.

(** Halving without rounding does not exceed the exact quotient. *)
Lemma truncated_halvings_le (m : Z) (k : nat) :
  0 <= m ->
  let mrs := Nat.iter k shr_1 (Build_shr_record m false false) in
  0 <= shr_m mrs /\ shr_m mrs * 2 ^ Z.of_nat k <= m.
Proof.
  intros Hm. cbv zeta.
  destruct (halvings_spec m k Hm) as [E _]. rewrite E.
  assert (Hp : 0 < 2 ^ Z.of_nat k) by (apply Z.pow_pos_nonneg; lia).
  split; [apply Z.div_pos; lia|].
  rewrite Z.mul_comm. apply Z.mul_div_le. exact Hp.
Qed.

(** [shr] halves as many times as the positive part of [n]. *)
Lemma shr_halvings (mrs : shr_record) (e n : Z) :
  exists k : nat,
    Z.of_nat k = Z.max 0 n
    /\ shr mrs e n = (Nat.iter k shr_1 mrs, e + Z.of_nat k).
Proof.
  destruct n as [|p|p].
  - exists 0%nat. simpl. rewrite Z.add_0_r. split; reflexivity.
  - exists (Pos.to_nat p). split; [lia|].
    unfold shr. rewrite iter_pos_nat. f_equal. lia.
  - exists 0%nat. simpl. rewrite Z.add_0_r. split; reflexivity.
Qed.

Lemma digits2_pos_size (p : positive) : digits2_pos p = Pos.size p.
Proof. induction p; simpl; congruence. Qed.

Lemma digits2_le (p : positive) (n : Z) :
  0 <= n -> Zpos p < 2 ^ n -> Zpos (digits2_pos p) <= n.
Proof.
  intros Hn Hlt. rewrite digits2_pos_size.
  destruct (Z_le_gt_dec (Zpos (Pos.size p)) n) as [H|H]; [exact H | exfalso].
  pose proof (Pos.size_le p) as Hs.
  assert (H2 : 2 ^ Zpos (Pos.size p) <= 2 * Zpos p).
  { rewrite <- Pos2Z.inj_pow. change (2 * Z.pos p) with (Zpos p~0).
    apply Pos2Z.pos_le_pos. exact Hs. }
  assert (H3 : 2 ^ (n + 1) <= 2 ^ Zpos (Pos.size p))
    by (apply Z.pow_le_mono_r; lia).
  rewrite Z.pow_add_r in H3 by lia. lia.
Qed.

Lemma fexp64 (x : Z) : fexp prec emax x = Z.max (x - 53) (-1074).
Proof. reflexivity. Qed.

(** A positive [M * 2^ex] that is below 6 by more than the half unit
    rounding can add is rounded to a binary64 below 6. *)
Lemma round_below_six (M : positive) (ex : Z) :
  Zpos M < 2 ^ 106 ->
  -1124 <= ex <= -103 ->
  2 * Zpos M + 2 ^ 53 < 12 * 2 ^ (- ex) ->
  below_six (binary_round_aux prec emax false (Zpos M) ex loc_Exact).
Proof.
  intros HM Hex Hbound.
  unfold binary_round_aux, shr_fexp.
  cbn [shr_record_of_loc Zdigits2].
  pose proof (digits2_le M 106 ltac:(lia) HM) as Hd.
  assert (Hd0 : 0 < Zpos (digits2_pos M)) by lia.
  rewrite fexp64.
  destruct (shr_halvings (Build_shr_record (Zpos M) false false) ex
              (Z.max (Zpos (digits2_pos M) + ex - 53) (-1074) - ex))
    as [k1 [Hk1 E1]].
  rewrite E1.
  assert (Hk1' : Z.of_nat k1 <= 53) by lia.
  destruct (rounded_halvings_le (Zpos M) k1 ltac:(lia)) as [Hmr0 Hmr].
  set (mr := round_nearest_even _ _) in *.
  rewrite fexp64.
  destruct (shr_halvings (Build_shr_record mr false false) (ex + Z.of_nat k1)
              (Z.max (Zdigits2 mr + (ex + Z.of_nat k1) - 53) (-1074)
               - (ex + Z.of_nat k1)))
    as [k2 [Hk2 E2]].
  rewrite E2.
  destruct (truncated_halvings_le mr k2 Hmr0) as [Hm20 Hm2].
  set (m2 := shr_m (Nat.iter k2 shr_1 _)) in *.
  assert (Hp1 : 0 < 2 ^ Z.of_nat k1) by (apply Z.pow_pos_nonneg; lia).
  assert (Hp2 : 0 < 2 ^ Z.of_nat k2) by (apply Z.pow_pos_nonneg; lia).
  assert (Hp53 : 2 ^ Z.of_nat k1 <= 2 ^ 53) by (apply Z.pow_le_mono_r; lia).
  set (K := Z.of_nat k1 + Z.of_nat k2).
  assert (HK : m2 * 2 ^ K < 6 * 2 ^ (- ex)).
  { unfold K. rewrite Z.pow_add_r by lia.
    assert (m2 * 2 ^ Z.of_nat k2 * 2 ^ Z.of_nat k1 <= mr * 2 ^ Z.of_nat k1)
      by (apply Z.mul_le_mono_nonneg_r; lia).
    lia. }
  replace (ex + Z.of_nat k1 + Z.of_nat k2) with (ex + K) by (unfold K; lia).
  assert (HK0 : 0 <= K) by (unfold K; lia).
  clearbody m2 K mr. clear E1 E2.
  destruct m2 as [|p|p]; [exact I | | lia].
  assert (Hpex : 0 < 2 ^ (- ex)) by (apply Z.pow_pos_nonneg; lia).
  destruct (Z.leb_spec 0 (ex + K)) as [Hpos|Hneg].
  - (* the exponent is not negative *)
    assert (E : 2 ^ K = 2 ^ (ex + K) * 2 ^ (- ex))
      by (rewrite <- Z.pow_add_r by lia; f_equal; lia).
    rewrite E in HK.
    assert (Hv : Zpos p * 2 ^ (ex + K) < 6).
    { rewrite Z.mul_assoc in HK.
      apply Z.mul_lt_mono_pos_r in HK; [exact HK | exact Hpex]. }
    assert (Hsmall : ex + K <= 2).
    { destruct (Z_le_gt_dec (ex + K) 2) as [H|H]; [exact H | exfalso].
      assert (2 ^ 3 <= 2 ^ (ex + K)) by (apply Z.pow_le_mono_r; lia).
      change (2 ^ 3) with 8 in *.
      assert (Zpos p * 8 <= Zpos p * 2 ^ (ex + K))
        by (apply Z.mul_le_mono_nonneg_l; lia).
      lia. }
    replace (ex + K <=? emax - prec) with true
      by (symmetry; apply Z.leb_le; change (emax - prec) with 971; lia).
    cbn [below_six].
    replace (0 <=? ex + K) with true by (symmetry; apply Z.leb_le; lia).
    exact Hv.
  - replace (ex + K <=? emax - prec) with true
      by (symmetry; apply Z.leb_le; change (emax - prec) with 971; lia).
    cbn [below_six].
    replace (0 <=? ex + K) with false by (symmetry; apply Z.leb_gt; lia).
    assert (E : 2 ^ (- ex) = 2 ^ (- (ex + K)) * 2 ^ K)
      by (rewrite <- Z.pow_add_r by lia; f_equal; lia).
    rewrite E in HK.
    assert (HpK : 0 < 2 ^ K) by (apply Z.pow_pos_nonneg; lia).
    rewrite Z.mul_assoc in HK.
    apply Z.mul_lt_mono_pos_r in HK; [exact HK | exact HpK].
Qed.

Lemma size_le_lt (p : positive) (n : Z) :
  Zpos (digits2_pos p) <= n -> Zpos p < 2 ^ n.
Proof.
  intros H. rewrite digits2_pos_size in H.
  pose proof (Pos.size_gt p) as Hs.
  apply Pos2Z.pos_lt_pos in Hs. rewrite Pos2Z.inj_pow in Hs.
  eapply Z.lt_le_trans; [exact Hs|]. apply Z.pow_le_mono_r; lia.
Qed.

Lemma size_ge (p : positive) (n : Z) :
  0 <= n -> Zpos (digits2_pos p) = n + 1 -> 2 ^ n <= Zpos p.
Proof.
  intros Hn H. rewrite digits2_pos_size in H.
  pose proof (Pos.size_le p) as Hs.
  apply Pos2Z.pos_le_pos in Hs. rewrite Pos2Z.inj_pow, H in Hs.
  rewrite Z.pow_add_r in Hs by lia. change (Z.pos p~0) with (2 * Z.pos p) in Hs.
  lia.
Qed.

Lemma Prim2SF_zero : Prim2SF 0 = S754_zero false.
Proof. vm_compute. reflexivity. Qed.

Lemma Prim2SF_one : Prim2SF 1 = S754_finite false 4503599627370496 (-52).
Proof. vm_compute. reflexivity. Qed.

Lemma Prim2SF_six : Prim2SF 6 = S754_finite false 6755399441055744 (-50).
Proof. vm_compute. reflexivity. Qed.

(** A binary64 in [0, 1) is a zero, or a positive [m * 2^e] with
    [m < 2^53] and [e <= -53]. *)
Lemma unit_draw_shape (r : float) :
  unit_draw r ->
  (exists s, Prim2SF r = S754_zero s)
  \/ (exists m e, Prim2SF r = S754_finite false m e
                  /\ Zpos m < 2 ^ 53 /\ -1074 <= e <= -53).
Proof.
  intros [Hle Hlt].
  rewrite FloatAxioms.leb_spec in Hle. rewrite FloatAxioms.ltb_spec in Hlt.
  pose proof (Prim2SF_valid r) as Hvalid.
  rewrite Prim2SF_zero in Hle. rewrite Prim2SF_one in Hlt.
  destruct (Prim2SF r) as [s|s| |s m e].
  - left. exists s. reflexivity.
  - destruct s; discriminate.
  - discriminate.
  - right. exists m, e.
    destruct s; [discriminate|].
    split; [reflexivity|].
    unfold valid_binary, bounded, canonical_mantissa in Hvalid.
    apply andb_true_iff in Hvalid. destruct Hvalid as [Hcanon _].
    apply Z.eqb_eq in Hcanon. rewrite fexp64 in Hcanon.
    split; [apply size_le_lt; lia|].
    split; [lia|].
    unfold SFltb, SFcompare in Hlt.
    destruct (Z.compare_spec e (-52)) as [E|E|E]; [|lia|discriminate].
    exfalso. subst e.
    assert (Hd : Zpos (digits2_pos m) = 52 + 1) by lia.
    apply size_ge in Hd; [|lia].
    destruct (Pos.compare_cont Eq m 4503599627370496) eqn:Hc;
      try discriminate.
    apply Pos.compare_lt_iff, Pos2Z.pos_lt_pos in Hc.
    change (2 ^ 52) with 4503599627370496 in Hd.
    lia.
Qed.

(** The floor of a binary64 below 6 is one of the integers 0 .. 5. *)
Lemma floor_below_six (x : float) :
  below_six (Prim2SF x) ->
  exists n, 0 <= n <= 5 /\ integer_value (Math_floor x) = Some n.
Proof.
  unfold Math_floor. intros H.
  destruct (Prim2SF x) as [s|s| |s m e] eqn:Hx; try contradiction.
  - exists 0. split; [lia|]. unfold integer_value. rewrite Hx. reflexivity.
  - destruct s; [contradiction|]. cbn [below_six] in H.
    destruct (Z.leb_spec 0 e) as [He|He].
    + exists (Zpos m * 2 ^ e). unfold integer_value. rewrite Hx.
      replace (0 <=? e) with true by (symmetry; apply Z.leb_le; lia).
      split; [|reflexivity].
      assert (0 < 2 ^ e) by (apply Z.pow_pos_nonneg; lia). nia.
    + assert (Hp : 0 < 2 ^ (- e)) by (apply Z.pow_pos_nonneg; lia).
      cbv zeta.
      assert (Hn : 0 <= Zpos m / 2 ^ (- e) <= 5).
      { split; [apply Z.div_pos; lia|].
        assert (Zpos m / 2 ^ (- e) < 6); [|lia].
        apply Z.div_lt_upper_bound; lia. }
      set (n := Zpos m / 2 ^ (- e)) in *. clearbody n.
      exists n. split; [exact Hn|].
      assert (Hc : n = 0 \/ n = 1 \/ n = 2 \/ n = 3 \/ n = 4 \/ n = 5) by lia.
      destruct Hc as [-> | [-> | [-> | [-> | [-> | ->] ] ] ] ];
        vm_compute; reflexivity.
Qed.

(** The floor of six times a draw is one of the integers 0 .. 5: the
    product is rounded to the nearest binary64, and for the largest draw
    below 1 that still lies below 6. *)
Lemma floor_six_draws (r : float) :
  unit_draw r ->
  exists n, 0 <= n <= 5 /\ integer_value (Math_floor (r * 6)%float) = Some n.
Proof.
  intros Hr. apply floor_below_six.
  rewrite FloatAxioms.mul_spec.
  rewrite Prim2SF_six.
  destruct (unit_draw_shape r Hr) as [[s E] | [m [e [E [Hm He]]]]]; rewrite E.
  - exact I.
  - unfold SF64mul, SFmul. cbn [xorb].
    apply round_below_six.
    + rewrite Pos2Z.inj_mul.
      change (2 ^ 106) with (2 ^ 53 * 2 ^ 53).
      apply Z.mul_lt_mono_nonneg; lia.
    + lia.
    + rewrite Pos2Z.inj_mul.
      assert (H103 : 2 ^ 103 <= 2 ^ (- (e + -50)))
        by (apply Z.pow_le_mono_r; lia).
      assert (Hm' : Zpos m * 6755399441055744
                    <= (2 ^ 53 - 1) * 6755399441055744)
        by (apply Z.mul_le_mono_nonneg_r; lia).
      change (2 ^ 103) with 10141204801825835211973625643008 in H103.
      change (2 ^ 53) with 9007199254740992 in *.
      lia.
Qed.

End Binary64Facts.

(* ------------------------------------------------------------------ *)
(** ** The payment stub and the callback endpoint *)
(* ------------------------------------------------------------------ *)

Module GoPayFacts.
Import JS GoPay Binary64Facts.
Open Scope string_scope.

Lemma statuses_length : number_of_Z (Z.of_nat (length statuses)) = 6%float.
Proof. vm_compute. reflexivity. Qed.

Lemma integer_value_two : integer_value 2%float = Some 2%Z.
Proof. vm_compute. reflexivity. Qed.

Lemma randomIndex_in_range (draw1 draw2 : float) :
  unit_draw draw2 ->
  exists n, (0 <= n <= 5)%Z /\ integer_value (randomIndex draw1 draw2) = Some n.
Proof.
  intros H2. unfold randomIndex.
  destruct (PrimFloat.ltb draw1 seven_tenths).
  - exists 2%Z. split; [lia | exact integer_value_two].
  - rewrite statuses_length. apply floor_six_draws. exact H2.
Qed.

Lemma index_statuses_defined (x : float) (i : Z) :
  integer_value x = Some i -> (0 <= i <= 5)%Z ->
  exists s, index statuses x = Some s /\ In s statuses.
Proof.
  intros Hx Hi. unfold index. rewrite Hx.
  assert (Hcases : (i = 0 \/ i = 1 \/ i = 2 \/ i = 3 \/ i = 4 \/ i = 5)%Z) by lia.
  destruct Hcases as [-> | [-> | [-> | [-> | [-> | ->] ] ] ] ];
    (eexists; split; [reflexivity | simpl; tauto]).
Qed.

(** The status is biased towards PAID: a first draw below 0.7 selects it. *)
Lemma getPaymentStatus_biased (paymentId : string) (draw1 draw2 : float) :
  prefix "mock_payment_" paymentId = true ->
  PrimFloat.ltb draw1 seven_tenths = true ->
  getPaymentStatus paymentId draw1 draw2 = Some "PAID".
Proof.
  intros Hp H1. unfold getPaymentStatus, randomIndex.
  rewrite Hp, H1. vm_compute. reflexivity.
Qed.

(** Every one of the six statuses is drawn by some pair of draws. *)
Example getPaymentStatus_each_status :
  map (getPaymentStatus "mock_payment_0a1b2c3d" 0.75%float)
      [0; 0.25; 0.375; 0.5; 0.75; 0.875]%float
  = map Some statuses.
Proof. vm_compute. reflexivity. Qed.

(** The largest binary64 below 1 is drawn to the last status. *)
Example getPaymentStatus_largest_draw :
  getPaymentStatus "mock_payment_0a1b2c3d" 0.75%float 0x1.fffffffffffffp-1%float
  = Some "FAILED".
Proof. vm_compute. reflexivity. Qed.

(** C7: for a payment id that starts with "mock_payment_" the result is
    defined and is one of the six statuses, whatever the two draws in
    [0, 1) (any binary64 numbers [r] with [0 <= r < 1]): the index lies
    within the array; for any other payment id the result is "UNKNOWN". *)
Theorem getPaymentStatus_in_statuses (paymentId : string) (draw1 draw2 : float) :
  unit_draw draw1 -> unit_draw draw2 ->
  (prefix "mock_payment_" paymentId = true ->
     exists s, getPaymentStatus paymentId draw1 draw2 = Some s /\ In s statuses)
  /\ (prefix "mock_payment_" paymentId = false ->
     getPaymentStatus paymentId draw1 draw2 = Some "UNKNOWN").
Proof.
  intros _ H2. unfold getPaymentStatus. split; intros Hp; rewrite Hp.
  - destruct (randomIndex_in_range draw1 draw2 H2) as [n [Hn Hx]].
    exact (index_statuses_defined _ n Hx Hn).
  - reflexivity.
Qed.

Lemma getPaymentStatus_in_statuses_witness :
  (exists s, getPaymentStatus "mock_payment_0a1b2c3d" 0.75%float 0.875%float = Some s
             /\ In s statuses)
  /\ getPaymentStatus "12345" 0.75%float 0.875%float = Some "UNKNOWN".
Proof.
  assert (Hd1 : unit_draw 0.75%float) by (split; vm_compute; reflexivity).
  assert (Hd2 : unit_draw 0.875%float) by (split; vm_compute; reflexivity).
  split.
  - apply (proj1 (getPaymentStatus_in_statuses "mock_payment_0a1b2c3d" _ _ Hd1 Hd2)).
    reflexivity.
  - apply (proj2 (getPaymentStatus_in_statuses "12345" _ _ Hd1 Hd2)).
    reflexivity.
Defined.

End GoPayFacts.

Module ServerFacts.
Import JS GoPay Server Samples.
Open Scope string_scope.
Open Scope Z_scope.

Lemma verifyCallbackSignature_always (b : list (string * string)) (sig : string) :
  verifyCallbackSignature b sig = true.
Proof. reflexivity. Qed.

(** C4, as stated, fails: two requests that both carry the header, one
    with an empty value (whose "signature verifies", the check being
    constantly true) and one with a non-empty value, get 401 and 200. *)
Lemma callback_status_not_by_presence :
  ~ (forall r1 r2 : Request,
        signature_present r1 = signature_present r2 ->
        status (gopay_callback r1) = status (gopay_callback r2))
  /\ (verifyCallbackSignature (body req_empty_signature) "" = true
      /\ signature_present req_empty_signature = true
      /\ status (gopay_callback req_empty_signature) = 401).
Proof.
  split.
  - intros H.
    specialize (H req_empty_signature req_some_signature eq_refl).
    discriminate H.
  - repeat split.
Qed.

(** C4, amended: the signature check is constantly true, and the
    endpoint answers 200 exactly when the x-gopay-signature header has a
    non-empty value and 401 otherwise (header absent or empty); the
    status depends on nothing else in the request. *)
Theorem callback_status_by_nonempty_signature :
  (forall (b : list (string * string)) (sig : string),
      verifyCallbackSignature b sig = true)
  /\ (forall req : Request,
      gopay_callback req =
        if truthy (get "x-gopay-signature" (headers req))
        then {| status := 200; success := true; error := None |}
        else {| status := 401; success := false;
                error := Some "Invalid signature"%string |}).
Proof.
  split; [reflexivity|].
  intros req. unfold gopay_callback.
  destruct (get "x-gopay-signature" (headers req)) as [[|c sig]|]; reflexivity.
Qed.

(** Two requests whose signature headers are both non-empty, or both
    absent or empty, get the same response. *)
Lemma callback_depends_on_signature_only (r1 r2 : Request) :
  truthy (get "x-gopay-signature" (headers r1))
    = truthy (get "x-gopay-signature" (headers r2)) ->
  gopay_callback r1 = gopay_callback r2.
Proof.
  unfold gopay_callback.
  destruct (get "x-gopay-signature" (headers r1)) as [[|c1 s1]|];
    destruct (get "x-gopay-signature" (headers r2)) as [[|c2 s2]|];
    simpl; intros H; try reflexivity; discriminate H.
Qed.

Example callback_samples :
  status (gopay_callback req_without_signature) = 401
  /\ status (gopay_callback req_empty_signature) = 401
  /\ status (gopay_callback req_some_signature) = 200.
Proof. repeat split. Qed.

End ServerFacts.

(* ------------------------------------------------------------------ *)
(** ** The orders store *)
(* ------------------------------------------------------------------ *)

Module OrdersStoreFacts.
Import JS GoPay OrdersStore.
Open Scope string_scope.

(** *** The table *)

Lemma update_ok_ids (patch : Supabase.Row -> Supabase.Row) (v : string)
  (t : Supabase.Table) :
  (forall r, Supabase.id (patch r) = Supabase.id r) ->
  map Supabase.id (snd (Supabase.update None patch v t)) = map Supabase.id t.
Proof.
  intros Hpatch. simpl. rewrite map_map. apply map_ext.
  intros r. destruct (Supabase.has_id v r); [apply Hpatch | reflexivity].
Qed.

Lemma with_status_id (s : Supabase.Status) (r : Supabase.Row) :
  Supabase.id (Supabase.with_status s r) = Supabase.id r.
Proof. reflexivity. Qed.

Lemma with_payment_status_id (v : string) (r : Supabase.Row) :
  Supabase.id (Supabase.with_payment_status v r) = Supabase.id r.
Proof. reflexivity. Qed.

Lemma with_payment_info_id (pid pstatus purl : string) (r : Supabase.Row) :
  Supabase.id (Supabase.with_payment_info pid pstatus purl r) = Supabase.id r.
Proof. reflexivity. Qed.

Lemma in_insert_desc (r x : Supabase.Row) (l : list Supabase.Row) :
  In x (Supabase.insert_desc r l) <-> x = r \/ In x l.
Proof.
  induction l as [|r' l IH]; simpl.
  - intuition congruence.
  - destruct (String.ltb (Supabase.created_at r') (Supabase.created_at r)); simpl.
    + intuition congruence.
    + rewrite IH. intuition congruence.
Qed.

(** The ordered selection returns the rows of the table, no other. *)
Lemma in_order_created_at_desc (x : Supabase.Row) (l : list Supabase.Row) :
  In x (Supabase.order_created_at_desc l) <-> In x l.
Proof.
  unfold Supabase.order_created_at_desc.
  induction l as [|r l IH]; simpl; [tauto|].
  rewrite in_insert_desc, IH. intuition congruence.
Qed.

(** *** The cache *)

Lemma assign_first_ids (p : Order -> bool) (f : Order -> Order) (l : list Order) :
  (forall o, id (f o) = id o) ->
  map id (assign_first p f l) = map id l.
Proof.
  intros Hf. induction l as [|o l IH]; simpl; [reflexivity|].
  destruct (p o); simpl; [rewrite Hf | rewrite IH]; reflexivity.
Qed.

Lemma find_is_order_none (v : string) (l : list Order) :
  find (is_order v) l = None <-> ~ In v (map id l).
Proof.
  induction l as [|o l IH]; simpl; [tauto|].
  unfold is_order at 1. destruct (String.eqb_spec (id o) v) as [E|E].
  - split; [discriminate | intros H; exfalso; apply H; left; exact E].
  - rewrite IH. tauto.
Qed.

Lemma filter_not_order_ids (v : string) (l : list Order) :
  ~ In v (map id (filter (fun o => negb (is_order v o)) l)).
Proof.
  induction l as [|o l IH]; simpl; [tauto|].
  unfold is_order at 1. destruct (String.eqb_spec (id o) v) as [E|E]; simpl.
  - exact IH.
  - intros [H|H]; [exact (E H) | exact (IH H)].
Qed.

Lemma filter_not_row_ids (v : string) (t : Supabase.Table) :
  ~ In v (map Supabase.id (filter (fun r => negb (Supabase.has_id v r)) t)).
Proof.
  induction t as [|r t IH]; simpl; [tauto|].
  unfold Supabase.has_id at 1.
  destruct (String.eqb_spec (Supabase.id r) v) as [E|E]; simpl.
  - exact IH.
  - intros [H|H]; [exact (E H) | exact (IH H)].
Qed.

Lemma filter_has_id_absent (v : string) (t : Supabase.Table) :
  ~ In v (map Supabase.id t) -> filter (Supabase.has_id v) t = [].
Proof.
  induction t as [|r t IH]; simpl; [reflexivity|].
  intros H. unfold Supabase.has_id at 1.
  destruct (String.eqb_spec (Supabase.id r) v) as [E|E].
  - exfalso. apply H. left. exact E.
  - apply IH. tauto.
Qed.

(** *** Failure of the persistence call *)

(** C8: when the persistence call of [updateOrderStatus], of
    [updatePaymentStatus] or of [deleteOrder] reports an error, the
    cached list of orders is left as it was and the error field of the
    store is set (to the message of the error, or to the fallback text of
    the function); the table is as it was as well. *)
Theorem failed_mutation_keeps_cache :
  forall (err : Thrown) (v : string) (w : World),
    (forall status',
        let w' := updateOrderStatus (Some err) v status' w in
        orders (store w') = orders (store w)
        /\ error (store w') = Some (messageOr "Failed to update order status" err)
        /\ table w' = table w)
    /\ (forall cascade_failure paymentStatus',
        let w' := updatePaymentStatus (Some err) cascade_failure v paymentStatus' w in
        orders (store w') = orders (store w)
        /\ error (store w') = Some (messageOr "Failed to update payment status" err)
        /\ table w' = table w)
    /\ (let w' := deleteOrder (Some err) v w in
        orders (store w') = orders (store w)
        /\ error (store w') = Some (messageOr "Failed to delete order" err)
        /\ table w' = table w).
Proof.
  intros err v w. repeat split.
Qed.

(** The other direction: a call that changed the cached list had its
    persistence call go through. *)
Lemma cache_changed_only_after_success (failure : option Thrown) (v : string)
  (w : World) :
  (forall status',
      orders (store (updateOrderStatus failure v status' w)) <> orders (store w) ->
      failure = None)
  /\ (forall cascade_failure paymentStatus',
      orders (store (updatePaymentStatus failure cascade_failure v paymentStatus' w))
        <> orders (store w) ->
      failure = None)
  /\ (orders (store (deleteOrder failure v w)) <> orders (store w) ->
      failure = None).
Proof.
  destruct failure as [err|]; [|repeat split; reflexivity].
  repeat split; intros; exfalso; match goal with H : _ <> _ |- _ => apply H end;
    reflexivity.
Qed.

(** The cascade of [updatePaymentStatus]: when its own call went
    through and the call of the nested [updateOrderStatus] reports an
    error, the cached order has the new payment status (written after
    the first call succeeded), the statuses of the cached orders are as
    they were, and the error field is set. *)
Lemma failed_cascade_keeps_status (err : Thrown) (v : string) (w : World) :
  let w' := updatePaymentStatus None (Some err) v "PAID" w in
  map status (orders (store w')) = map status (orders (store w))
  /\ map Supabase.status (table w') = map Supabase.status (table w)
  /\ (find (is_order v) (orders (store w)) <> None ->
      error (store w') = Some (messageOr "Failed to update order status" err)).
Proof.
  unfold updatePaymentStatus. simpl.
  assert (Ht : map Supabase.status
                 (map (fun r => if Supabase.has_id v r
                                then Supabase.with_payment_status "PAID" r else r)
                      (table w)) = map Supabase.status (table w)).
  { rewrite map_map. apply map_ext. intros r.
    destruct (Supabase.has_id v r); reflexivity. }
  destruct (find (is_order v) (orders (store w))) as [o|] eqn:Hfind; simpl.
  - repeat split; [|exact Ht].
    generalize (orders (store w)). intros l.
    induction l as [|o' l IH]; simpl; [reflexivity|].
    destruct (is_order v o'); simpl; [reflexivity | rewrite IH; reflexivity].
  - repeat split; [exact Ht | intros H; exfalso; apply H; reflexivity].
Qed.

End OrdersStoreFacts.

(* ------------------------------------------------------------------ *)
(** ** Deletion, and what later calls can bring back *)
(* ------------------------------------------------------------------ *)

Module DeletionFacts.
Import JS GoPay OrdersStore Session OrdersStoreFacts.
Open Scope string_scope.

Lemma ids_of_mapped_rows (rows : list Supabase.Row) :
  map id (map mapDbRowToOrder rows) = map Supabase.id rows.
Proof. rewrite map_map. reflexivity. Qed.

Lemma fetchOrders_cached_ids (failure : option Thrown) (w : World) (x : string) :
  In x (cached_ids (fetchOrders failure w)) ->
  In x (cached_ids w) \/ In x (persisted_ids w).
Proof.
  unfold cached_ids, persisted_ids, fetchOrders.
  destruct failure as [err|]; simpl; [tauto|].
  rewrite ids_of_mapped_rows. intros H. right.
  apply in_map_iff in H. destruct H as [r [<- Hr]].
  apply in_map. apply in_order_created_at_desc. exact Hr.
Qed.

Lemma update_persisted_ids (failure : option Thrown)
  (patch : Supabase.Row -> Supabase.Row) (v : string) (t : Supabase.Table) :
  (forall r, Supabase.id (patch r) = Supabase.id r) ->
  map Supabase.id (snd (Supabase.update failure patch v t)) = map Supabase.id t.
Proof.
  intros Hpatch. destruct failure as [err|]; [reflexivity|].
  apply update_ok_ids. exact Hpatch.
Qed.

Lemma addOrder_persisted_ids (env : AddOrderEnv) (o : NewOrder) (w : World)
  (x : string) :
  In x (persisted_ids (snd (addOrder env o w))) ->
  In x (persisted_ids w) \/ x = gen_random_uuid env.
Proof.
  unfold persisted_ids, addOrder, Supabase.insert.
  destruct (insert_failure env) as [err|]; simpl; [tauto|].
  destruct (existsb (Supabase.has_id (gen_random_uuid env)) (table w));
    simpl; [tauto|].
  destruct (createPayment (payment_env env) _) as [paymentResult|paymentError].
  - match goal with
    | |- context [Supabase.update ?f ?p ?i ?t] =>
        pose proof (update_persisted_ids f p i t (with_payment_info_id _ _ _)) as Hids;
        destruct (Supabase.update f p i t) as [updateError t']
    end.
    simpl in *. rewrite Hids, map_app, in_app_iff. simpl. intuition.
  - simpl. rewrite map_app, in_app_iff. simpl. intuition.
Qed.

Lemma addOrder_cached_ids (env : AddOrderEnv) (o : NewOrder) (w : World)
  (x : string) :
  In x (cached_ids (snd (addOrder env o w))) ->
  In x (cached_ids w) \/ In x (persisted_ids (snd (addOrder env o w))).
Proof.
  unfold addOrder, Supabase.insert.
  destruct (insert_failure env) as [err|]; [simpl; tauto|].
  destruct (existsb (Supabase.has_id (gen_random_uuid env)) (table w));
    [simpl; tauto|].
  destruct (createPayment (payment_env env) _) as [paymentResult|paymentError].
  - match goal with
    | |- context [Supabase.update ?f ?p ?i ?t] =>
        destruct (Supabase.update f p i t) as [updateError t']
    end.
    intros H. apply (fetchOrders_cached_ids (refresh_failure env)) in H.
    exact H.
  - intros H. apply (fetchOrders_cached_ids (refresh_failure env)) in H.
    exact H.
Qed.

Lemma updateOrderStatus_ids (failure : option Thrown) (v : string)
  (s : Supabase.Status) (w : World) :
  persisted_ids (updateOrderStatus failure v s w) = persisted_ids w
  /\ cached_ids (updateOrderStatus failure v s w) = cached_ids w.
Proof.
  unfold persisted_ids, cached_ids, updateOrderStatus.
  destruct failure as [err|]; simpl; [split; reflexivity|].
  split.
  - apply (update_ok_ids _ v (table w) (with_status_id s)).
  - apply assign_first_ids. reflexivity.
Qed.

Lemma updatePaymentStatus_ids (failure cascade_failure : option Thrown)
  (v ps : string) (w : World) :
  persisted_ids (updatePaymentStatus failure cascade_failure v ps w) = persisted_ids w
  /\ cached_ids (updatePaymentStatus failure cascade_failure v ps w) = cached_ids w.
Proof.
  unfold updatePaymentStatus.
  destruct failure as [err|]; [split; reflexivity|].
  cbn [Supabase.update].
  assert (Ht : map Supabase.id
                 (map (fun r => if Supabase.has_id v r
                                then Supabase.with_payment_status ps r else r)
                      (table w)) = map Supabase.id (table w)).
  { apply (update_ok_ids _ v (table w) (with_payment_status_id ps)). }
  destruct (find (is_order v) (orders (begin (store w)))) as [o|].
  - destruct (String.eqb ps "PAID").
    + match goal with
      | |- context [updateOrderStatus ?f ?i ?s ?w0] =>
          destruct (updateOrderStatus_ids f i s w0) as [Hp Hc]
      end.
      unfold persisted_ids, cached_ids in *. simpl in *.
      rewrite Hp, Hc. split; [exact Ht|].
      apply assign_first_ids. reflexivity.
    + unfold persisted_ids, cached_ids. simpl. split; [exact Ht|].
      apply assign_first_ids. reflexivity.
  - unfold persisted_ids, cached_ids. simpl. split; [exact Ht | reflexivity].
Qed.

Lemma in_filtered_ids {A : Type} (f : A -> string) (p : A -> bool) (l : list A)
  (x : string) :
  In x (map f (filter p l)) -> In x (map f l).
Proof.
  intros H. apply in_map_iff in H. destruct H as [a [<- Ha]].
  apply in_map. apply filter_In in Ha. tauto.
Qed.

Lemma deleteOrder_ids (failure : option Thrown) (v : string) (w : World)
  (x : string) :
  (In x (persisted_ids (deleteOrder failure v w)) -> In x (persisted_ids w))
  /\ (In x (cached_ids (deleteOrder failure v w)) -> In x (cached_ids w)).
Proof.
  unfold persisted_ids, cached_ids, deleteOrder.
  destruct failure as [err|]; simpl; [tauto|].
  split; apply in_filtered_ids.
Qed.

(** An id that is neither persisted nor cached stays so under every
    call, unless the database hands it out again. *)
Lemma step_keeps_absent (v : string) (c : Call) (w : World) :
  does_not_generate v c = true -> absent v w -> absent v (step c w).
Proof.
  intros Hgen [Hp Hc].
  destruct c as [f | env o | f v' s' | f cf v' ps | f v' | f v']; simpl step.
  - split; [exact Hp|]. intros H.
    apply fetchOrders_cached_ids in H. tauto.
  - simpl in Hgen. apply negb_true_iff, String.eqb_neq in Hgen.
    assert (Hp' : ~ In v (persisted_ids (snd (addOrder env o w)))).
    { intros H. apply addOrder_persisted_ids in H.
      destruct H as [H|H]; [tauto | congruence]. }
    split; [exact Hp'|]. intros H.
    apply addOrder_cached_ids in H. tauto.
  - destruct (updateOrderStatus_ids f v' s' w) as [E1 E2].
    unfold absent. rewrite E1, E2. tauto.
  - destruct (updatePaymentStatus_ids f cf v' ps w) as [E1 E2].
    unfold absent. rewrite E1, E2. tauto.
  - destruct (deleteOrder_ids f v' w v) as [H1 H2].
    split; tauto.
  - unfold fetchOrderById.
    destruct (Supabase.select_single f v' (table w)); split; assumption.
Qed.

Lemma run_keeps_absent (v : string) (calls : list Call) :
  forall w : World,
    forallb (does_not_generate v) calls = true ->
    absent v w -> absent v (run calls w).
Proof.
  induction calls as [|c calls IH]; intros w Hgen Habs; [exact Habs|].
  simpl in Hgen. apply andb_true_iff in Hgen. destruct Hgen as [Hc Hrest].
  unfold run. simpl. apply (IH (step c w) Hrest).
  apply step_keeps_absent; assumption.
Qed.

Lemma deleteOrder_absent (v : string) (w : World) :
  absent v (deleteOrder None v w).
Proof.
  split.
  - apply filter_not_row_ids.
  - apply filter_not_order_ids.
Qed.

(** C5: after a [deleteOrder] whose persistence call went through, the
    id is neither in the table nor in the cache, and [getOrderById]
    returns nothing for it, at once and after any later calls of the
    store (as long as the database does not hand the id out again); the
    direct fetch returns nothing for it either. *)
Theorem deleteOrder_removes_for_good (v : string) (w : World) :
  let w' := deleteOrder None v w in
  ~ In v (persisted_ids w')
  /\ ~ In v (cached_ids w')
  /\ getOrderById v (store w') = None
  /\ (forall calls : list Call,
        forallb (does_not_generate v) calls = true ->
        getOrderById v (store (run calls w')) = None
        /\ forall failure, fst (fetchOrderById failure v (run calls w')) = None).
Proof.
  cbv zeta.
  pose proof (deleteOrder_absent v w) as Habs.
  destruct Habs as [Hp Hc]. split; [exact Hp|]. split; [exact Hc|].
  split; [apply find_is_order_none; exact Hc|].
  intros calls Hgen.
  destruct (run_keeps_absent v calls (deleteOrder None v w) Hgen (conj Hp Hc))
    as [Hp' Hc'].
  split; [apply find_is_order_none; exact Hc'|].
  intros failure. unfold fetchOrderById, Supabase.select_single.
  destruct failure as [err|]; [reflexivity|].
  rewrite (filter_has_id_absent v _ Hp'). reflexivity.
Qed.

Lemma deleteOrder_removes_for_good_witness :
  getOrderById "o1" (store (run Samples.later_calls
                                (deleteOrder None "o1" Samples.admin_world))) = None
  /\ getOrderById "o1" (store Samples.admin_world)
     = Some (mapDbRowToOrder Samples.row1).
Proof.
  split.
  - apply (deleteOrder_removes_for_good "o1" Samples.admin_world).
    reflexivity.
  - reflexivity.
Defined.

End DeletionFacts.

(* ------------------------------------------------------------------ *)
(** ** The direct fetch *)
(* ------------------------------------------------------------------ *)

Module FetchFacts.
Import JS GoPay OrdersStore Session OrdersStoreFacts.
Open Scope string_scope.

(** C9, as stated, fails: with the list loaded, the order the direct
    fetch returns is found by [getOrderById] as well. *)
Lemma fetched_order_can_be_in_cache :
  ~ (forall (failure : option Thrown) (v : string) (w : World) (o : Order),
        fst (fetchOrderById failure v w) = Some o ->
        getOrderById v (store (snd (fetchOrderById failure v w))) = None).
Proof.
  intros H.
  specialize (H None "o1" Samples.admin_world (mapDbRowToOrder Samples.row1)
                eq_refl).
  discriminate H.
Qed.

(** C9, amended: [fetchOrderById] returns the mapped row when the call
    goes through and the table has exactly one row of that id, nothing
    otherwise, and leaves the cached list (and the table) as it was;
    [getOrderById] therefore answers after the call what it answered
    before: the fetched order is found in the cache only if it was there
    already. *)
Theorem fetchOrderById_leaves_cache (failure : option Thrown) (v : string)
  (w : World) :
  let r := fetchOrderById failure v w in
  fst r = match failure with
          | Some _ => None
          | None =>
              match filter (Supabase.has_id v) (table w) with
              | [row] => Some (mapDbRowToOrder row)
              | _ => None
              end
          end
  /\ orders (store (snd r)) = orders (store w)
  /\ table (snd r) = table w
  /\ getOrderById v (store (snd r)) = getOrderById v (store w).
Proof.
  unfold fetchOrderById, Supabase.select_single.
  destruct failure as [err|]; [repeat split|].
  destruct (filter (Supabase.has_id v) (table w)) as [|row [|row' rows]];
    repeat split.
Qed.

(** Where the list was never loaded, the fetched order is not found by
    [getOrderById]. *)
Lemma fetched_order_not_in_empty_cache (failure : option Thrown) (v : string)
  (w : World) :
  orders (store w) = [] ->
  getOrderById v (store (snd (fetchOrderById failure v w))) = None.
Proof.
  intros Hempty. unfold getOrderById, fetchOrderById.
  destruct (Supabase.select_single failure v (table w)); simpl;
    rewrite Hempty; reflexivity.
Qed.

Example fetch_on_fresh_page :
  fst (fetchOrderById None "o1" Samples.fresh_page_world)
    = Some (mapDbRowToOrder Samples.row1)
  /\ getOrderById "o1"
       (store (snd (fetchOrderById None "o1" Samples.fresh_page_world))) = None.
Proof. split; reflexivity. Qed.

End FetchFacts.

(* ------------------------------------------------------------------ *)
(** ** The payment status and its cascade *)
(* ------------------------------------------------------------------ *)

Module PaymentStatusFacts.
Import JS GoPay OrdersStore Session OrdersStoreFacts.
Open Scope string_scope.

(** When its persistence call goes through, [updatePaymentStatus]
    writes the payment status on every row of that id. *)
Lemma updatePaymentStatus_persists (cascade_failure : option Thrown)
  (v ps : string) (w : World) (r : Supabase.Row) :
  In r (table (updatePaymentStatus None cascade_failure v ps w)) ->
  Supabase.id r = v ->
  Supabase.payment_status r = Some ps.
Proof.
  unfold updatePaymentStatus. cbn [Supabase.update].
  set (t := map _ (table w)).
  assert (Ht : forall r, In r t -> Supabase.id r = v ->
                         Supabase.payment_status r = Some ps).
  { intros r' H E. apply in_map_iff in H. destruct H as [r0 [E0 _]].
    subst r'. unfold Supabase.has_id in *.
    destruct (String.eqb_spec (Supabase.id r0) v) as [_|Hne];
      [reflexivity | contradiction]. }
  destruct (find (is_order v) (orders (begin (store w)))) as [o|];
    [|exact (Ht r)].
  destruct (String.eqb ps "PAID"); [|exact (Ht r)].
  unfold updateOrderStatus. destruct cascade_failure as [err|]; simpl.
  - exact (Ht r).
  - intros H E. apply in_map_iff in H. destruct H as [r1 [E1 H1]].
    subst r. destruct (Supabase.has_id v r1).
    + apply (Ht r1 H1). exact E.
    + apply (Ht r1 H1). exact E.
Qed.

(** The cascade is inside the branch of the cached order: for an order
    that is not in the cache, the table gets the payment status and
    nothing else, whatever the status is. *)
Lemma updatePaymentStatus_uncached (cascade_failure : option Thrown)
  (v ps : string) (w : World) :
  getOrderById v (store w) = None ->
  let w' := updatePaymentStatus None cascade_failure v ps w in
  table w' = snd (Supabase.update None (Supabase.with_payment_status ps) v (table w))
  /\ map Supabase.status (table w') = map Supabase.status (table w)
  /\ orders (store w') = orders (store w).
Proof.
  unfold getOrderById, updatePaymentStatus. intros Hfind.
  cbn [Supabase.update begin orders]. rewrite Hfind. simpl.
  repeat split. rewrite map_map. apply map_ext. intros r.
  destruct (Supabase.has_id v r); reflexivity.
Qed.

(** For a cached order and the status PAID, with both calls going
    through, the order is confirmed in the table and in the cache. *)
Lemma is_order_set_status (v : string) (st : Supabase.Status) (o : Order) :
  is_order v (set_status st o) = is_order v o.
Proof. reflexivity. Qed.

Lemma is_order_set_paymentStatus (v ps : string) (o : Order) :
  is_order v (set_paymentStatus ps o) = is_order v o.
Proof. reflexivity. Qed.

Lemma updatePaymentStatus_cached_paid (v : string) (w : World) (o : Order) :
  getOrderById v (store w) = Some o ->
  let w' := updatePaymentStatus None None v "PAID" w in
  (forall r, In r (table w') -> Supabase.id r = v ->
             Supabase.status r = Supabase.confirmed)
  /\ exists o', getOrderById v (store w') = Some o'
                /\ status o' = Supabase.confirmed
                /\ paymentStatus o' = Some "PAID".
Proof.
  unfold getOrderById, updatePaymentStatus. intros Hfind.
  cbn [Supabase.update begin orders]. rewrite Hfind. simpl.
  split.
  - intros r H E.
    apply in_map_iff in H. destruct H as [r1 [E1 H1]]. subst r.
    unfold Supabase.has_id in *.
    destruct (String.eqb_spec (Supabase.id r1) v) as [Hv|Hne];
      [reflexivity | contradiction].
  - revert o Hfind. generalize (orders (store w)) as l.
    induction l as [|o0 l IH]; intros o Hfind; [discriminate|].
    simpl in *. destruct (is_order v o0) eqn:Hv.
    + exists (set_status Supabase.confirmed (set_paymentStatus "PAID" o0)).
      simpl. rewrite is_order_set_paymentStatus, Hv.
      cbn [find]. rewrite is_order_set_status, is_order_set_paymentStatus, Hv.
      repeat split.
    + simpl. rewrite Hv. simpl. rewrite Hv. apply (IH o Hfind).
Qed.

(** C1, at the payment-result page: the order is in the table, the
    page fetched it by id (the list was never loaded), the stub answers
    PAID and every call goes through.  The payment status is persisted,
    but the status of the order stays pending: the cascade to
    [updateOrderStatus] is not made. *)
Theorem poll_paid_leaves_order_pending :
  let r := PaymentResultPage.onMounted Samples.poll_paid (Some "o1")
             Samples.fresh_page_world in
  PaymentResultPage.paymentStatus (fst r) = Some "PAID"
  /\ PaymentResultPage.error (fst r) = None
  /\ error (store (snd r)) = None
  /\ map Supabase.payment_status (table (snd r)) = [Some "PAID"; None]
  /\ map Supabase.status (table (snd r)) = [Supabase.pending; Supabase.pending]
  /\ fst (fetchOrderById None "o1" (snd r))
     = Some (set_paymentStatus "PAID" (mapDbRowToOrder Samples.row1)).
Proof. repeat split. Qed.

(** The same poll on the admin page's store, where the list is loaded:
    there the cascade is made and the order is confirmed. *)
Example poll_paid_confirms_cached_order :
  let r := PaymentResultPage.onMounted Samples.poll_paid (Some "o1")
             Samples.admin_world in
  map Supabase.status (table (snd r)) = [Supabase.confirmed; Supabase.pending]
  /\ option_map status (getOrderById "o1" (store (snd r)))
     = Some Supabase.confirmed.
Proof. repeat split. Qed.

End PaymentStatusFacts.

(* ------------------------------------------------------------------ *)
(** ** Creating an order *)
(* ------------------------------------------------------------------ *)

Module AddOrderFacts.
Import JS GoPay OrdersStore Session OrdersStoreFacts.
Open Scope string_scope.

(** C2, as stated, fails: the insert goes through, the payment session
    cannot be created (there is no [window]), and the call returns the
    new id without a payment URL. *)
Lemma addOrder_without_session_has_no_url :
  let r := addOrder (Samples.add_env Samples.no_window) Samples.booking
                    Samples.empty_world in
  table (snd r) = [inserted_row (Samples.add_env Samples.no_window) Samples.booking]
  /\ fst r = Some {| orderId := "o3"; added_paymentUrl := None |}
  /\ ~ (exists (v url : string),
          fst r = Some {| orderId := v; added_paymentUrl := Some url |}
          /\ url <> "").
Proof.
  repeat split. intros [v [url [H _]]]. discriminate H.
Qed.

(** C2, amended.  When the insert goes through and the payment session
    cannot be created, the order is persisted with its payment columns
    unset, the call returns the new id with no payment URL, and the
    payment failure leaves no error in the store: the error field is
    that of the refresh of the list which ends the call.  When the insert
    fails, the call returns nothing, sets the error field, and leaves
    table and cache as they were. *)
Theorem addOrder_payment_or_insert_failure (env : AddOrderEnv)
  (order : NewOrder) (w : World) :
  (insert_failure env = None ->
   existsb (Supabase.has_id (gen_random_uuid env)) (table w) = false ->
   (forall od, createPayment (payment_env env) od
               = Rejected (newError "Failed to create payment")) ->
   let r := addOrder env order w in
   fst r = Some {| orderId := gen_random_uuid env; added_paymentUrl := None |}
   /\ table (snd r) = (table w ++ [inserted_row env order])%list
   /\ Supabase.payment (inserted_row env order) = (None, None, None)
   /\ error (store (snd r))
      = option_map (messageOr "Failed to fetch orders") (refresh_failure env))
  /\ (forall err t,
        Supabase.insert (insert_failure env) (gen_random_uuid env) (now env)
                        (mapOrderToDbRow order) (table w) = (Supabase.Error err, t) ->
        let r := addOrder env order w in
        fst r = None
        /\ error (store (snd r)) = Some (messageOr "Failed to add order" err)
        /\ table (snd r) = table w
        /\ orders (store (snd r)) = orders (store w)).
Proof.
  split.
  - intros Hins Hfree Hpay. unfold addOrder, Supabase.insert.
    rewrite Hins, Hfree, Hpay. unfold fetchOrders.
    destruct (refresh_failure env) as [err|]; repeat split.
  - intros err t Hres. unfold addOrder. rewrite Hres. simpl.
    repeat split.
    unfold Supabase.insert in Hres.
    destruct (insert_failure env) as [e|].
    + inversion Hres. reflexivity.
    + destruct (existsb _ _); inversion Hres. reflexivity.
Qed.

Lemma addOrder_payment_or_insert_failure_witness :
  (let r := addOrder (Samples.add_env Samples.no_window) Samples.booking
                     Samples.fresh_page_world in
   fst r = Some {| orderId := "o3"; added_paymentUrl := None |}
   /\ map Supabase.id (table (snd r)) = ["o1"; "o2"; "o3"]
   /\ error (store (snd r)) = None)
  /\ (let r := addOrder Samples.add_env_insert_fails Samples.booking
                        Samples.fresh_page_world in
      fst r = None /\ error (store (snd r)) = Some "Failed to add order").
Proof.
  pose proof (addOrder_payment_or_insert_failure
                (Samples.add_env Samples.no_window) Samples.booking
                Samples.fresh_page_world) as [Hpay _].
  pose proof (addOrder_payment_or_insert_failure
                Samples.add_env_insert_fails Samples.booking
                Samples.fresh_page_world) as [_ Hins].
  split.
  - specialize (Hpay eq_refl eq_refl (fun od => eq_refl)).
    destruct Hpay as [Hres [Htable [_ Herr]]].
    split; [exact Hres|]. split; [rewrite Htable; reflexivity | exact Herr].
  - specialize (Hins Samples.network_down (table Samples.fresh_page_world) eq_refl).
    destruct Hins as [Hres [Herr _]].
    split; [exact Hres | exact Herr].
Defined.

(** With a payment session, the URL of the payment-result page is
    returned and written on the row. *)
Example addOrder_with_session :
  let r := addOrder (Samples.add_env Samples.browser) Samples.booking
                    Samples.empty_world in
  fst r = Some {| orderId := "o3";
                  added_paymentUrl :=
                    Some "https://app.example/payment-result?orderId=o3&mockPayment=true" |}
  /\ map Supabase.payment_id (table (snd r)) = [Some "mock_payment_0a1b2c3d"]
  /\ map Supabase.payment_status (table (snd r)) = [Some "CREATED"]
  /\ map id (orders (store (snd r))) = ["o3"].
Proof. repeat split. Qed.

End AddOrderFacts.

(* ------------------------------------------------------------------ *)
(** ** The navigation guard *)
(* ------------------------------------------------------------------ *)

Module RouterFacts.
Import JS AuthStore Router.
Open Scope string_scope.

(** C6: an unauthenticated navigation to /admin is not let through: the
    guard redirects to the route named login, whose path is /login,
    with the requested full path in the query parameter [redirect]; for
    the plain path /admin that is /login?redirect=/admin. *)
Theorem guard_redirects_unauthenticated_admin :
  exists to_admin : Location,
    resolve "/admin" = Some to_admin
    /\ beforeEach signed_out to_admin = redirect "login" [("redirect", "/admin")]
    /\ path_of_name "login" = Some "/login"
    /\ beforeEach signed_out to_admin <> proceed
    /\ forall asked : string,
         beforeEach signed_out {| matched := matched to_admin; fullPath := asked |}
         = redirect "login" [("redirect", asked)].
Proof.
  eexists. split; [reflexivity|].
  repeat split. discriminate.
Qed.

(** C10: the guard lets every session user through to /admin, whatever
    the role the profile lookup stored (or did not store) in the user's
    metadata; [isAdmin] tells the roles apart and the guard does not
    read it. *)
Theorem guard_ignores_role :
  exists to_admin : Location,
    resolve "/admin" = Some to_admin
    /\ (forall (u : User) (profile_role : option string),
          beforeEach (signed_in u profile_role) to_admin = proceed)
    /\ (forall (s : Store) (u : User),
          user s = Some u -> beforeEach s to_admin = proceed)
    /\ (forall u : User,
          isAdmin (signed_in u (Some "admin")) = true
          /\ isAdmin (signed_in u (Some "user")) = false).
Proof.
  eexists. split; [reflexivity|]. split; [reflexivity|]. split.
  - intros s u Hu. unfold beforeEach, isAuthenticated. rewrite Hu. reflexivity.
  - intros u. split; reflexivity.
Qed.

Lemma guard_ignores_role_witness :
  beforeEach (signed_in Samples.alice (Some "user"))
             {| matched := {| path := "/admin"; name := "admin";
                              requiresAuth := true |};
                fullPath := "/admin" |} = proceed
  /\ isAdmin (signed_in Samples.alice (Some "user")) = false.
Proof.
  destruct guard_ignores_role as [to_admin [Hres [Hsigned [Hany Hadmin]]]].
  injection Hres as <-.
  split.
  - apply (Hany _ (store_role (Some "user") Samples.alice)). reflexivity.
  - apply (Hadmin Samples.alice).
Defined.

(** Routes without [requiresAuth] are open to everybody. *)
Lemma guard_open_routes (s : Store) (to : Location) :
  requiresAuth (matched to) = false -> beforeEach s to = proceed.
Proof. intros H. unfold beforeEach. rewrite H. reflexivity. Qed.

End RouterFacts.

(* ------------------------------------------------------------------ *)
(** ** The cache mirrors the table *)
(* ------------------------------------------------------------------ *)

Module StoreInvariantFacts.
Import JS GoPay OrdersStore Session StoreInvariant OrdersStoreFacts DeletionFacts.
Open Scope string_scope.
Open Scope list_scope.

(** *** Lists with pairwise distinct keys *)

Lemma NoDup_map_filter {A : Type} (f : A -> string) (p : A -> bool) (l : list A) :
  NoDup (map f l) -> NoDup (map f (filter p l)).
Proof.
  induction l as [|a l IH]; simpl; intros H; [constructor|].
  inversion H as [|x xs Hnotin Hrest]; subst.
  destruct (p a); simpl; [|exact (IH Hrest)].
  constructor; [|exact (IH Hrest)].
  intros Hin. apply Hnotin. exact (in_filtered_ids f p l (f a) Hin).
Qed.

Lemma filter_has_id_unique (t : Supabase.Table) (r : Supabase.Row) :
  NoDup (map Supabase.id t) -> In r t ->
  filter (Supabase.has_id (Supabase.id r)) t = [r].
Proof.
  induction t as [|r0 t IH]; simpl; intros Hnd Hin; [contradiction|].
  inversion Hnd as [|x xs Hnotin Hrest]; subst.
  unfold Supabase.has_id at 1.
  destruct Hin as [->|Hin].
  - rewrite String.eqb_refl. f_equal.
    apply filter_has_id_absent. exact Hnotin.
  - destruct (String.eqb_spec (Supabase.id r0) (Supabase.id r)) as [E|E].
    + exfalso. apply Hnotin. rewrite E. apply in_map. exact Hin.
    + apply IH; assumption.
Qed.

Lemma find_is_order_unique (l : list Order) (o : Order) :
  NoDup (map id l) -> In o l -> find (is_order (id o)) l = Some o.
Proof.
  induction l as [|o0 l IH]; simpl; intros Hnd Hin; [contradiction|].
  inversion Hnd as [|x xs Hnotin Hrest]; subst.
  unfold is_order at 1.
  destruct Hin as [->|Hin].
  - rewrite String.eqb_refl. reflexivity.
  - destruct (String.eqb_spec (id o0) (id o)) as [E|E].
    + exfalso. apply Hnotin. rewrite E. apply in_map. exact Hin.
    + apply IH; assumption.
Qed.

Lemma find_is_order_some (v : string) (l : list Order) (o : Order) :
  find (is_order v) l = Some o -> In o l /\ id o = v.
Proof.
  intros H. apply find_some in H. destruct H as [Hin Hid].
  split; [exact Hin | apply String.eqb_eq; exact Hid].
Qed.

(** What an assignment to the first order of id [v] leaves in the list. *)
Lemma in_assign_first (v : string) (f : Order -> Order) (l : list Order)
  (o' : Order) :
  NoDup (map id l) ->
  In o' (assign_first (is_order v) f l) ->
  (exists o, In o l /\ id o = v /\ o' = f o) \/ (In o' l /\ id o' <> v).
Proof.
  induction l as [|o l IH]; simpl; intros Hnd Hin; [contradiction|].
  inversion Hnd as [|x xs Hnotin Hrest]; subst.
  unfold is_order at 1 in Hin.
  destruct (String.eqb_spec (id o) v) as [E|E].
  - destruct Hin as [<-|Hin].
    + left. exists o. auto.
    + right. split; [right; exact Hin|].
      intros E'. apply Hnotin. rewrite E, <- E'. apply in_map. exact Hin.
  - destruct Hin as [<-|Hin].
    + right. auto.
    + destruct (IH Hrest Hin) as [[o1 [H1 [H2 H3]]]|[H1 H2]].
      * left. exists o1. auto.
      * right. auto.
Qed.

(** *** The ordered selection *)

Lemma insert_desc_perm (r : Supabase.Row) (l : list Supabase.Row) :
  Permutation (Supabase.insert_desc r l) (r :: l).
Proof.
  induction l as [|r' l IH]; simpl; [apply Permutation_refl|].
  destruct (String.ltb (Supabase.created_at r') (Supabase.created_at r)).
  - apply Permutation_refl.
  - eapply Permutation_trans; [apply perm_skip; exact IH | apply perm_swap].
Qed.

Lemma order_created_at_desc_perm (l : list Supabase.Row) :
  Permutation (Supabase.order_created_at_desc l) l.
Proof.
  unfold Supabase.order_created_at_desc.
  induction l as [|r l IH]; simpl; [constructor|].
  eapply Permutation_trans; [apply insert_desc_perm|].
  apply perm_skip. exact IH.
Qed.

Lemma ltb_asym (a b : string) : String.ltb a b = true -> String.ltb b a = false.
Proof.
  unfold String.ltb. rewrite (String.compare_antisym b a).
  destruct (String.compare a b); simpl; congruence.
Qed.

Lemma insert_desc_sorted (r : Supabase.Row) (l : list Supabase.Row) :
  Sorted row_not_older l -> Sorted row_not_older (Supabase.insert_desc r l).
Proof.
  induction l as [|r' l IH]; simpl; intros Hs.
  - constructor; constructor.
  - destruct (String.ltb (Supabase.created_at r') (Supabase.created_at r)) eqn:E.
    + constructor; [exact Hs|]. constructor. apply ltb_asym. exact E.
    + inversion Hs as [|x xs Hs' Hhd]; subst.
      constructor; [exact (IH Hs')|].
      destruct l as [|r'' l]; simpl.
      * constructor. exact E.
      * destruct (String.ltb (Supabase.created_at r'') (Supabase.created_at r)).
        -- constructor. exact E.
        -- inversion Hhd; subst. constructor. assumption.
Qed.

Lemma order_created_at_desc_sorted (l : list Supabase.Row) :
  Sorted row_not_older (Supabase.order_created_at_desc l).
Proof.
  unfold Supabase.order_created_at_desc.
  induction l as [|r l IH]; simpl; [constructor|].
  apply insert_desc_sorted. exact IH.
Qed.

Lemma mapped_sorted (l : list Supabase.Row) :
  Sorted row_not_older l -> Sorted not_older (map mapDbRowToOrder l).
Proof.
  induction 1 as [|r l Hs IH Hhd]; simpl; constructor; [exact IH|].
  destruct Hhd; simpl; constructor. assumption.
Qed.

(** *** Patches on both sides *)

Lemma mapped_with_status (s : Supabase.Status) (r : Supabase.Row) :
  mapDbRowToOrder (Supabase.with_status s r) = set_status s (mapDbRowToOrder r).
Proof. reflexivity. Qed.

Lemma mapped_with_payment_status (ps : string) (r : Supabase.Row) :
  mapDbRowToOrder (Supabase.with_payment_status ps r)
  = set_paymentStatus ps (mapDbRowToOrder r).
Proof. reflexivity. Qed.

Lemma coherent_ext (w w' : World) :
  table w' = table w -> orders (store w') = orders (store w) ->
  coherent w -> coherent w'.
Proof. unfold coherent. intros -> ->. tauto. Qed.

(** The same patch on the rows of id [v] and on the cached order of
    id [v] keeps table and cache coherent. *)
Lemma patch_both_coherent (v : string) (patch : Supabase.Row -> Supabase.Row)
  (f : Order -> Order) (t : Supabase.Table) (l : list Order) :
  (forall r, Supabase.id (patch r) = Supabase.id r) ->
  (forall o, id (f o) = id o) ->
  (forall r, mapDbRowToOrder (patch r) = f (mapDbRowToOrder r)) ->
  NoDup (map Supabase.id t) -> NoDup (map id l) -> mirrors t l ->
  let t' := map (fun r => if Supabase.has_id v r then patch r else r) t in
  let l' := assign_first (is_order v) f l in
  NoDup (map Supabase.id t') /\ NoDup (map id l') /\ mirrors t' l'.
Proof.
  intros Hpatch Hf Hmap Hnt Hnl Hmir. cbv zeta.
  split; [|split].
  - rewrite (update_ok_ids patch v t Hpatch : map Supabase.id (map _ t) = _).
    exact Hnt.
  - rewrite (assign_first_ids (is_order v) f l Hf). exact Hnl.
  - intros o' Hin.
    destruct (in_assign_first v f l o' Hnl Hin) as [[o [Ho [Hid ->]]]|[Ho Hid]].
    + destruct (Hmir o Ho) as [r [Hr ->]].
      exists (patch r). split; [|symmetry; apply Hmap].
      apply in_map_iff. exists r. split; [|exact Hr].
      unfold Supabase.has_id. change (Supabase.id r) with (id (mapDbRowToOrder r)).
      rewrite Hid, String.eqb_refl. reflexivity.
    + destruct (Hmir o' Ho) as [r [Hr ->]].
      exists r. split; [|reflexivity].
      apply in_map_iff. exists r. split; [|exact Hr].
      unfold Supabase.has_id.
      destruct (String.eqb_spec (Supabase.id r) v) as [E|E];
        [contradiction | reflexivity].
Qed.

(** A patch on the rows of an id the cache does not hold. *)
Lemma patch_table_coherent (v : string) (patch : Supabase.Row -> Supabase.Row)
  (t : Supabase.Table) (l : list Order) :
  (forall r, Supabase.id (patch r) = Supabase.id r) ->
  ~ In v (map id l) ->
  NoDup (map Supabase.id t) -> mirrors t l ->
  let t' := map (fun r => if Supabase.has_id v r then patch r else r) t in
  NoDup (map Supabase.id t') /\ mirrors t' l.
Proof.
  intros Hpatch Hnotin Hnt Hmir. cbv zeta. split.
  - rewrite (update_ok_ids patch v t Hpatch : map Supabase.id (map _ t) = _).
    exact Hnt.
  - intros o Ho. destruct (Hmir o Ho) as [r [Hr ->]].
    exists r. split; [|reflexivity].
    apply in_map_iff. exists r. split; [|exact Hr].
    unfold Supabase.has_id.
    destruct (String.eqb_spec (Supabase.id r) v) as [E|E]; [|reflexivity].
    exfalso. apply Hnotin. rewrite <- E.
    change (Supabase.id r) with (id (mapDbRowToOrder r)). apply in_map. exact Ho.
Qed.

(** *** Every store function keeps the coherence *)

Lemma fetchOrders_coherent (failure : option Thrown) (w : World) :
  coherent w -> coherent (fetchOrders failure w).
Proof.
  intros [Hnt [Hnl Hmir]]. unfold fetchOrders.
  destruct failure as [err|]; [repeat split; assumption|].
  unfold coherent.
  cbn [Supabase.select_all table store orders with_orders finally begin].
  split; [exact Hnt|]. split.
  - rewrite ids_of_mapped_rows.
    apply (Permutation_NoDup
             (Permutation_sym
                (Permutation_map Supabase.id
                   (order_created_at_desc_perm (table w))))).
    exact Hnt.
  - intros o Ho. apply in_map_iff in Ho. destruct Ho as [r [<- Hr]].
    exists r. split; [|reflexivity]. apply in_order_created_at_desc. exact Hr.
Qed.

Lemma updateOrderStatus_coherent (failure : option Thrown) (v : string)
  (s : Supabase.Status) (w : World) :
  coherent w -> coherent (updateOrderStatus failure v s w).
Proof.
  intros [Hnt [Hnl Hmir]]. unfold updateOrderStatus.
  destruct failure as [err|]; simpl; [repeat split; assumption|].
  exact (patch_both_coherent v (Supabase.with_status s) (set_status s)
           (table w) (orders (store w))
           (with_status_id s) (fun _ => eq_refl) (mapped_with_status s)
           Hnt Hnl Hmir).
Qed.

Lemma updatePaymentStatus_coherent (failure cascade_failure : option Thrown)
  (v ps : string) (w : World) :
  coherent w -> coherent (updatePaymentStatus failure cascade_failure v ps w).
Proof.
  intros [Hnt [Hnl Hmir]]. unfold updatePaymentStatus.
  destruct failure as [err|]; [repeat split; assumption|].
  cbn [Supabase.update begin orders].
  destruct (find (is_order v) (orders (store w))) as [o|] eqn:Hfind.
  - pose proof (patch_both_coherent v (Supabase.with_payment_status ps)
                  (set_paymentStatus ps) (table w) (orders (store w))
                  (with_payment_status_id ps) (fun _ => eq_refl)
                  (mapped_with_payment_status ps) Hnt Hnl Hmir) as Hco.
    cbv zeta in Hco.
    pose (w1 := {| table :=
                     map (fun r => if Supabase.has_id v r
                                   then Supabase.with_payment_status ps r else r)
                         (table w);
                   store :=
                     with_orders
                       (assign_first (is_order v) (set_paymentStatus ps)
                                     (orders (store w)))
                       (begin (store w)) |}).
    assert (H1 : coherent w1) by exact Hco.
    change (coherent
              (let w' := if String.eqb ps "PAID"
                         then updateOrderStatus cascade_failure v
                                                Supabase.confirmed w1
                         else w1 in
               {| table := table w'; store := finally (store w') |})).
    destruct (String.eqb ps "PAID").
    + apply (coherent_ext
               (updateOrderStatus cascade_failure v Supabase.confirmed w1));
        [reflexivity | reflexivity |].
      apply updateOrderStatus_coherent. exact H1.
    + exact H1.
  - apply find_is_order_none in Hfind.
    destruct (patch_table_coherent v (Supabase.with_payment_status ps)
                (table w) (orders (store w)) (with_payment_status_id ps)
                Hfind Hnt Hmir) as [Hnt' Hmir'].
    repeat split; assumption.
Qed.

Lemma deleteOrder_coherent (failure : option Thrown) (v : string) (w : World) :
  coherent w -> coherent (deleteOrder failure v w).
Proof.
  intros [Hnt [Hnl Hmir]]. unfold deleteOrder.
  destruct failure as [err|]; simpl; [repeat split; assumption|].
  split; [apply NoDup_map_filter; exact Hnt|].
  split; [apply NoDup_map_filter; exact Hnl|].
  intros o Ho. apply filter_In in Ho. destruct Ho as [Ho Hid].
  destruct (Hmir o Ho) as [r [Hr ->]].
  exists r. split; [|reflexivity].
  apply filter_In. split; [exact Hr | exact Hid].
Qed.

Lemma existsb_has_id_false (v : string) (t : Supabase.Table) :
  existsb (Supabase.has_id v) t = false -> ~ In v (map Supabase.id t).
Proof.
  intros H Hin. apply in_map_iff in Hin. destruct Hin as [r [E Hr]].
  assert (Hex : existsb (Supabase.has_id v) t = true).
  { apply existsb_exists. exists r. split; [exact Hr|].
    unfold Supabase.has_id. rewrite E. apply String.eqb_refl. }
  congruence.
Qed.

Lemma addOrder_coherent (env : AddOrderEnv) (order : NewOrder) (w : World) :
  coherent w -> coherent (snd (addOrder env order w)).
Proof.
  intros [Hnt [Hnl Hmir]]. unfold addOrder, Supabase.insert.
  destruct (insert_failure env) as [err|]; [repeat split; assumption|].
  destruct (existsb (Supabase.has_id (gen_random_uuid env)) (table w)) eqn:Hfree;
    [repeat split; assumption|].
  apply existsb_has_id_false in Hfree.
  set (r := Supabase.new_row _ _ _).
  assert (Hnt1 : NoDup (map Supabase.id (table w ++ [r]))).
  { rewrite map_app. simpl.
    apply NoDup_app; [exact Hnt | repeat constructor; simpl; tauto |].
    intros x Hx [<-|[]]. exact (Hfree Hx). }
  assert (Hmir1 : mirrors (table w ++ [r]) (orders (store w))).
  { intros o Ho. destruct (Hmir o Ho) as [r0 [Hr0 E]].
    exists r0. split; [apply in_or_app; left; exact Hr0 | exact E]. }
  assert (Hcache : ~ In (gen_random_uuid env) (map id (orders (store w)))).
  { intros Hin. apply in_map_iff in Hin. destruct Hin as [o [E Ho]].
    destruct (Hmir o Ho) as [r0 [Hr0 ->]]. apply Hfree.
    rewrite <- E. change (id (mapDbRowToOrder r0)) with (Supabase.id r0).
    apply in_map. exact Hr0. }
  destruct (createPayment (payment_env env) _) as [paymentResult|paymentError].
  - destruct (payment_update_failure env) as [err|]; cbn [Supabase.update].
    + apply (coherent_ext
               (fetchOrders (refresh_failure env)
                  {| table := table w ++ [r]; store := begin (store w) |}));
        [reflexivity | reflexivity |].
      apply fetchOrders_coherent. repeat split; assumption.
    + destruct (patch_table_coherent (Supabase.id r)
                  (Supabase.with_payment_info (pr_id paymentResult) "CREATED"
                                              (pr_url paymentResult))
                  (table w ++ [r]) (orders (store w))
                  (with_payment_info_id _ _ _) Hcache Hnt1 Hmir1)
        as [Hnt2 Hmir2].
      match goal with
      | |- coherent (snd (_, {| table := table ?w1; store := _ |})) =>
          apply (coherent_ext w1); [reflexivity | reflexivity |]
      end.
      apply fetchOrders_coherent. repeat split; assumption.
  - apply (coherent_ext
             (fetchOrders (refresh_failure env)
                {| table := table w ++ [r]; store := begin (store w) |}));
      [reflexivity | reflexivity |].
    apply fetchOrders_coherent. repeat split; assumption.
Qed.

Lemma step_coherent (c : Call) (w : World) : coherent w -> coherent (step c w).
Proof.
  intros H.
  destruct c as [f | env o | f v s | f cf v ps | f v | f v]; simpl step.
  - apply fetchOrders_coherent. exact H.
  - apply addOrder_coherent. exact H.
  - apply updateOrderStatus_coherent. exact H.
  - apply updatePaymentStatus_coherent. exact H.
  - apply deleteOrder_coherent. exact H.
  - unfold fetchOrderById.
    destruct (Supabase.select_single f v (table w)); exact H.
Qed.

Lemma run_coherent (calls : list Call) :
  forall w : World, coherent w -> coherent (run calls w).
Proof.
  induction calls as [|c calls IH]; intros w H; [exact H|].
  unfold run. simpl. apply (IH (step c w)). apply step_coherent. exact H.
Qed.

(** In a coherent world the direct fetch returns what the cache holds. *)
Lemma coherent_fetch_agrees (w : World) (v : string) (o : Order) :
  coherent w -> getOrderById v (store w) = Some o ->
  fst (fetchOrderById None v w) = Some o.
Proof.
  intros [Hnt [Hnl Hmir]] Hget.
  apply find_is_order_some in Hget. destruct Hget as [Ho Hid].
  destruct (Hmir o Ho) as [r [Hr ->]].
  unfold fetchOrderById, Supabase.select_single.
  change (id (mapDbRowToOrder r)) with (Supabase.id r) in Hid. subst v.
  rewrite (filter_has_id_unique (table w) r Hnt Hr). reflexivity.
Qed.

Lemma coherent_fresh_page : coherent Samples.fresh_page_world.
Proof.
  split; [|split].
  - simpl. repeat constructor; simpl; intuition discriminate.
  - constructor.
  - intros o [].
Qed.

(** X1.  From a world whose cache mirrors the table (an empty cache
    does), whatever calls of the store follow and whatever their
    outcomes, the cache still mirrors the table: ids stay pairwise
    distinct, and an order [getOrderById] finds is the order a direct
    fetch returns. *)
Theorem store_calls_keep_cache_coherent (calls : list Call) (w : World) :
  coherent w ->
  coherent (run calls w)
  /\ forall v o,
       getOrderById v (store (run calls w)) = Some o ->
       fst (fetchOrderById None v (run calls w)) = Some o.
Proof.
  intros H. pose proof (run_coherent calls w H) as H'.
  split; [exact H'|].
  intros v o. apply coherent_fetch_agrees. exact H'.
Qed.

Lemma store_calls_keep_cache_coherent_witness :
  coherent (run Samples.later_calls Samples.fresh_page_world)
  /\ exists o,
       getOrderById "o3" (store (run Samples.later_calls Samples.fresh_page_world))
       = Some o
       /\ fst (fetchOrderById None "o3"
                 (run Samples.later_calls Samples.fresh_page_world)) = Some o.
Proof.
  destruct (store_calls_keep_cache_coherent Samples.later_calls
              Samples.fresh_page_world coherent_fresh_page) as [Hco Hfetch].
  split; [exact Hco|].
  eexists. split; [vm_compute; reflexivity|].
  apply Hfetch. vm_compute. reflexivity.
Defined.

(** X2.  A [fetchOrders] that goes through replaces the cache by all
    rows of the table, mapped, the newest first, and clears the error;
    one that fails leaves the cache as it was and sets the error. *)
Theorem fetchOrders_replaces_cache (w : World) :
  (let w' := fetchOrders None w in
   Permutation (orders (store w')) (map mapDbRowToOrder (table w))
   /\ Sorted not_older (orders (store w'))
   /\ error (store w') = None
   /\ isLoading (store w') = false
   /\ table w' = table w)
  /\ (forall err,
        let w' := fetchOrders (Some err) w in
        orders (store w') = orders (store w)
        /\ error (store w') = Some (messageOr "Failed to fetch orders" err)
        /\ isLoading (store w') = false
        /\ table w' = table w).
Proof.
  split; [|intros err; repeat split].
  unfold fetchOrders. simpl. repeat split.
  - apply Permutation_map. apply order_created_at_desc_perm.
  - apply mapped_sorted. apply order_created_at_desc_sorted.
Qed.

(** When the write-back of the payment fields reaches the row, the new
    order is found afterwards, by [getOrderById] and by the direct
    fetch, with the fields that were submitted and the payment fields
    of the session. *)
Lemma addOrder_lands_then_lookup (env : AddOrderEnv) (order : NewOrder) (w : World)
  (uuid origin : string) :
  NoDup (map Supabase.id (table w)) ->
  insert_failure env = None ->
  existsb (Supabase.has_id (gen_random_uuid env)) (table w) = false ->
  uuidv4 (payment_env env) = Some uuid ->
  window_location_origin (payment_env env) = Some origin ->
  payment_update_failure env = None ->
  refresh_failure env = None ->
  let pid := ("mock_payment_" ++ substring 0 8 uuid)%string in
  let url := (origin ++ "/payment-result?orderId=" ++ gen_random_uuid env
                     ++ "&mockPayment=true")%string in
  let o := stored_order env order (Some pid, Some "CREATED", Some url) in
  let r := addOrder env order w in
  fst r = Some {| orderId := gen_random_uuid env; added_paymentUrl := Some url |}
  /\ getOrderById (gen_random_uuid env) (store (snd r)) = Some o
  /\ fst (fetchOrderById None (gen_random_uuid env) (snd r)) = Some o
  /\ error (store (snd r)) = None.
Proof.
  intros Hnt Hins Hfree Hu Ho Hupd Href. cbv zeta.
  unfold addOrder, Supabase.insert, createPayment.
  rewrite Hins, Hfree, Hu, Ho, Hupd. cbn [Supabase.update].
  unfold fetchOrders. rewrite Href.
  cbn [Supabase.select_all fst snd table store orders error with_orders
       finally begin od_id pr_id pr_url].
  set (rnew := Supabase.new_row (gen_random_uuid env) (now env)
                                (mapOrderToDbRow order)).
  change (Supabase.id rnew) with (gen_random_uuid env).
  set (pid := ("mock_payment_" ++ substring 0 8 uuid)%string).
  set (url := (origin ++ "/payment-result?orderId=" ++ gen_random_uuid env
                      ++ "&mockPayment=true")%string).
  set (patch := Supabase.with_payment_info pid "CREATED" url).
  set (t2 := map (fun r => if Supabase.has_id (gen_random_uuid env) r
                           then patch r else r) (table w ++ [rnew])).
  split; [reflexivity|].
  apply existsb_has_id_false in Hfree.
  assert (Hnt2 : NoDup (map Supabase.id t2)).
  { unfold t2.
    rewrite (update_ok_ids patch (gen_random_uuid env) (table w ++ [rnew])
               (with_payment_info_id pid "CREATED" url)
             : map Supabase.id (map _ _) = _).
    rewrite map_app. simpl.
    apply NoDup_app; [exact Hnt | repeat constructor; simpl; tauto |].
    intros x Hx [<-|[]]. exact (Hfree Hx). }
  assert (Hin : In (patch rnew) t2).
  { unfold t2. apply in_map_iff. exists rnew. split.
    - unfold Supabase.has_id.
      change (Supabase.id rnew) with (gen_random_uuid env).
      rewrite String.eqb_refl. reflexivity.
    - apply in_or_app. right. left. reflexivity. }
  split; [|split; [|reflexivity]].
  - unfold getOrderById. cbn [orders finally with_orders].
    change (stored_order env order (Some pid, Some "CREATED", Some url))
      with (mapDbRowToOrder (patch rnew)).
    change (gen_random_uuid env) with (id (mapDbRowToOrder (patch rnew))) at 1.
    apply find_is_order_unique.
    + rewrite ids_of_mapped_rows.
      apply (Permutation_NoDup
               (Permutation_sym
                  (Permutation_map Supabase.id
                     (order_created_at_desc_perm t2)))).
      exact Hnt2.
    + apply in_map. apply in_order_created_at_desc. exact Hin.
  - unfold fetchOrderById, Supabase.select_single. cbn [table].
    change (gen_random_uuid env) with (Supabase.id (patch rnew)) at 1.
    rewrite (filter_has_id_unique t2 (patch rnew) Hnt2 Hin). reflexivity.
Qed.

(** *** One order at a time *)

Lemma find_assign_first_same (v : string) (f : Order -> Order) (l : list Order) :
  (forall o, id (f o) = id o) ->
  find (is_order v) (assign_first (is_order v) f l)
  = option_map f (find (is_order v) l).
Proof.
  intros Hf. induction l as [|o l IH]; simpl; [reflexivity|].
  destruct (is_order v o) eqn:E; simpl.
  - unfold is_order in *. rewrite Hf, E. reflexivity.
  - rewrite E. exact IH.
Qed.

Lemma find_assign_first_other (v v' : string) (f : Order -> Order)
  (l : list Order) :
  (forall o, id (f o) = id o) -> v' <> v ->
  find (is_order v') (assign_first (is_order v) f l) = find (is_order v') l.
Proof.
  intros Hf Hne. induction l as [|o l IH]; simpl; [reflexivity|].
  destruct (is_order v o) eqn:E; simpl.
  - unfold is_order in *. rewrite Hf.
    apply String.eqb_eq in E.
    destruct (String.eqb_spec (id o) v') as [E'|E']; [congruence | reflexivity].
  - rewrite IH. reflexivity.
Qed.

Lemma filter_patched_other (v v' : string) (patch : Supabase.Row -> Supabase.Row)
  (t : Supabase.Table) :
  (forall r, Supabase.id (patch r) = Supabase.id r) -> v' <> v ->
  filter (Supabase.has_id v')
         (map (fun r => if Supabase.has_id v r then patch r else r) t)
  = filter (Supabase.has_id v') t.
Proof.
  intros Hpatch Hne. induction t as [|r t IH]; simpl; [reflexivity|].
  rewrite IH. unfold Supabase.has_id.
  destruct (String.eqb_spec (Supabase.id r) v) as [E|E].
  - rewrite Hpatch.
    destruct (String.eqb_spec (Supabase.id r) v') as [E'|E'];
      [congruence | reflexivity].
  - reflexivity.
Qed.

(** X4.  An [updateOrderStatus] that goes through writes the status on
    the rows of that id and on the cached order of that id, and touches
    no other order: for every other id, the rows and what [getOrderById]
    returns are as before. *)
Theorem updateOrderStatus_changes_one_order (v : string) (s : Supabase.Status)
  (w : World) :
  let w' := updateOrderStatus None v s w in
  (forall r, In r (table w') -> Supabase.id r = v -> Supabase.status r = s)
  /\ getOrderById v (store w') = option_map (set_status s) (getOrderById v (store w))
  /\ (forall v', v' <> v ->
        filter (Supabase.has_id v') (table w') = filter (Supabase.has_id v') (table w)
        /\ getOrderById v' (store w') = getOrderById v' (store w))
  /\ error (store w') = None.
Proof.
  cbv zeta. unfold updateOrderStatus, getOrderById. simpl.
  split; [|split; [|split; [|reflexivity]]].
  - intros r Hr Hid. apply in_map_iff in Hr. destruct Hr as [r0 [<- _]].
    unfold Supabase.has_id in *.
    destruct (String.eqb_spec (Supabase.id r0) v) as [E|E];
      [reflexivity | contradiction].
  - apply find_assign_first_same. reflexivity.
  - intros v' Hne. split.
    + apply filter_patched_other; [apply with_status_id | exact Hne].
    + apply find_assign_first_other; [reflexivity | exact Hne].
Qed.

Lemma updateOrderStatus_changes_one_order_witness :
  option_map status
    (getOrderById "o1" (store (updateOrderStatus None "o1" Supabase.completed
                                                 Samples.admin_world)))
  = Some Supabase.completed
  /\ getOrderById "o2" (store (updateOrderStatus None "o1" Supabase.completed
                                                  Samples.admin_world))
     = getOrderById "o2" (store Samples.admin_world).
Proof.
  destruct (updateOrderStatus_changes_one_order "o1" Supabase.completed
              Samples.admin_world) as [_ [Hsame [Hother _]]].
  split.
  - exact (f_equal (option_map status) Hsame).
  - apply (Hother "o2"). discriminate.
Defined.

Lemma assign_first_twice (v : string) (f g : Order -> Order) (l : list Order) :
  (forall o, id (f o) = id o) ->
  assign_first (is_order v) g (assign_first (is_order v) f l)
  = assign_first (is_order v) (fun o => g (f o)) l.
Proof.
  intros Hf. induction l as [|o l IH]; simpl; [reflexivity|].
  destruct (is_order v o) eqn:E; simpl.
  - unfold is_order in *. rewrite Hf, E. reflexivity.
  - rewrite E, IH. reflexivity.
Qed.

(** X5.  The last writer wins: an [updateOrderStatus] that goes through
    leaves the world it would have left without any earlier
    [updateOrderStatus] of the same order, whether that one went
    through or failed. *)
Theorem updateOrderStatus_last_writer_wins (failure : option Thrown)
  (v : string) (s1 s2 : Supabase.Status) (w : World) :
  updateOrderStatus None v s2 (updateOrderStatus failure v s1 w)
  = updateOrderStatus None v s2 w.
Proof.
  unfold updateOrderStatus. destruct failure as [err|]; simpl; [reflexivity|].
  f_equal.
  - rewrite map_map. apply map_ext. intros r.
    unfold Supabase.has_id. destruct (String.eqb (Supabase.id r) v) eqn:E.
    + change (Supabase.id (Supabase.with_status s1 r)) with (Supabase.id r).
      rewrite E. reflexivity.
    + rewrite E. reflexivity.
  - f_equal. rewrite assign_first_twice by reflexivity. reflexivity.
Qed.

Lemma map_patch_absent (v : string) (patch : Supabase.Row -> Supabase.Row)
  (t : Supabase.Table) :
  ~ In v (map Supabase.id t) ->
  map (fun r => if Supabase.has_id v r then patch r else r) t = t.
Proof.
  induction t as [|r t IH]; simpl; intros H; [reflexivity|].
  unfold Supabase.has_id at 1.
  destruct (String.eqb_spec (Supabase.id r) v) as [E|E]; [tauto|].
  rewrite IH by tauto. reflexivity.
Qed.

Lemma assign_first_absent (v : string) (f : Order -> Order) (l : list Order) :
  ~ In v (map id l) -> assign_first (is_order v) f l = l.
Proof.
  induction l as [|o l IH]; simpl; intros H; [reflexivity|].
  unfold is_order at 1.
  destruct (String.eqb_spec (id o) v) as [E|E]; [tauto|].
  rewrite IH by tauto. reflexivity.
Qed.

Lemma filter_absent {A : Type} (f : A -> string) (v : string) (l : list A) :
  ~ In v (map f l) -> filter (fun a => negb (String.eqb (f a) v)) l = l.
Proof.
  induction l as [|a l IH]; simpl; intros H; [reflexivity|].
  destruct (String.eqb_spec (f a) v) as [E|E]; [tauto|].
  simpl. rewrite IH by tauto. reflexivity.
Qed.

(** X6.  For an id that is neither persisted nor cached, the three
    mutations go through without a trace: no error is set, and table
    and cache are as they were. *)
Theorem mutations_of_unknown_id_are_silent (v : string) (w : World) :
  absent v w ->
  (forall s, let w' := updateOrderStatus None v s w in
             table w' = table w /\ orders (store w') = orders (store w)
             /\ error (store w') = None)
  /\ (forall cascade_failure ps,
        let w' := updatePaymentStatus None cascade_failure v ps w in
        table w' = table w /\ orders (store w') = orders (store w)
        /\ error (store w') = None)
  /\ (let w' := deleteOrder None v w in
      table w' = table w /\ orders (store w') = orders (store w)
      /\ error (store w') = None).
Proof.
  intros [Hp Hc]. unfold persisted_ids, cached_ids in *.
  split; [|split].
  - intros s. unfold updateOrderStatus. simpl.
    rewrite map_patch_absent, assign_first_absent by assumption.
    repeat split.
  - intros cf ps. unfold updatePaymentStatus.
    cbn [Supabase.update begin orders].
    rewrite (proj2 (find_is_order_none v (orders (store w))) Hc).
    simpl. rewrite map_patch_absent by assumption. repeat split.
  - unfold deleteOrder, Supabase.delete, Supabase.has_id, is_order.
    cbn [begin orders with_orders finally table store].
    rewrite (filter_absent Supabase.id v (table w) Hp).
    rewrite (filter_absent id v (orders (store w)) Hc).
    repeat split.
Qed.

Lemma mutations_of_unknown_id_are_silent_witness :
  table (deleteOrder None "o9" Samples.admin_world) = table Samples.admin_world
  /\ error (store (updateOrderStatus None "o9" Supabase.cancelled
                                     Samples.admin_world)) = None.
Proof.
  assert (Habs : absent "o9" Samples.admin_world).
  { split; simpl; intuition discriminate. }
  destruct (mutations_of_unknown_id_are_silent "o9" Samples.admin_world Habs)
    as [Hupd [_ Hdel]].
  split.
  - exact (proj1 Hdel).
  - exact (proj2 (proj2 (Hupd Supabase.cancelled))).
Defined.

Lemma find_filter_other (v v' : string) (l : list Order) :
  v' <> v ->
  find (is_order v') (filter (fun o => negb (is_order v o)) l)
  = find (is_order v') l.
Proof.
  intros Hne. induction l as [|o l IH]; simpl; [reflexivity|].
  destruct (is_order v o) eqn:E; destruct (is_order v' o) eqn:E'; simpl;
    rewrite ?E'; try exact IH; try reflexivity.
  unfold is_order in E, E'. apply String.eqb_eq in E, E'. congruence.
Qed.

Lemma filter_filter_other (v v' : string) (t : Supabase.Table) :
  v' <> v ->
  filter (Supabase.has_id v') (filter (fun r => negb (Supabase.has_id v r)) t)
  = filter (Supabase.has_id v') t.
Proof.
  intros Hne. induction t as [|r t IH]; simpl; [reflexivity|].
  destruct (Supabase.has_id v r) eqn:E; destruct (Supabase.has_id v' r) eqn:E';
    simpl; rewrite ?E', ?IH; try reflexivity.
  unfold Supabase.has_id in E, E'. apply String.eqb_eq in E, E'. congruence.
Qed.

(** X7.  A [deleteOrder] removes nothing but the order it is called
    for: for every other id, [getOrderById] and the direct fetch return
    what they returned before, whether the deletion goes through. *)
Theorem deleteOrder_spares_other_orders (failure : option Thrown)
  (v v' : string) (w : World) :
  v' <> v ->
  let w' := deleteOrder failure v w in
  getOrderById v' (store w') = getOrderById v' (store w)
  /\ forall f, fst (fetchOrderById f v' w') = fst (fetchOrderById f v' w).
Proof.
  intros Hne. cbv zeta. unfold deleteOrder, getOrderById.
  destruct failure as [err|]; simpl; [split; reflexivity|].
  split; [apply find_filter_other; exact Hne|].
  intros f. unfold fetchOrderById, Supabase.select_single.
  destruct f as [e|]; [reflexivity|]. cbn [table].
  rewrite (filter_filter_other v v' (table w) Hne). 
  destruct (filter (Supabase.has_id v') (table w)) as [|r [|r' rs]]; reflexivity.
Qed.

Lemma deleteOrder_spares_other_orders_witness :
  getOrderById "o2" (store (deleteOrder None "o1" Samples.admin_world))
  = Some (mapDbRowToOrder Samples.row2).
Proof.
  assert (Hne : "o2" <> "o1") by discriminate.
  rewrite (proj1 (deleteOrder_spares_other_orders None "o1" "o2"
                    Samples.admin_world Hne)).
  reflexivity.
Defined.

End StoreInvariantFacts.

(* ================================================================== *)
(** * From the booking to the payment-result page *)
(* ================================================================== *)

Module PaymentResultViewFacts.
Import JS GoPay OrdersStore PaymentResultPage PaymentResultView StoreInvariant.
Import GoPayFacts OrdersStoreFacts StoreInvariantFacts.
Open Scope list_scope.
Open Scope string_scope.

Lemma in_statuses_rendered (o : Order) (s : string) :
  In s statuses \/ s = "UNKNOWN" ->
  exists m, statusMessages s = Some m
            /\ render (shown o (Some s))
               = result_view o (title m) (sm_message m) (color m) (retry_offered s).
Proof.
  intros [H | ->].
  - simpl in H.
    destruct H as [<- | [<- | [<- | [<- | [<- | [<- | [] ] ] ] ] ] ];
      (eexists; split; reflexivity).
  - eexists; split; reflexivity.
Qed.

Lemma mock_status_defined (pid : string) (d1 d2 : float) :
  unit_draw d2 ->
  exists s, getPaymentStatus pid d1 d2 = Some s
            /\ (In s statuses \/ s = "UNKNOWN")
            /\ (prefix "mock_payment_" pid = true -> In s statuses).
Proof.
  intros H2. unfold getPaymentStatus.
  destruct (prefix "mock_payment_" pid).
  - destruct (randomIndex_in_range d1 d2 H2) as [n [Hn Hx]].
    destruct (index_statuses_defined _ n Hx Hn) as [s [Hs Hin]].
    exists s. tauto.
  - exists "UNKNOWN". split; [reflexivity|]. split; [tauto | discriminate].
Qed.

Lemma select_single_data (v : string) (t : Supabase.Table) (r : Supabase.Row)
  (f : option Thrown) :
  Supabase.select_single f v t = Supabase.Data r -> Supabase.id r = v.
Proof.
  unfold Supabase.select_single. destruct f as [e|]; [discriminate|].
  destruct (filter (Supabase.has_id v) t) as [|r0 [|r1 rs]] eqn:E;
    try discriminate.
  intros [= <-].
  assert (Hin : In r0 (filter (Supabase.has_id v) t)) by (rewrite E; left; reflexivity).
  apply filter_In in Hin. destruct Hin as [_ Hid].
  apply String.eqb_eq. exact Hid.
Qed.

(** X8.  Whatever the query, the table and the outcomes of the calls,
    the poll of the payment-result page leaves it out of the loading
    state and showing one of two things: an error, which is `No order
    ID provided' or `Order not found' and comes with an untouched
    table, or the order of the requested id under one of the six
    statuses or UNKNOWN, each of which has its own title, message and
    colour.  The page is never blank and never shows the fallback
    texts. *)
Theorem onMounted_settles_the_page (env : PollEnv) (q : option string)
  (w : World) :
  unit_draw (draw2 env) ->
  let r := onMounted env q w in
  PaymentResultPage.isLoading (fst r) = false
  /\ ((exists msg, render (fst r) = error_view msg
                   /\ (msg = "No order ID provided" \/ msg = "Order not found")
                   /\ table (snd r) = table w)
      \/ (exists o s m,
             render (fst r)
             = result_view o (title m) (sm_message m) (color m) (retry_offered s)
             /\ statusMessages s = Some m
             /\ (In s statuses \/ s = "UNKNOWN")
             /\ q = Some (id o))).
Proof.
  intros H2. cbv zeta. unfold onMounted.
  destruct q as [v|];
    [| split; [reflexivity | left; eexists; split; [reflexivity | tauto] ] ].
  destruct (truthy (Some v)); cbn [negb];
    [| split; [reflexivity | left; eexists; split; [reflexivity | tauto] ] ].
  unfold fetchOrderById.
  destruct (Supabase.select_single (fetch_failure env) v (table w))
    as [r|e] eqn:Hsel; cbn [fst snd];
    [| split; [reflexivity | left; eexists; split; [reflexivity | tauto] ] ].
  apply select_single_data in Hsel.
  assert (Hshown : forall s w',
             In s statuses \/ s = "UNKNOWN" ->
             PaymentResultPage.isLoading
               (fst (shown (mapDbRowToOrder r) (Some s), w')) = false
             /\ ((exists msg, render (fst (shown (mapDbRowToOrder r) (Some s), w'))
                              = error_view msg
                     /\ (msg = "No order ID provided" \/ msg = "Order not found")
                     /\ table (snd (shown (mapDbRowToOrder r) (Some s), w'))
                        = table w)
                 \/ (exists o s0 m,
                        render (fst (shown (mapDbRowToOrder r) (Some s), w'))
                        = result_view o (title m) (sm_message m) (color m)
                                      (retry_offered s0)
                        /\ statusMessages s0 = Some m
                        /\ (In s0 statuses \/ s0 = "UNKNOWN")
                        /\ Some v = Some (id o)))).
  { intros s w' Hs. split; [reflexivity|]. right.
    destruct (in_statuses_rendered (mapDbRowToOrder r) s Hs) as [m [Hm Hr]].
    exists (mapDbRowToOrder r), s, m. cbn [fst].
    repeat split; try assumption.
    change (id (mapDbRowToOrder r)) with (Supabase.id r). rewrite Hsel.
    reflexivity. }
  destruct (truthy (paymentId (mapDbRowToOrder r)));
    [| apply Hshown; right; reflexivity ].
  destruct (paymentId (mapDbRowToOrder r)) as [pid|];
    [| apply Hshown; right; reflexivity ].
  destruct (mock_status_defined pid (draw1 env) (draw2 env) H2)
    as [s [Hs [Hin _]]].
  rewrite Hs. apply Hshown. exact Hin.
Qed.

Lemma onMounted_settles_the_page_witness :
  render (fst (onMounted Samples.poll_paid (Some "o1") Samples.fresh_page_world))
  <> nothing.
Proof.
  assert (H2 : unit_draw (draw2 Samples.poll_paid)) by (split; reflexivity).
  destruct (onMounted_settles_the_page Samples.poll_paid (Some "o1")
              Samples.fresh_page_world H2) as [_ [[msg [H _]] | [o [s [m [H _]]]]]];
    rewrite H; discriminate.
Defined.

(** The table [addOrder] leaves when the insert goes through: the new
    row is appended, and carries the payment fields when the session
    was created and written back. *)
Lemma addOrder_table (env : AddOrderEnv) (order : NewOrder) (w : World) :
  insert_failure env = None ->
  existsb (Supabase.has_id (gen_random_uuid env)) (table w) = false ->
  let rnew := Supabase.new_row (gen_random_uuid env) (now env)
                               (mapOrderToDbRow order) in
  table (snd (addOrder env order w))
  = match createPayment (payment_env env)
            {| od_id := gen_random_uuid env;
               od_customerName := n_customerName order;
               od_customerEmail := n_customerEmail order;
               od_price := n_price order;
               od_description :=
                 "Transportation from " ++ n_startAddress order
                   ++ " to " ++ n_endAddress order |} with
    | Resolved pr =>
        snd (Supabase.update (payment_update_failure env)
               (Supabase.with_payment_info (pr_id pr) "CREATED" (pr_url pr))
               (gen_random_uuid env) (table w ++ [rnew])%list)
    | Rejected _ => (table w ++ [rnew])%list
    end.
Proof.
  intros Hins Hfree. cbv zeta. unfold addOrder, Supabase.insert.
  rewrite Hins, Hfree.
  change (Supabase.id (Supabase.new_row (gen_random_uuid env) (now env)
                                        (mapOrderToDbRow order)))
    with (gen_random_uuid env).
  destruct (createPayment _ _) as [pr|e]; [|reflexivity].
  destruct (payment_update_failure env); reflexivity.
Qed.

Lemma NoDup_ids_appended (t : Supabase.Table) (r : Supabase.Row) :
  NoDup (map Supabase.id t) ->
  existsb (Supabase.has_id (Supabase.id r)) t = false ->
  NoDup (map Supabase.id (t ++ [r])%list).
Proof.
  intros Hnd Hfree. apply existsb_has_id_false in Hfree.
  rewrite map_app. simpl.
  apply NoDup_app; [exact Hnd | repeat constructor; simpl; tauto |].
  intros x Hx [<-|[]]. exact (Hfree Hx).
Qed.

Lemma prefix_append (p x : string) : prefix p (p ++ x) = true.
Proof.
  induction p as [|c p IH]; simpl.
  - destruct x; reflexivity.
  - destruct (ascii_dec c c); [exact IH | congruence].
Qed.

Lemma truthy_nonempty (v : string) : v <> "" -> truthy (Some v) = true.
Proof. destruct v; [congruence | reflexivity]. Qed.

(** The poll on a page that was just loaded, for a row that carries a
    payment id: the status drawn is shown and written on the row. *)
Lemma poll_after_page_load_world (env : PollEnv) (t : Supabase.Table)
  (r : Supabase.Row) (pid : string) :
  NoDup (map Supabase.id t) -> In r t -> Supabase.id r <> "" ->
  Supabase.payment_id r = Some pid -> pid <> "" ->
  fetch_failure env = None -> update_failure env = None ->
  forall s, getPaymentStatus pid (draw1 env) (draw2 env) = Some s ->
  exists st,
    onMounted env (Some (Supabase.id r))
              (page_load (mkWorld t (mkStore [] false None)))
    = (shown (mapDbRowToOrder r) (Some s),
       mkWorld (map (fun r' => if Supabase.has_id (Supabase.id r) r'
                               then Supabase.with_payment_status s r' else r') t)
               st).
Proof.
  intros Hnd Hin Hid Hpid Hne Hf Hu s Hs.
  unfold onMounted, page_load. rewrite (truthy_nonempty _ Hid). cbn [negb].
  unfold fetchOrderById, Supabase.select_single. rewrite Hf.
  cbn [table store]. rewrite (filter_has_id_unique t r Hnd Hin).
  change (paymentId (mapDbRowToOrder r)) with (Supabase.payment_id r).
  rewrite Hpid, (truthy_nonempty _ Hne), Hs.
  unfold updatePaymentStatus. rewrite Hu.
  cbn [Supabase.update begin orders find finally store table].
  eexists. reflexivity.
Qed.

Lemma poll_after_page_load (env : PollEnv) (t : Supabase.Table)
  (r : Supabase.Row) (pid : string) :
  NoDup (map Supabase.id t) -> In r t -> Supabase.id r <> "" ->
  Supabase.payment_id r = Some pid -> pid <> "" ->
  fetch_failure env = None -> update_failure env = None ->
  forall s, getPaymentStatus pid (draw1 env) (draw2 env) = Some s ->
  let p := onMounted env (Some (Supabase.id r))
                     (page_load (mkWorld t (mkStore [] false None))) in
  fst p = shown (mapDbRowToOrder r) (Some s)
  /\ fst (fetchOrderById None (Supabase.id r) (snd p))
     = Some (set_paymentStatus s (mapDbRowToOrder r)).
Proof.
  intros Hnd Hin Hid Hpid Hne Hf Hu s Hs. cbv zeta.
  destruct (poll_after_page_load_world env t r pid Hnd Hin Hid Hpid Hne Hf Hu s Hs)
    as [st ->].
  cbn [fst snd]. split; [reflexivity|].
  unfold fetchOrderById, Supabase.select_single. cbn [table].
  assert (Hnd' : NoDup (map Supabase.id
                          (snd (Supabase.update None (Supabase.with_payment_status s)
                                                (Supabase.id r) t)))).
  { rewrite (update_ok_ids (Supabase.with_payment_status s) (Supabase.id r) t
               (with_payment_status_id s)).
    exact Hnd. }
  assert (Hin' : In (Supabase.with_payment_status s r)
                    (snd (Supabase.update None (Supabase.with_payment_status s)
                                          (Supabase.id r) t))).
  { cbn [Supabase.update snd]. apply in_map_iff. exists r. split; [|exact Hin].
    unfold Supabase.has_id. rewrite String.eqb_refl. reflexivity. }
  cbn [Supabase.update snd] in Hnd', Hin'.
  pose proof (filter_has_id_unique _ _ Hnd' Hin') as Hfil.
  change (Supabase.id (Supabase.with_payment_status s r))
    with (Supabase.id r) in Hfil.
  rewrite Hfil. reflexivity.
Qed.

(** When the write-back of [addOrder] and the write of the poll reach
    the row, the page shows the booked order under one of the six
    statuses, which the table then holds. *)
Lemma booking_then_poll_lands (env : AddOrderEnv)
  (order : NewOrder) (w : World) (uuid origin : string) (penv : PollEnv) :
  NoDup (map Supabase.id (table w)) ->
  insert_failure env = None ->
  existsb (Supabase.has_id (gen_random_uuid env)) (table w) = false ->
  gen_random_uuid env <> "" ->
  uuidv4 (payment_env env) = Some uuid ->
  window_location_origin (payment_env env) = Some origin ->
  payment_update_failure env = None ->
  fetch_failure penv = None -> update_failure penv = None ->
  unit_draw (draw2 penv) ->
  let pid := "mock_payment_" ++ substring 0 8 uuid in
  let url := origin ++ "/payment-result?orderId=" ++ gen_random_uuid env
                    ++ "&mockPayment=true" in
  let o := stored_order env order (Some pid, Some "CREATED", Some url) in
  let a := addOrder env order w in
  let p := onMounted penv (Some (gen_random_uuid env)) (page_load (snd a)) in
  option_map added_paymentUrl (fst a) = Some (Some url)
  /\ exists s, In s statuses
     /\ fst p = shown o (Some s)
     /\ fst (fetchOrderById None (gen_random_uuid env) (snd p))
        = Some (set_paymentStatus s o)
     /\ tryAgain (fst p) = Some url.
Proof.
  intros Hnt Hins Hfree Hid Hu Ho Hupd Hf Hupd' H2. cbv zeta.
  pose proof (addOrder_table env order w Hins Hfree) as Ht. cbv zeta in Ht.
  split.
  { unfold addOrder, Supabase.insert, createPayment.
    rewrite Hins, Hfree, Hu, Ho, Hupd. reflexivity. }
  unfold createPayment in Ht. rewrite Hu, Ho, Hupd in Ht.
  cbn [Supabase.update snd pr_id pr_url od_id] in Ht.
  set (rnew := Supabase.new_row (gen_random_uuid env) (now env)
                                (mapOrderToDbRow order)) in *.
  set (pid := "mock_payment_" ++ substring 0 8 uuid) in *.
  set (url := origin ++ "/payment-result?orderId=" ++ gen_random_uuid env
                     ++ "&mockPayment=true") in *.
  set (patch := Supabase.with_payment_info pid "CREATED" url) in *.
  assert (Hnt2 : NoDup (map Supabase.id (table (snd (addOrder env order w))))).
  { rewrite Ht.
    rewrite (update_ok_ids patch (gen_random_uuid env) (table w ++ [rnew])%list
               (with_payment_info_id pid "CREATED" url)
             : map Supabase.id (map _ _) = _).
    apply NoDup_ids_appended; assumption. }
  assert (Hin : In (patch rnew) (table (snd (addOrder env order w)))).
  { rewrite Ht. apply in_map_iff. exists rnew. split.
    - unfold Supabase.has_id.
      change (Supabase.id rnew) with (gen_random_uuid env).
      rewrite String.eqb_refl. reflexivity.
    - apply in_or_app. right. left. reflexivity. }
  assert (Hpne : pid <> "") by discriminate.
  assert (Hpre : prefix "mock_payment_" pid = true).
  { apply prefix_append. }
  destruct (mock_status_defined pid (draw1 penv) (draw2 penv) H2)
    as [s [Hs [_ Hmock]]].
  exists s. split; [exact (Hmock Hpre)|].
  destruct (poll_after_page_load penv (table (snd (addOrder env order w)))
              (patch rnew) pid Hnt2 Hin Hid eq_refl Hpne Hf Hupd' s Hs)
    as [Hshown Hfetch].
  change (Supabase.id (patch rnew)) with (gen_random_uuid env) in *.
  change (mapDbRowToOrder (patch rnew))
    with (stored_order env order (Some pid, Some "CREATED", Some url)) in *.
  change (page_load {| table := table (snd (addOrder env order w));
                       store := mkStore [] false None |})
    with (page_load (snd (addOrder env order w))) in *.
  split; [exact Hshown|]. split; [exact Hfetch|].
  rewrite Hshown. unfold tryAgain. cbn [PaymentResultPage.order shown].
  change (paymentUrl (stored_order env order (Some pid, Some "CREATED", Some url)))
    with (Some url).
  destruct origin; reflexivity.
Qed.

(** X10.  When the order is inserted but its payment fields are not
    written back (the update fails), [addOrder] still hands out the
    payment URL of a session that was created; the row carries no
    payment id, so the payment-result page loaded for the new id shows
    UNKNOWN, changes nothing in the table, and its `Try Payment Again'
    does nothing. *)
Theorem unrecorded_payment_polls_unknown (env : AddOrderEnv)
  (order : NewOrder) (w : World) (err : Thrown) (penv : PollEnv) :
  NoDup (map Supabase.id (table w)) ->
  insert_failure env = None ->
  existsb (Supabase.has_id (gen_random_uuid env)) (table w) = false ->
  gen_random_uuid env <> "" ->
  payment_update_failure env = Some err ->
  fetch_failure penv = None ->
  let rnew := Supabase.new_row (gen_random_uuid env) (now env)
                               (mapOrderToDbRow order) in
  let a := addOrder env order w in
  let p := onMounted penv (Some (gen_random_uuid env)) (page_load (snd a)) in
  (forall uuid origin,
      uuidv4 (payment_env env) = Some uuid ->
      window_location_origin (payment_env env) = Some origin ->
      fst a = Some {| orderId := gen_random_uuid env;
                      added_paymentUrl :=
                        Some (origin ++ "/payment-result?orderId="
                                     ++ gen_random_uuid env
                                     ++ "&mockPayment=true") |})
  /\ table (snd a) = (table w ++ [rnew])%list
  /\ fst p = shown (mapDbRowToOrder rnew) (Some "UNKNOWN")
  /\ table (snd p) = table (snd a)
  /\ tryAgain (fst p) = None.
Proof.
  intros Hnt Hins Hfree Hid Hupd Hf. cbv zeta.
  pose proof (addOrder_table env order w Hins Hfree) as Ht. cbv zeta in Ht.
  rewrite Hupd in Ht. cbn [Supabase.update snd] in Ht.
  set (rnew := Supabase.new_row (gen_random_uuid env) (now env)
                                (mapOrderToDbRow order)) in *.
  assert (Ht' : table (snd (addOrder env order w)) = (table w ++ [rnew])%list).
  { rewrite Ht. destruct (createPayment _ _); reflexivity. }
  split.
  { intros uuid origin Hu Ho.
    unfold addOrder, Supabase.insert, createPayment.
    rewrite Hins, Hfree, Hu, Ho, Hupd. reflexivity. }
  split; [exact Ht'|].
  assert (Hp : exists st,
             onMounted penv (Some (gen_random_uuid env))
                       (page_load (snd (addOrder env order w)))
             = (shown (mapDbRowToOrder rnew) (Some "UNKNOWN"),
                mkWorld (table w ++ [rnew])%list st)).
  { unfold onMounted, page_load. rewrite (truthy_nonempty _ Hid). cbn [negb].
    unfold fetchOrderById, Supabase.select_single. rewrite Hf, Ht'.
    cbn [table store].
    change (filter (Supabase.has_id (gen_random_uuid env)) (table w ++ [rnew])%list)
      with (filter (Supabase.has_id (Supabase.id rnew)) (table w ++ [rnew])%list).
    rewrite (filter_has_id_unique (table w ++ [rnew])%list rnew).
    - eexists. reflexivity.
    - apply NoDup_ids_appended; assumption.
    - apply in_or_app. right. left. reflexivity. }
  destruct Hp as [st ->]. rewrite Ht'. repeat split.
Qed.

Lemma unrecorded_payment_polls_unknown_witness :
  let env :=
    {| insert_failure := None; gen_random_uuid := "o3";
       now := "2025-03-03T09:00:00+00:00";
       payment_env := Samples.browser;
       payment_update_failure := Some Samples.network_down;
       admin_notification := Resolved true;
       customer_confirmation := Resolved true;
       refresh_failure := None |} in
  let a := addOrder env Samples.booking Samples.fresh_page_world in
  option_map added_paymentUrl (fst a)
  = Some (Some "https://app.example/payment-result?orderId=o3&mockPayment=true")
  /\ PaymentResultPage.paymentStatus
       (fst (onMounted Samples.poll_paid (Some "o3") (page_load (snd a))))
     = Some "UNKNOWN".
Proof.
  cbv zeta.
  assert (Hid : "o3" <> "") by discriminate.
  destruct (unrecorded_payment_polls_unknown
              {| insert_failure := None; gen_random_uuid := "o3";
                 now := "2025-03-03T09:00:00+00:00";
                 payment_env := Samples.browser;
                 payment_update_failure := Some Samples.network_down;
                 admin_notification := Resolved true;
                 customer_confirmation := Resolved true;
                 refresh_failure := None |}
              Samples.booking Samples.fresh_page_world Samples.network_down
              Samples.poll_paid
              (proj1 coherent_fresh_page) eq_refl eq_refl Hid eq_refl eq_refl)
    as [Hret [_ [Hshown _]]].
  cbv zeta in *. split.
  - rewrite (Hret "0a1b2c3d-0000-4000-8000-000000000000" "https://app.example"
               eq_refl eq_refl). reflexivity.
  - exact (f_equal PaymentResultPage.paymentStatus Hshown).
Defined.

(** X11.  Deleting the order that was just added undoes the insert:
    when the insert went through with a fresh id, whatever became of
    the payment session and of the refresh, a [deleteOrder] of the new
    id that goes through leaves the table exactly as it was before
    [addOrder], and the order is found neither in the cache nor by a
    direct fetch. *)
Theorem addOrder_then_deleteOrder_restores_table (env : AddOrderEnv)
  (order : NewOrder) (w : World) :
  insert_failure env = None ->
  existsb (Supabase.has_id (gen_random_uuid env)) (table w) = false ->
  let w' := deleteOrder None (gen_random_uuid env) (snd (addOrder env order w)) in
  table w' = table w
  /\ getOrderById (gen_random_uuid env) (store w') = None
  /\ fst (fetchOrderById None (gen_random_uuid env) w') = None.
Proof.
  intros Hins Hfree. cbv zeta.
  pose proof (addOrder_table env order w Hins Hfree) as Ht. cbv zeta in Ht.
  pose proof (existsb_has_id_false _ _ Hfree) as Habs.
  set (rnew := Supabase.new_row (gen_random_uuid env) (now env)
                                (mapOrderToDbRow order)) in *.
  assert (Htable : table (deleteOrder None (gen_random_uuid env)
                            (snd (addOrder env order w))) = table w).
  { unfold deleteOrder. cbn [Supabase.delete table]. rewrite Ht.
    assert (Hplain : filter (fun r => negb (Supabase.has_id (gen_random_uuid env) r))
                            (table w ++ [rnew])%list = table w).
    { rewrite filter_app. cbn [filter]. unfold Supabase.has_id at 2.
      change (Supabase.id rnew) with (gen_random_uuid env).
      rewrite String.eqb_refl. cbn [negb]. rewrite app_nil_r.
      unfold Supabase.has_id.
      exact (StoreInvariantFacts.filter_absent Supabase.id
               (gen_random_uuid env) (table w) Habs). }
    destruct (createPayment _ _) as [pr|e]; [|exact Hplain].
    destruct (payment_update_failure env); cbn [Supabase.update snd];
      [exact Hplain|].
    rewrite map_app. rewrite filter_app.
    rewrite (StoreInvariantFacts.map_patch_absent (gen_random_uuid env) _
               (table w) Habs).
    cbn [map filter]. unfold Supabase.has_id at 2 3.
    change (Supabase.id rnew) with (gen_random_uuid env).
    rewrite String.eqb_refl.
    cbn [Supabase.id Supabase.with_payment_info Supabase.with_payment].
    change (Supabase.id rnew) with (gen_random_uuid env).
    rewrite String.eqb_refl. cbn [negb]. rewrite app_nil_r.
    unfold Supabase.has_id.
    exact (StoreInvariantFacts.filter_absent Supabase.id
             (gen_random_uuid env) (table w) Habs). }
  split; [exact Htable|]. split.
  - unfold getOrderById, deleteOrder.
    cbn [Supabase.delete store orders finally with_orders begin].
    apply find_is_order_none. apply filter_not_order_ids.
  - unfold fetchOrderById, Supabase.select_single. rewrite Htable.
    rewrite (filter_has_id_absent _ _ Habs). reflexivity.
Qed.

Lemma addOrder_then_deleteOrder_restores_table_witness :
  table (deleteOrder None "o3"
           (snd (addOrder (Samples.add_env Samples.browser) Samples.booking
                          Samples.fresh_page_world)))
  = table Samples.fresh_page_world.
Proof.
  exact (proj1 (addOrder_then_deleteOrder_restores_table
                  (Samples.add_env Samples.browser) Samples.booking
                  Samples.fresh_page_world eq_refl eq_refl)).
Defined.

End PaymentResultViewFacts.

(* ================================================================== *)
(** * The mail endpoint and its client *)
(* ================================================================== *)

Module MailFacts.
Import JS Mail.
Open Scope string_scope.
Open Scope Z_scope.

(** X12.  The answers of [/api/send-email].  The status is 400, 200 or
    500, and [success] is true exactly on 200.  It is 400 exactly when
    [to] or [subject] is missing or empty or both [html] and [text]
    are; then no transport is called.  Otherwise SendGrid is called
    first, the fallback transport only after SendGrid refused and with
    the same message; the status is 200 exactly when one of the two
    accepted, and on 500 the error reported is that of the fallback
    transport. *)
Theorem send_email_answers (env : ServerEnv) (req : Server.Request) :
  let r := send_email env req in
  (status (fst r) = 400 \/ status (fst r) = 200 \/ status (fst r) = 500)
  /\ (success (fst r) = true <-> status (fst r) = 200)
  /\ (status (fst r) = 400 <-> missing_fields (Server.body req) = true)
  /\ (status (fst r) = 400 -> snd r = [])
  /\ (missing_fields (Server.body req) = false ->
      exists msg,
        m_to msg <> ""%string /\ m_subject msg <> ""%string
        /\ (m_html msg <> ""%string \/ m_text msg <> ""%string)
        /\ (snd r = [by_sendgrid msg]
            \/ snd r = [by_sendgrid msg; by_nodemailer msg])
        /\ (snd r = [by_sendgrid msg] <-> sgMail_send env msg = None)
        /\ (status (fst r) = 200 <->
            sgMail_send env msg = None \/ transporter_sendMail env msg = None)
        /\ (status (fst r) = 500 ->
            exists err, transporter_sendMail env msg = Some err
                        /\ error (fst r)
                           = Some (or_else (se_message err) "Failed to send email")
                        /\ details (fst r) = se_response_body err)).
Proof.
  cbv zeta. unfold send_email.
  destruct (missing_fields (Server.body req)) eqn:Hmiss.
  - cbn [fst snd status success].
    repeat split; try tauto; try discriminate; intros; try discriminate;
      try reflexivity.
  - set (msg := {| m_to := _ |}).
    assert (Hfields : m_to msg <> ""%string /\ m_subject msg <> ""%string
                      /\ (m_html msg <> ""%string \/ m_text msg <> ""%string)).
    { unfold missing_fields in Hmiss. apply orb_false_elim in Hmiss.
      destruct Hmiss as [Hmiss Hcontent]. apply orb_false_elim in Hmiss.
      destruct Hmiss as [Hto Hsubject].
      unfold msg. cbn [m_to m_subject m_html m_text]. unfold or_else.
      destruct (get "to" (Server.body req)) as [[|c1 s1]|]; try discriminate.
      destruct (get "subject" (Server.body req)) as [[|c2 s2]|]; try discriminate.
      split; [discriminate|]. split; [discriminate|].
      destruct (get "html" (Server.body req)) as [[|c3 s3]|];
        destruct (get "text" (Server.body req)) as [[|c4 s4]|];
        try discriminate; simpl; (left; discriminate) || (right; discriminate). }
    destruct Hfields as [Ht [Hs Hc]].
    destruct (sgMail_send env msg) as [e1|] eqn:H1;
      [destruct (transporter_sendMail env msg) as [e2|] eqn:H2|];
      cbn [fst snd status success error details].
    + split; [tauto|]. split; [split; discriminate|].
      split; [split; discriminate|]. split; [discriminate|].
      intros _. exists msg. rewrite H1, H2.
      split; [exact Ht|]. split; [exact Hs|]. split; [exact Hc|].
      split; [right; reflexivity|].
      split; [split; discriminate|].
      split; [split; [discriminate | intros [H|H]; discriminate]|].
      intros _. exists e2. repeat split.
    + split; [tauto|]. split; [tauto|].
      split; [split; discriminate|]. split; [discriminate|].
      intros _. exists msg. rewrite H1, H2.
      split; [exact Ht|]. split; [exact Hs|]. split; [exact Hc|].
      split; [right; reflexivity|].
      split; [split; discriminate|].
      split; [split; [right; reflexivity | reflexivity]|].
      discriminate.
    + split; [tauto|]. split; [tauto|].
      split; [split; discriminate|]. split; [discriminate|].
      intros _. exists msg. rewrite H1.
      split; [exact Ht|]. split; [exact Hs|]. split; [exact Hc|].
      split; [left; reflexivity|].
      split; [split; reflexivity|].
      split; [split; [left; reflexivity | reflexivity]|].
      discriminate.
Qed.

Lemma send_email_answers_witness :
  status (fst (send_email
                 {| VITE_FROM_EMAIL := None; sgMail_send := refuses;
                    transporter_sendMail := accepts |}
                 (post [("to", "a@b.cz"); ("subject", "Hello"); ("text", "Hi")])))
  = 200.
Proof.
  destruct (send_email_answers
              {| VITE_FROM_EMAIL := None; sgMail_send := refuses;
                 transporter_sendMail := accepts |}
              (post [("to", "a@b.cz"); ("subject", "Hello"); ("text", "Hi")]))
    as [_ [_ [_ [_ H]]]].
  destruct (H eq_refl) as [msg [_ [_ [_ [_ [_ [H200 _]]]]]]].
  apply H200. right. reflexivity.
Defined.

Lemma truthy_or_else (v : option string) (d : string) :
  d <> ""%string -> truthy (Some (or_else v d)) = true.
Proof.
  intros Hd. unfold or_else. destruct v as [[|c s]|]; simpl;
    try reflexivity; destruct d; congruence.
Qed.

Lemma admin_body_complete (cenv : ClientEnv) (order_id html text : string) :
  html <> ""%string \/ text <> ""%string ->
  missing_fields (admin_body cenv order_id html text) = false.
Proof.
  intros Hc. unfold missing_fields.
  change (get "to" (admin_body cenv order_id html text))
    with (Some (or_else (VITE_ADMIN_EMAIL cenv) "admin@example.com")).
  change (get "subject" (admin_body cenv order_id html text))
    with (Some ("New Order Received: " ++ order_id)%string).
  change (get "html" (admin_body cenv order_id html text)) with (Some html).
  change (get "text" (admin_body cenv order_id html text)) with (Some text).
  rewrite truthy_or_else by discriminate.
  destruct Hc as [H|H]; destruct html, text; try congruence; reflexivity.
Qed.

Lemma customer_body_missing (cenv : ClientEnv)
  (order_id customerEmail html text : string) :
  html <> ""%string \/ text <> ""%string ->
  missing_fields (customer_body cenv order_id customerEmail html text)
  = negb (truthy (Some customerEmail)).
Proof.
  intros Hc. unfold missing_fields.
  change (get "to" (customer_body cenv order_id customerEmail html text))
    with (Some customerEmail).
  change (get "subject" (customer_body cenv order_id customerEmail html text))
    with (Some ("Your Route Booking Confirmation: " ++ order_id)%string).
  change (get "html" (customer_body cenv order_id customerEmail html text))
    with (Some html).
  change (get "text" (customer_body cenv order_id customerEmail html text))
    with (Some text).
  destruct customerEmail; [reflexivity|].
  destruct Hc as [H|H]; destruct html, text; try congruence; reflexivity.
Qed.

Lemma or_else_self (x : string) : or_else (Some x) "" = x.
Proof. destruct x; reflexivity. Qed.

Lemma truthy_Some_nonempty (x : string) : x <> ""%string -> truthy (Some x) = true.
Proof. destruct x; [congruence | reflexivity]. Qed.

Lemma or_else_nonempty (v : option string) (d : string) :
  d <> ""%string -> or_else v d <> ""%string.
Proof.
  intros Hd. unfold or_else. destruct v as [[|c s]|]; simpl;
    try assumption; discriminate.
Qed.

(** What the endpoint answers to a body that is complete, in terms of
    the message [m] it makes of it. *)
Lemma send_email_delivery (senv : ServerEnv) (body : Object) (m : Message) :
  missing_fields body = false ->
  {| m_to := or_else (get "to" body) "";
     m_from := if truthy (get "from" body) then get "from" body
               else VITE_FROM_EMAIL senv;
     m_subject := or_else (get "subject" body) "";
     m_text := or_else (get "text" body) "";
     m_html := or_else (get "html" body) "" |} = m ->
  let r := send_email senv (post body) in
  snd r = tried senv m
  /\ negb (response_ok (fst r)) || negb (success (fst r))
     = negb (delivers senv m).
Proof.
  intros Hmiss Hm. cbv zeta. unfold send_email, tried, delivers.
  cbn [post Server.body]. rewrite Hmiss, Hm.
  destruct (sgMail_send senv m) as [e1|];
    [destruct (transporter_sendMail senv m) as [e2|]|]; split; reflexivity.
Qed.

Lemma admin_request_message (cenv : ClientEnv) (senv : ServerEnv)
  (order_id html text : string) :
  {| m_to := or_else (get "to" (admin_body cenv order_id html text)) "";
     m_from := if truthy (get "from" (admin_body cenv order_id html text))
               then get "from" (admin_body cenv order_id html text)
               else VITE_FROM_EMAIL senv;
     m_subject := or_else (get "subject" (admin_body cenv order_id html text)) "";
     m_text := or_else (get "text" (admin_body cenv order_id html text)) "";
     m_html := or_else (get "html" (admin_body cenv order_id html text)) "" |}
  = admin_message cenv order_id html text.
Proof.
  change (get "to" (admin_body cenv order_id html text))
    with (Some (or_else (VITE_ADMIN_EMAIL cenv) "admin@example.com")).
  change (get "from" (admin_body cenv order_id html text))
    with (Some (or_else (client_VITE_FROM_EMAIL cenv) "noreply@routeplanner.app")).
  change (get "subject" (admin_body cenv order_id html text))
    with (Some ("New Order Received: " ++ order_id)%string).
  change (get "html" (admin_body cenv order_id html text)) with (Some html).
  change (get "text" (admin_body cenv order_id html text)) with (Some text).
  rewrite !or_else_self.
  assert (Hfrom : "noreply@routeplanner.app"%string <> ""%string) by discriminate.
  rewrite (truthy_Some_nonempty _
             (or_else_nonempty (client_VITE_FROM_EMAIL cenv) _ Hfrom)).
  reflexivity.
Qed.

Lemma customer_request_message (cenv : ClientEnv) (senv : ServerEnv)
  (order_id customerEmail html text : string) :
  {| m_to := or_else (get "to" (customer_body cenv order_id customerEmail html text)) "";
     m_from := if truthy (get "from" (customer_body cenv order_id customerEmail html text))
               then get "from" (customer_body cenv order_id customerEmail html text)
               else VITE_FROM_EMAIL senv;
     m_subject := or_else (get "subject" (customer_body cenv order_id customerEmail html text)) "";
     m_text := or_else (get "text" (customer_body cenv order_id customerEmail html text)) "";
     m_html := or_else (get "html" (customer_body cenv order_id customerEmail html text)) "" |}
  = customer_message cenv order_id customerEmail html text.
Proof.
  change (get "to" (customer_body cenv order_id customerEmail html text))
    with (Some customerEmail).
  change (get "from" (customer_body cenv order_id customerEmail html text))
    with (Some (or_else (client_VITE_FROM_EMAIL cenv) "noreply@routeplanner.app")).
  change (get "subject" (customer_body cenv order_id customerEmail html text))
    with (Some ("Your Route Booking Confirmation: " ++ order_id)%string).
  change (get "html" (customer_body cenv order_id customerEmail html text))
    with (Some html).
  change (get "text" (customer_body cenv order_id customerEmail html text))
    with (Some text).
  rewrite !or_else_self.
  assert (Hfrom : "noreply@routeplanner.app"%string <> ""%string) by discriminate.
  rewrite (truthy_Some_nonempty _
             (or_else_nonempty (client_VITE_FROM_EMAIL cenv) _ Hfrom)).
  reflexivity.
Qed.

(** X13.  The two notifications against the endpoint, for templates
    that are not both empty (they never are).  The request of the admin
    notification always passes the validation: when it reaches the
    server, SendGrid is called, and the other transport if SendGrid
    refuses.  The notification resolves to true without opening the
    mail client exactly when the request reaches the server and one of
    the transports accepts; in every other case, the server not reached
    included, the [mailto:] fallback is tried and decides the result.
    The customer confirmation never opens the mail client, and resolves
    to true exactly when the request reaches the server, the customer's
    address is not empty, and one of the transports accepts the
    message; with an empty address no transport is called. *)
Theorem notifications_against_endpoint (cenv : ClientEnv) (senv : ServerEnv)
  (order_id customerEmail html text : string) :
  html <> ""%string \/ text <> ""%string ->
  let am := admin_message cenv order_id html text in
  let cm := customer_message cenv order_id customerEmail html text in
  sendAdminNotification cenv senv order_id html text
  = (if reaches_server cenv && delivers senv am
     then {| result := true; attempts := tried senv am;
             mailto_opened := false |}
     else {| result := window_open cenv;
             attempts := if reaches_server cenv then tried senv am else [];
             mailto_opened := window_open cenv |})
  /\ sendCustomerConfirmation cenv senv order_id customerEmail html text
     = {| result := reaches_server cenv && truthy (Some customerEmail)
                    && delivers senv cm;
          attempts := if reaches_server cenv && truthy (Some customerEmail)
                      then tried senv cm else [];
          mailto_opened := false |}.
Proof.
  intros Hc. cbv zeta. split.
  - unfold sendAdminNotification.
    destruct (reaches_server cenv); [|reflexivity].
    pose proof (send_email_delivery senv (admin_body cenv order_id html text)
                  (admin_message cenv order_id html text)
                  (admin_body_complete cenv order_id html text Hc)
                  (admin_request_message cenv senv order_id html text))
      as [Htried Hseen].
    cbv zeta in Htried, Hseen.
    destruct (send_email senv (post (admin_body cenv order_id html text)))
      as [response tried_]. cbn [fst snd] in Htried, Hseen. subst tried_.
    cbn [andb].
    destruct (delivers senv (admin_message cenv order_id html text)).
    + apply orb_false_elim in Hseen. destruct Hseen as [H1 H2].
      rewrite H1, H2. reflexivity.
    + unfold fallbackEmailNotification.
      destruct (negb (response_ok response)); [reflexivity|].
      cbn [orb] in Hseen. rewrite Hseen. reflexivity.
  - unfold sendCustomerConfirmation.
    destruct (reaches_server cenv); [|reflexivity]. cbn [andb].
    destruct (truthy (Some customerEmail)) eqn:Hemail.
    + pose proof (customer_body_missing cenv order_id customerEmail html text Hc)
        as Hmiss. rewrite Hemail in Hmiss. cbn [negb] in Hmiss.
      pose proof (send_email_delivery senv
                    (customer_body cenv order_id customerEmail html text)
                    (customer_message cenv order_id customerEmail html text)
                    Hmiss
                    (customer_request_message cenv senv order_id customerEmail
                                              html text))
        as [Htried Hseen].
      cbv zeta in Htried, Hseen.
      destruct (send_email senv
                  (post (customer_body cenv order_id customerEmail html text)))
        as [response tried_]. cbn [fst snd] in Htried, Hseen. subst tried_.
      cbn [andb].
      destruct (delivers senv
                  (customer_message cenv order_id customerEmail html text)).
      * apply orb_false_elim in Hseen. destruct Hseen as [H1 H2].
        rewrite H1, H2. reflexivity.
      * destruct (negb (response_ok response)); [reflexivity|].
        cbn [orb] in Hseen. rewrite Hseen. reflexivity.
    + pose proof (customer_body_missing cenv order_id customerEmail html text Hc)
        as Hmiss. rewrite Hemail in Hmiss. cbn [negb] in Hmiss.
      unfold send_email. cbn [post Server.body]. rewrite Hmiss. reflexivity.
Qed.

Lemma notifications_against_endpoint_witness :
  sendAdminNotification
    {| VITE_ADMIN_EMAIL := None; client_VITE_FROM_EMAIL := None;
       reaches_server := false; window_open := true |}
    {| VITE_FROM_EMAIL := None; sgMail_send := accepts;
       transporter_sendMail := refuses |}
    "o3" "<p>New order</p>" "New order"
  = {| result := true; attempts := []; mailto_opened := true |}
  /\ result (sendCustomerConfirmation
               {| VITE_ADMIN_EMAIL := None; client_VITE_FROM_EMAIL := None;
                  reaches_server := true; window_open := true |}
               {| VITE_FROM_EMAIL := None; sgMail_send := accepts;
                  transporter_sendMail := refuses |}
               "o3" "" "<p>Thank you</p>" "Thank you")
     = false.
Proof.
  assert (Hc1 : "<p>New order</p>"%string <> ""%string
                \/ "New order"%string <> ""%string) by (left; discriminate).
  assert (Hc2 : "<p>Thank you</p>"%string <> ""%string
                \/ "Thank you"%string <> ""%string) by (left; discriminate).
  split.
  - exact (proj1 (notifications_against_endpoint
                    {| VITE_ADMIN_EMAIL := None; client_VITE_FROM_EMAIL := None;
                       reaches_server := false; window_open := true |}
                    {| VITE_FROM_EMAIL := None; sgMail_send := accepts;
                       transporter_sendMail := refuses |}
                    "o3" "" "<p>New order</p>" "New order" Hc1)).
  - exact (f_equal result
             (proj2 (notifications_against_endpoint
                       {| VITE_ADMIN_EMAIL := None; client_VITE_FROM_EMAIL := None;
                          reaches_server := true; window_open := true |}
                       {| VITE_FROM_EMAIL := None; sgMail_send := accepts;
                          transporter_sendMail := refuses |}
                       "o3" "" "<p>Thank you</p>" "Thank you" Hc2))).
Defined.

End MailFacts.

Module EdgeMailFacts.
Import JS EdgeMail.
Open Scope string_scope.
Open Scope Z_scope.

(** X14.  The edge function.  A preflight (OPTIONS) is answered 200
    without a look at the body and without any SMTP call.  Any other
    request is answered 200 exactly when its body is JSON with [to],
    [subject] and [html] non-empty and connecting, sending and closing
    all go through; the SMTP client is called only for such a body, and
    [close] is called only after the message was sent: when connecting
    went through and sending fails, the connection is left open. *)
Theorem edge_function_answers (env : SmtpEnv) (req : EdgeRequest) :
  let r := serve env req in
  (method req = "OPTIONS"%string ->
     r = ({| status := 200; body := body_ok |}, []))
  /\ (method req <> "OPTIONS"%string ->
      (status (fst r) = 200 <->
         exists b, json req = Resolved b /\ edge_missing_fields b = false
                   /\ connectTLS env = None
                   /\ (exists m, snd r = [called_connectTLS; called_send m; called_close]
                                 /\ send env m = None)
                   /\ close env = None)
      /\ (snd r <> [] ->
          exists b, json req = Resolved b /\ edge_missing_fields b = false)
      /\ (In called_close (snd r) ->
          exists m, In (called_send m) (snd r) /\ send env m = None)
      /\ (forall m error,
             connectTLS env = None -> In (called_send m) (snd r) ->
             send env m = Some error ->
             ~ In called_close (snd r)
             /\ fst r = {| status := 500; body := body_error (message error) |})).
Proof.
  cbv zeta. unfold serve. split.
  - intros ->. reflexivity.
  - intros Hm. apply String.eqb_neq in Hm. rewrite Hm.
    destruct (json req) as [b|e]; cbn [fst snd status].
    + destruct (edge_missing_fields b) eqn:Hmiss; cbn [fst snd status].
      * split; [split; [discriminate | intros [b' [[= <-] [H _]]]; congruence]|].
        split; [congruence|]. split; [intros []|]. intros m error _ [].
      * destruct (connectTLS env) as [e0|] eqn:Hc; cbn [fst snd status].
        { split; [split; [discriminate
                         | intros [b' [_ [_ [H _]]]]; discriminate]|].
          split; [intros _; exists b; tauto|].
          split; [intros [H|[]]; discriminate|].
          intros m error H. discriminate. }
        set (m := {| mail_from := _ |}).
        destruct (send env m) as [e1|] eqn:Hs; cbn [fst snd status].
        { split.
          - split; [discriminate|].
            intros [b' [_ [_ [_ [[m' [Hl Hs']] _]]]]]. discriminate.
          - split; [intros _; exists b; tauto|].
            split; [intros [H|[H|[]]]; discriminate|].
            intros m' error _ [H|[[= <-]|[]]] Hs'; [discriminate|].
            split; [intros [H|[H|[]]]; discriminate|].
            congruence. }
        destruct (close env) as [e2|] eqn:Hcl; cbn [fst snd status].
        { split.
          - split; [discriminate|].
            intros [b' [_ [_ [_ [_ H]]]]]. discriminate.
          - split; [intros _; exists b; tauto|].
            split; [intros _; exists m; split; [right; left; reflexivity | exact Hs]|].
            intros m' error _ [H|[[= <-]|[H|[]]]] Hs'; try discriminate.
            congruence. }
        split.
        { split; [|reflexivity]. intros _. exists b.
          split; [reflexivity|]. split; [exact Hmiss|]. split; [reflexivity|].
          split; [|reflexivity]. exists m. split; [reflexivity | exact Hs]. }
        split; [intros _; exists b; tauto|].
        split; [intros _; exists m; split; [right; left; reflexivity | exact Hs]|].
        intros m' error _ [H|[[= <-]|[H|[]]]] Hs'; try discriminate.
        congruence.
    + split; [split; [discriminate | intros [b' [H _]]; discriminate]|].
      split; [congruence|]. split; [intros []|]. intros m error _ [].
Qed.

Lemma edge_function_answers_witness :
  serve {| connectTLS := None; send := fun _ => None; close := None |}
        {| method := "OPTIONS"; json := Rejected (newError "Unexpected end of JSON input") |}
  = ({| status := 200; body := body_ok |}, []).
Proof.
  apply (edge_function_answers
           {| connectTLS := None; send := fun _ => None; close := None |}
           {| method := "OPTIONS";
              json := Rejected (newError "Unexpected end of JSON input") |}).
  reflexivity.
Defined.

(** X15.  The two endpoints do not validate alike.  Every body the edge
    function accepts, the server's endpoint accepts; the bodies the
    server accepts and the edge function refuses are those with [to],
    [subject] and [text] non-empty and [html] missing or empty. *)
Theorem endpoints_validate_differently (b : Object) :
  (edge_missing_fields b = false -> Mail.missing_fields b = false)
  /\ (Mail.missing_fields b = false /\ edge_missing_fields b = true <->
      truthy (get "to" b) = true /\ truthy (get "subject" b) = true
      /\ truthy (get "text" b) = true /\ truthy (get "html" b) = false).
Proof.
  unfold edge_missing_fields, Mail.missing_fields.
  destruct (truthy (get "to" b)), (truthy (get "subject" b)),
    (truthy (get "html" b)), (truthy (get "text" b)); simpl;
    intuition discriminate.
Qed.

Lemma endpoints_validate_differently_witness :
  Mail.missing_fields [("to", "a@b.cz"); ("subject", "Hello"); ("text", "Hi")]
  = false
  /\ edge_missing_fields [("to", "a@b.cz"); ("subject", "Hello"); ("text", "Hi")]
     = true.
Proof.
  apply (endpoints_validate_differently
           [("to", "a@b.cz"); ("subject", "Hello"); ("text", "Hi")]).
  repeat split.
Defined.

End EdgeMailFacts.

(* ================================================================== *)
(** * The patterns of the booking form *)
(* ================================================================== *)

Module RegExpFacts.
Import RegExp.
Open Scope string_scope.

Lemma append_empty (s1 s2 : string) : s1 ++ s2 = "" -> s1 = "" /\ s2 = "".
Proof. destruct s1; simpl; [tauto | discriminate]. Qed.

Lemma append_empty_r (s : string) : s ++ "" = s.
Proof. induction s as [|c s IH]; simpl; [reflexivity | rewrite IH; reflexivity]. Qed.

Lemma nullable_lang (r : re) : nullable r = true <-> lang r "".
Proof.
  split.
  - induction r as [| |p|r1 IH1 r2 IH2|r1 IH1 r2 IH2|r IH]; simpl; intros H;
      try discriminate.
    + constructor.
    + apply andb_true_iff in H. destruct H as [H1 H2].
      change "" with ("" ++ ""). constructor; auto.
    + apply orb_true_iff in H. destruct H as [H|H];
        [apply lang_alt_l | apply lang_alt_r]; auto.
    + constructor.
  - intros H. remember "" as s eqn:E.
    induction H as [|p c Hp|r1 r2 s1 s2 H1 IH1 H2 IH2|r1 r2 s H IH|r1 r2 s H IH
                    |r|r s1 s2 H1 IH1 H2 IH2]; simpl; try reflexivity.
    + discriminate.
    + apply append_empty in E. destruct E as [-> ->].
      rewrite IH1, IH2; reflexivity.
    + rewrite IH; [reflexivity | exact E].
    + rewrite IH; [apply orb_true_r | exact E].
Qed.

Lemma deriv_sound (c : ascii) (r : re) :
  forall s, lang (deriv c r) s -> lang r (String c s).
Proof.
  induction r as [| |p|r1 IH1 r2 IH2|r1 IH1 r2 IH2|r IH]; simpl; intros s H.
  - inversion H.
  - inversion H.
  - destruct (p c) eqn:Hp; inversion H; subst. constructor. exact Hp.
  - destruct (nullable r1) eqn:Hn.
    + inversion H as [| | | ? ? ? Hl | ? ? ? Hr | |]; subst.
      * inversion Hl as [| |? ? s1 s2 H1 H2| | | |]; subst.
        change (String c (s1 ++ s2)) with (String c s1 ++ s2).
        constructor; auto.
      * change (String c s) with ("" ++ String c s).
        constructor; [apply nullable_lang; exact Hn | auto].
    + inversion H as [| |? ? s1 s2 H1 H2| | | |]; subst.
      change (String c (s1 ++ s2)) with (String c s1 ++ s2).
      constructor; auto.
  - inversion H; subst; [apply lang_alt_l | apply lang_alt_r]; auto.
  - inversion H as [| |? ? s1 s2 H1 H2| | | |]; subst.
    change (String c (s1 ++ s2)) with (String c s1 ++ s2).
    constructor; auto.
Qed.

Lemma deriv_complete (c : ascii) (r : re) (s0 : string) :
  lang r s0 -> forall s, s0 = String c s -> lang (deriv c r) s.
Proof.
  intros H.
  induction H as [|p c0 Hp|r1 r2 s1 s2 H1 IH1 H2 IH2|r1 r2 s' H IH|r1 r2 s' H IH
                  |r|r s1 s2 H1 IH1 H2 IH2]; intros s E; simpl.
  - discriminate.
  - injection E as -> <-. rewrite Hp. constructor.
  - destruct s1 as [|c1 s1'].
    + simpl in E. rewrite (proj2 (nullable_lang r1) H1).
      apply lang_alt_r. apply IH2. exact E.
    + simpl in E. injection E as -> <-.
      specialize (IH1 s1' eq_refl).
      destruct (nullable r1); [apply lang_alt_l|]; constructor; assumption.
  - apply lang_alt_l. apply IH. exact E.
  - apply lang_alt_r. apply IH. exact E.
  - discriminate.
  - destruct s1 as [|c1 s1'].
    + simpl in E. apply (IH2 s E).
    + simpl in E. injection E as -> <-.
      constructor; [apply IH1; reflexivity | exact H2].
Qed.

(** The matcher decides the language of the pattern. *)
Lemma test_lang (s : string) : forall r, test r s = true <-> lang r s.
Proof.
  induction s as [|c s IH]; intros r; simpl.
  - apply nullable_lang.
  - rewrite IH. split.
    + apply deriv_sound.
    + intros H. exact (deriv_complete c r _ H s eq_refl).
Qed.

Lemma lang_class_inv (p : ascii -> bool) (s : string) :
  lang (Class p) s -> exists c, s = String c "" /\ p c = true.
Proof. intros H. inversion H; subst. eexists; split; [reflexivity | assumption]. Qed.

Lemma lang_star_class (p : ascii -> bool) (s : string) :
  lang (Star (Class p)) s <-> all p s = true.
Proof.
  split.
  - intros H. remember (Star (Class p)) as r eqn:E.
    induction H as [|p0 c Hp|r1 r2 s1 s2 H1 IH1 H2 IH2|r1 r2 s H IH|r1 r2 s H IH
                    |r|r s1 s2 H1 IH1 H2 IH2]; try discriminate.
    + reflexivity.
    + injection E as ->. apply lang_class_inv in H1.
      destruct H1 as [c [-> Hc]]. simpl. rewrite Hc. apply IH2. reflexivity.
  - induction s as [|c s IH]; simpl; intros H; [constructor|].
    apply andb_true_iff in H. destruct H as [Hc Hs].
    change (String c s) with (String c "" ++ s).
    constructor; [constructor; exact Hc | auto].
Qed.

Lemma lang_at_least_class (p : ascii -> bool) (n : nat) :
  forall s, lang (AtLeast n (Class p)) s <-> n <= String.length s /\ all p s = true.
Proof.
  induction n as [|n IH]; intros s; simpl.
  - rewrite lang_star_class. split; [intros H; split; [lia | exact H] | tauto].
  - split.
    + intros H. inversion H as [| |? ? s1 s2 H1 H2| | | |]; subst.
      apply lang_class_inv in H1. destruct H1 as [c [-> Hc]].
      apply IH in H2. destruct H2 as [Hlen Hall]. simpl. rewrite Hc.
      split; [lia | exact Hall].
    + intros [Hlen Hall]. destruct s as [|c s]; simpl in *; [lia|].
      apply andb_true_iff in Hall. destruct Hall as [Hc Hs].
      change (String c s) with (String c "" ++ s).
      constructor; [constructor; exact Hc | apply IH; split; [lia | exact Hs]].
Qed.

Lemma lang_plus_class (p : ascii -> bool) (s : string) :
  lang (Plus (Class p)) s <-> s <> "" /\ all p s = true.
Proof.
  change (Plus (Class p)) with (AtLeast 1 (Class p)).
  rewrite lang_at_least_class. destruct s; simpl; split; intros [H1 H2];
    split; try assumption; try lia; try discriminate. congruence.
Qed.

Lemma lang_chr (c : ascii) (s : string) : lang (Chr c) s <-> s = String c "".
Proof.
  unfold Chr. split.
  - intros H. apply lang_class_inv in H. destruct H as [c' [-> Hc]].
    apply Ascii.eqb_eq in Hc. subst. reflexivity.
  - intros ->. constructor. apply Ascii.eqb_refl.
Qed.

Lemma lang_cat_inv (r1 r2 : re) (s : string) :
  lang (Cat r1 r2) s <-> exists s1 s2, s = s1 ++ s2 /\ lang r1 s1 /\ lang r2 s2.
Proof.
  split.
  - intros H. inversion H; subst. eauto.
  - intros [s1 [s2 [-> [H1 H2]]]]. constructor; assumption.
Qed.

Lemma all_append (p : ascii -> bool) (s1 s2 : string) :
  all p (s1 ++ s2) = all p s1 && all p s2.
Proof.
  induction s1 as [|c s1 IH]; simpl; [reflexivity|].
  rewrite IH. apply andb_assoc.
Qed.

(** X16.  The address pattern of the form accepts exactly the strings
    [local@domain.tld] whose three parts are not empty and hold neither
    whitespace nor [@]; in particular an accepted address holds no
    whitespace at all. *)
Theorem emailRegex_accepts (s : string) :
  (test emailRegex s = true <->
     exists local domain tld,
       s = local ++ "@" ++ domain ++ "." ++ tld
       /\ local <> "" /\ domain <> "" /\ tld <> ""
       /\ all not_space_at local = true
       /\ all not_space_at domain = true
       /\ all not_space_at tld = true)
  /\ (test emailRegex s = true -> all (fun c => negb (is_space c)) s = true).
Proof.
  assert (Hiff : test emailRegex s = true <->
     exists local domain tld,
       s = local ++ "@" ++ domain ++ "." ++ tld
       /\ local <> "" /\ domain <> "" /\ tld <> ""
       /\ all not_space_at local = true
       /\ all not_space_at domain = true
       /\ all not_space_at tld = true).
  { rewrite test_lang. unfold emailRegex. split.
    - intros H.
      apply lang_cat_inv in H. destruct H as [a [s1 [-> [Ha H]]]].
      apply lang_cat_inv in H. destruct H as [at' [s2 [-> [Hat H]]]].
      apply lang_cat_inv in H. destruct H as [b [s3 [-> [Hb H]]]].
      apply lang_cat_inv in H. destruct H as [dot [c [-> [Hdot Hc]]]].
      apply lang_chr in Hat, Hdot. subst.
      apply lang_plus_class in Ha, Hb, Hc.
      exists a, b, c. simpl. tauto.
    - intros [a [b [c [-> [Ha [Hb [Hc [Haa [Hab Hac]]]]]]]]].
      constructor; [apply lang_plus_class; tauto|].
      change ("@" ++ b ++ "." ++ c) with (String "@" "" ++ (b ++ "." ++ c)).
      constructor; [apply lang_chr; reflexivity|].
      constructor; [apply lang_plus_class; tauto|].
      change ("." ++ c) with (String "." "" ++ c).
      constructor; [apply lang_chr; reflexivity|].
      apply lang_plus_class; tauto. }
  split; [exact Hiff|].
  intros H. apply Hiff in H.
  destruct H as [a [b [c [-> [_ [_ [_ [Ha [Hb Hc]]]]]]]]].
  assert (Hweaker : forall x, all not_space_at x = true ->
                              all (fun c => negb (is_space c)) x = true).
  { induction x as [|ch x IH]; simpl; [reflexivity|].
    intros Hx. apply andb_true_iff in Hx. destruct Hx as [Hch Hx].
    rewrite (IH Hx). unfold not_space_at in Hch.
    destruct (is_space ch); [discriminate | reflexivity]. }
  rewrite !all_append. simpl.
  rewrite (Hweaker _ Ha), (Hweaker _ Hb), (Hweaker _ Hc). reflexivity.
Qed.

Lemma emailRegex_accepts_witness :
  all (fun c => negb (is_space c)) "jana@example.com" = true.
Proof.
  apply (emailRegex_accepts "jana@example.com"). reflexivity.
Defined.

(** X17.  The phone pattern accepts exactly the strings made of an
    optional [+] followed by at least eight code units, each a digit, a
    whitespace, a hyphen or a parenthesis: it asks for no digit at all. *)
Theorem phoneRegex_accepts (s : string) :
  (test phoneRegex s = true <->
     exists rest, (s = rest \/ s = String "+" rest)
                  /\ 8 <= String.length rest /\ all phone_char rest = true)
  /\ (8 <= String.length s -> all is_space s = true ->
      test phoneRegex s = true).
Proof.
  assert (Hiff : test phoneRegex s = true <->
     exists rest, (s = rest \/ s = String "+" rest)
                  /\ 8 <= String.length rest /\ all phone_char rest = true).
  { rewrite test_lang. unfold phoneRegex. split.
    - intros H. apply lang_cat_inv in H. destruct H as [pre [rest [-> [Hp Hr]]]].
      apply lang_at_least_class in Hr. exists rest.
      split; [|exact Hr].
      inversion Hp as [| | | ? ? ? Hl | ? ? ? Hright | |]; subst.
      + apply lang_chr in Hl. subst. right. reflexivity.
      + inversion Hright; subst. left. reflexivity.
    - intros [rest [[-> | ->] Hr]]; apply lang_at_least_class in Hr.
      + change rest with ("" ++ rest).
        constructor; [apply lang_alt_r; constructor | exact Hr].
      + change (String "+" rest) with (String "+" "" ++ rest).
        constructor; [apply lang_alt_l; apply lang_chr; reflexivity | exact Hr]. }
  split; [exact Hiff|].
  intros Hlen Hall. apply Hiff. exists s. split; [left; reflexivity|].
  split; [exact Hlen|].
  clear Hlen Hiff. induction s as [|c s IH]; simpl in *; [reflexivity|].
  apply andb_true_iff in Hall. destruct Hall as [Hc Hs].
  rewrite (IH Hs). unfold phone_char. rewrite Hc.
  rewrite orb_true_r. reflexivity.
Qed.

Lemma phoneRegex_accepts_witness : test phoneRegex "        " = true.
Proof.
  apply (phoneRegex_accepts "        "); [simpl; lia | reflexivity].
Defined.

End RegExpFacts.

(* ================================================================== *)
(** * The booking form *)
(* ================================================================== *)

Module BookingFormFacts.
Import JS GoPay OrdersStore RegExp BookingForm.
Open Scope string_scope.

Lemma empty_false (s : string) : empty s = false -> s <> "".
Proof. destruct s; [discriminate | discriminate]. Qed.

Lemma continueToPayment_keeps_valid (f : Form) :
  Planner.currentStep (route f) = Planner.details ->
  payment_step_valid (continueToPayment f).
Proof.
  intros Hstep. unfold continueToPayment.
  destruct (empty (customerName f)) eqn:H1; cbn [orb];
    [intros H; simpl in H; congruence|].
  destruct (empty (customerEmail f)) eqn:H2; cbn [orb];
    [intros H; simpl in H; congruence|].
  destruct (empty (customerPhone f)) eqn:H3; cbn [orb];
    [intros H; simpl in H; congruence|].
  destruct (empty (pickupDate f)) eqn:H4; cbn [orb];
    [intros H; simpl in H; congruence|].
  destruct (empty (pickupTime f)) eqn:H5; cbn [orb];
    [intros H; simpl in H; congruence|].
  destruct (test emailRegex (customerEmail f)) eqn:H6; cbn [negb];
    [|intros H; simpl in H; congruence].
  destruct (test phoneRegex (customerPhone f)) eqn:H7; cbn [negb];
    [|intros H; simpl in H; congruence].
  intros _ _. unfold fields_valid. simpl.
  repeat split; try assumption; apply empty_false; assumption.
Qed.

Lemma details_shown_step (f : Form) :
  details_shown f = true -> Planner.currentStep (route f) = Planner.details.
Proof.
  unfold details_shown. destruct (Planner.currentStep (route f));
    [reflexivity | rewrite andb_false_r; discriminate].
Qed.

Lemma payment_shown_inv (f : Form) :
  payment_shown f = true ->
  Planner.currentStep (route f) = Planner.payment /\ orderSuccess f = false.
Proof.
  unfold payment_shown. destruct (Planner.currentStep (route f));
    [rewrite andb_false_r; discriminate|].
  destruct (orderSuccess f); [rewrite andb_false_r; discriminate | tauto].
Qed.

Lemma on_routesfound_step (routes : option (list Planner.Route))
  (st : Planner.State) :
  Planner.currentStep (Planner.on_routesfound routes st) = Planner.payment ->
  Planner.on_routesfound routes st = st.
Proof.
  unfold Planner.on_routesfound. destruct routes as [[|r rs]|]; simpl;
    try reflexivity. discriminate.
Qed.

Lemma submitOrder_cases (env : AddOrderEnv) (f : Form) (w : World) :
  (submitOrder env f w = (f, w, None))
  \/ exists distance price endPoint' f' w',
       Planner.routeDistance (route f) = Some distance
       /\ Planner.routePrice (route f) = Some price
       /\ truthy_number distance = true /\ truthy_number price = true
       /\ submitOrder env f w = (f', w', Some (order_of f distance price endPoint'))
       /\ route f' = route f
       /\ (orderSuccess f' = true
           \/ (customerName f' = customerName f
               /\ customerEmail f' = customerEmail f
               /\ customerPhone f' = customerPhone f
               /\ pickupDate f' = pickupDate f
               /\ pickupTime f' = pickupTime f)).
Proof.
  unfold submitOrder.
  destruct (Planner.routeDistance (route f)) as [d|]; [|left; reflexivity].
  destruct (Planner.routePrice (route f)) as [p|]; [|left; reflexivity].
  destruct (endPoint f) as [ep|]; [|left; reflexivity].
  destruct (truthy_number d) eqn:Hd; [|left; reflexivity].
  destruct (truthy_number p) eqn:Hp; [|left; reflexivity].
  cbn [andb]. right.
  destruct (addOrder env (order_of f d p ep) w) as [result w'].
  destruct (match result with
            | Some r => truthy (Some (orderId r))
            | None => false
            end);
    exists d, p, ep; eexists; exists w';
    (split; [reflexivity|]); (split; [reflexivity|]);
    (split; [exact Hd|]); (split; [exact Hp|]);
    (split; [reflexivity|]);
    cbn [route orderSuccess customerName customerEmail
         customerPhone pickupDate pickupTime];
    (split; [reflexivity|]);
    [left; reflexivity | right; repeat split].
Qed.

Lemma handle_keeps_invariant (e : Event) (p : PlannerPage) :
  payment_step_valid (form p) /\ Forall validated (submitted p) ->
  payment_step_valid (form (handle e p))
  /\ Forall validated (submitted (handle e p)).
Proof.
  intros [Hv Hs]. destruct p as [f w subs]. cbn [form submitted world] in *.
  unfold handle, edit. cbn [form submitted world].
  destruct e;
    try (destruct (details_shown f) eqn:Hshown; cbn [form submitted];
         [|split; assumption];
         split; [|assumption];
         pose proof (details_shown_step f Hshown) as Hstep;
         first [ apply continueToPayment_keeps_valid; exact Hstep
               | intros H; cbn [route Planner.currentStep] in H; congruence ]).
  - (* backToDetails *)
    destruct (payment_shown f); cbn [form submitted]; [|split; assumption].
    split; [|assumption]. intros H. simpl in H. discriminate.
  - (* submitOrder *)
    destruct (payment_shown f) eqn:Hshown; cbn [form submitted];
      [|split; assumption].
    apply payment_shown_inv in Hshown. destruct Hshown as [Hstep Hnot].
    specialize (Hv Hstep Hnot).
    destruct (submitOrder_cases env f w) as [-> | H].
    + cbn [form submitted]. split; [intros _ _; exact Hv | assumption].
    + destruct H as [d [pr [ep [f' [w' [Hd [Hp [Htd [Htp [-> [Hr Hf]]]]]]]]]]].
      cbn [form submitted]. split.
      * intros _ Hnot'. destruct Hf as [Hf | [E1 [E2 [E3 [E4 E5]]]]];
          [congruence|].
        unfold fields_valid in *. rewrite E1, E2, E3, E4, E5. exact Hv.
      * constructor; [|assumption].
        unfold validated, fields_valid in *. simpl. tauto.
  - (* resetForm *)
    destruct (reset_shown f); cbn [form submitted]; [|split; assumption].
    split; [|assumption]. intros H. simpl in H. discriminate.
  - (* routesfound *)
    split; [|assumption]. intros Hstep Hnot.
    cbn [route with_route] in Hstep.
    pose proof (on_routesfound_step routes (route f) Hstep) as E.
    unfold fields_valid. cbn. apply Hv; [|exact Hnot].
    rewrite <- E. exact Hstep.
  - (* updateRoute *)
    split; [|assumption]. intros Hstep Hnot. apply Hv; assumption.
Qed.

Lemma events_keep_invariant (es : list Event) :
  forall p,
    payment_step_valid (form p) /\ Forall validated (submitted p) ->
    payment_step_valid (form (events es p))
    /\ Forall validated (submitted (events es p)).
Proof.
  induction es as [|e es IH]; intros p H; [exact H|].
  apply (IH (handle e p)). apply handle_keeps_invariant. exact H.
Qed.

(** X18.  Whatever the user and the routing control do to the booking
    form, starting from the page as it is loaded, every order that is
    passed to [addOrder] has a name, a pickup date and a pickup time
    that are not empty, an address and a phone number accepted by the
    two patterns, and a distance and a price that are neither zero nor
    NaN; and whenever the payment step is on display, the details in
    the form are valid. *)
Theorem submitted_orders_are_validated (es : list Event) (w : World) :
  let p := events es (mkPlannerPage initial_form w []) in
  Forall validated (submitted p)
  /\ (payment_shown (form p) = true -> fields_valid (form p)).
Proof.
  cbv zeta.
  destruct (events_keep_invariant es (mkPlannerPage initial_form w [])) as [Hv Hs].
  { split; [|constructor]. intros H. discriminate. }
  split; [exact Hs|].
  intros Hshown. apply payment_shown_inv in Hshown.
  destruct Hshown as [Hstep Hnot]. exact (Hv Hstep Hnot).
Qed.

Lemma submitted_orders_are_validated_witness :
  fields_valid
    (form (events [ routesfound (Some [route_of_metres 200000]);
                    type_customerName "Jana Novakova";
                    type_customerEmail "jana@example.com";
                    type_customerPhone "+420 777 123 456";
                    type_pickupDate "2025-03-10";
                    type_pickupTime "08:30";
                    click_continueToPayment ]
                  (mkPlannerPage initial_form Samples.empty_world []))).
Proof.
  apply (submitted_orders_are_validated
           [ routesfound (Some [route_of_metres 200000]);
             type_customerName "Jana Novakova";
             type_customerEmail "jana@example.com";
             type_customerPhone "+420 777 123 456";
             type_pickupDate "2025-03-10";
             type_pickupTime "08:30";
             click_continueToPayment ]
           Samples.empty_world).
  vm_compute. reflexivity.
Defined.

Lemma short_prices_are_falsy :
  forallb (fun n =>
             negb (truthy_number
                     (Math_round (number_of_Z (Z.of_nat n) / 1000
                                  * Planner.PRICE_PER_KM)%float)))
          (seq 0 25) = true.
Proof. vm_compute. reflexivity. Qed.

(** X19.  A route of less than 25 (whole) metres is quoted a price of
    zero: the order form is put on display, but [submitOrder] takes the
    zero for a missing price and returns at once, without a call to
    the store and without a message. *)
Theorem short_route_cannot_be_ordered (d : Z) (f : Form) (env : AddOrderEnv)
  (w : World) :
  (0 <= d < 25)%Z ->
  let f' := with_route (Planner.on_routesfound (Some [route_of_metres d])
                                               (route f)) f in
  Planner.showOrderForm (route f') = true
  /\ (exists price, Planner.routePrice (route f') = Some price
                    /\ truthy_number price = false)
  /\ submitOrder env f' w = (f', w, None).
Proof.
  intros Hd. cbv zeta.
  assert (Hprice : truthy_number
                     (Math_round (number_of_Z d / 1000
                                  * Planner.PRICE_PER_KM)%float) = false).
  { pose proof short_prices_are_falsy as Hall.
    rewrite forallb_forall in Hall.
    specialize (Hall (Z.to_nat d)).
    rewrite Z2Nat.id in Hall by lia.
    apply negb_true_iff. apply Hall. apply in_seq. lia. }
  split; [reflexivity|]. split.
  - eexists. split; [reflexivity|]. exact Hprice.
  - unfold submitOrder.
    cbn [route with_route Planner.on_routesfound Planner.routeDistance
         Planner.routePrice route_of_metres Planner.summary
         Planner.totalDistance endPoint].
    rewrite Hprice. rewrite andb_false_r.
    destruct (endPoint f); reflexivity.
Qed.

Lemma short_route_cannot_be_ordered_witness :
  snd (submitOrder (Samples.add_env Samples.browser)
         (with_route (Planner.on_routesfound (Some [route_of_metres 24])
                                             (route initial_form)) initial_form)
         Samples.empty_world)
  = None.
Proof.
  assert (Hd : (0 <= 24 < 25)%Z) by lia.
  destruct (short_route_cannot_be_ordered 24 initial_form
              (Samples.add_env Samples.browser) Samples.empty_world Hd)
    as [_ [_ H]].
  exact (f_equal snd H).
Defined.

Lemma addOrder_result (env : AddOrderEnv) (order : NewOrder) (w : World) :
  fst (addOrder env order w)
  = match insert_failure env with
    | Some _ => None
    | None =>
        if existsb (Supabase.has_id (gen_random_uuid env)) (table w) then None
        else
          Some {| orderId := gen_random_uuid env;
                  added_paymentUrl :=
                    match createPayment (payment_env env)
                            {| od_id := gen_random_uuid env;
                               od_customerName := n_customerName order;
                               od_customerEmail := n_customerEmail order;
                               od_price := n_price order;
                               od_description :=
                                 "Transportation from " ++ n_startAddress order
                                   ++ " to " ++ n_endAddress order |} with
                    | Resolved pr => Some (pr_url pr)
                    | Rejected _ => None
                    end |}
    end.
Proof.
  unfold addOrder, Supabase.insert.
  destruct (insert_failure env); [reflexivity|].
  destruct (existsb _ _); [reflexivity|].
  change (Supabase.id (Supabase.new_row (gen_random_uuid env) (now env)
                                        (mapOrderToDbRow order)))
    with (gen_random_uuid env).
  destruct (createPayment _ _) as [pr|e]; [|reflexivity].
  destruct (payment_update_failure env); reflexivity.
Qed.

Lemma addOrder_failed_table (env : AddOrderEnv) (order : NewOrder) (w : World) :
  fst (addOrder env order w) = None -> table (snd (addOrder env order w)) = table w.
Proof.
  unfold addOrder, Supabase.insert.
  destruct (insert_failure env); [reflexivity|].
  destruct (existsb _ _); [reflexivity|].
  destruct (createPayment _ _) as [pr|e]; [|discriminate].
  destruct (Supabase.update _ _ _ _). discriminate.
Qed.

(** X20.  What the customer sees after `Complete Payment', for a form
    with a priced route.  If the insert fails (or the id is taken), the
    message `Failed to submit order. Please try again.' is set, the
    details stay in the form, nothing is persisted, and the payment
    step stays on display.  If the insert goes through, the success
    message is shown and the details are cleared; the button to the
    payment leads to the page of the new order exactly when the payment
    session was created, also when its fields could not be written
    back, and there is no such button otherwise. *)
Theorem submitOrder_outcomes (env : AddOrderEnv) (f : Form) (w : World)
  (d p : float) (ep : float * float) :
  Planner.routeDistance (route f) = Some d ->
  Planner.routePrice (route f) = Some p ->
  endPoint f = Some ep ->
  truthy_number d = true -> truthy_number p = true ->
  gen_random_uuid env <> "" ->
  let r := submitOrder env f w in
  let f' := fst (fst r) in
  let w' := snd (fst r) in
  isSubmitting f' = false
  /\ (insert_failure env <> None
      \/ existsb (Supabase.has_id (gen_random_uuid env)) (table w) = true ->
      orderError f' = "Failed to submit order. Please try again."
      /\ orderSuccess f' = orderSuccess f
      /\ customerName f' = customerName f /\ customerEmail f' = customerEmail f
      /\ customerPhone f' = customerPhone f /\ pickupDate f' = pickupDate f
      /\ pickupTime f' = pickupTime f
      /\ payment_shown f' = payment_shown f
      /\ table w' = table w)
  /\ (insert_failure env = None ->
      existsb (Supabase.has_id (gen_random_uuid env)) (table w) = false ->
      orderSuccess f' = true /\ orderError f' = ""
      /\ customerName f' = "" /\ customerEmail f' = "" /\ customerPhone f' = ""
      /\ pickupDate f' = "" /\ pickupTime f' = "" /\ additionalNotes f' = ""
      /\ (exists r', In r' (table w') /\ Supabase.id r' = gen_random_uuid env
                     /\ Supabase.customer_email r' = customerEmail f)
      /\ (forall uuid origin,
             uuidv4 (payment_env env) = Some uuid ->
             window_location_origin (payment_env env) = Some origin ->
             proceedToPayment f'
             = Some (origin ++ "/payment-result?orderId=" ++ gen_random_uuid env
                            ++ "&mockPayment=true"))
      /\ (uuidv4 (payment_env env) = None
          \/ window_location_origin (payment_env env) = None ->
          proceedToPayment f' = None)).
Proof.
  intros Hd Hp Hep Htd Htp Hid. cbv zeta. unfold submitOrder.
  rewrite Hd, Hp, Hep, Htd, Htp. cbn [andb].
  pose proof (addOrder_result env (order_of f d p ep) w) as Hres.
  pose proof (addOrder_failed_table env (order_of f d p ep) w) as Hfail.
  pose proof (PaymentResultViewFacts.addOrder_table env (order_of f d p ep) w)
    as Htable.
  destruct (addOrder env (order_of f d p ep) w) as [result w'].
  cbn [fst snd] in *.
  destruct (insert_failure env) as [e|] eqn:Hins.
  - subst result. cbn [fst snd isSubmitting]. split; [reflexivity|].
    split; [|discriminate].
    intros _. repeat split; try reflexivity. exact (Hfail eq_refl).
  - destruct (existsb (Supabase.has_id (gen_random_uuid env)) (table w)) eqn:Hex.
    + subst result. cbn [fst snd isSubmitting]. split; [reflexivity|].
      split; [|discriminate].
      intros _. repeat split; try reflexivity. exact (Hfail eq_refl).
    + subst result. cbn [orderId]. 
      rewrite (PaymentResultViewFacts.truthy_nonempty _ Hid).
      cbn [fst snd isSubmitting]. split; [reflexivity|].
      split; [intros [H|H]; congruence|].
      intros _ _.
      cbn [orderSuccess orderError customerName customerEmail customerPhone
           pickupDate pickupTime additionalNotes].
      repeat (split; [reflexivity|]).
      split.
      { specialize (Htable eq_refl eq_refl). cbv zeta in Htable.
        exists (match createPayment (payment_env env)
                        {| od_id := gen_random_uuid env;
                           od_customerName := n_customerName (order_of f d p ep);
                           od_customerEmail := n_customerEmail (order_of f d p ep);
                           od_price := n_price (order_of f d p ep);
                           od_description :=
                             "Transportation from "
                               ++ n_startAddress (order_of f d p ep)
                               ++ " to " ++ n_endAddress (order_of f d p ep) |} with
                | Resolved pr =>
                    match payment_update_failure env with
                    | Some _ => fun r => r
                    | None => Supabase.with_payment_info (pr_id pr) "CREATED"
                                                         (pr_url pr)
                    end
                | Rejected _ => fun r => r
                end (Supabase.new_row (gen_random_uuid env) (now env)
                                      (mapOrderToDbRow (order_of f d p ep)))).
        rewrite Htable.
        destruct (createPayment _ _) as [pr|e];
          [destruct (payment_update_failure env)|];
          cbn [Supabase.update snd];
          (split; [|split; reflexivity]).
        - apply in_or_app. right. left. reflexivity.
        - apply in_map_iff. eexists. split; [|apply in_or_app; right; left; reflexivity].
          unfold Supabase.has_id. cbn [Supabase.id Supabase.new_row].
          rewrite String.eqb_refl. reflexivity.
        - apply in_or_app. right. left. reflexivity. }
      unfold proceedToPayment, createPayment. cbn [paymentUrl added_paymentUrl].
      split.
      * intros uuid origin -> ->. cbn [pr_url od_id].
        destruct origin; reflexivity.
      * intros [-> | H]; [reflexivity|].
        rewrite H. destruct (uuidv4 (payment_env env)); reflexivity.
Qed.

Lemma submitOrder_outcomes_witness :
  let f := with_route (Planner.on_routesfound
                         (Some [route_of_metres 200000]) (route initial_form))
             (mkForm (route initial_form) "Prague" "Brno" defaultCoords
                     (Some (49.25, 16.5)%float) "Jana Novakova"
                     "jana@example.com" "+420 777 123 456" "2025-03-10"
                     "08:30" "" false false "" None) in
  proceedToPayment
    (fst (fst (submitOrder (Samples.add_env Samples.browser) f
                           Samples.empty_world)))
  = Some "https://app.example/payment-result?orderId=o3&mockPayment=true".
Proof.
  cbv zeta.
  assert (Hid : gen_random_uuid (Samples.add_env Samples.browser) <> "")
    by discriminate.
  destruct (submitOrder_outcomes (Samples.add_env Samples.browser)
              (with_route (Planner.on_routesfound
                             (Some [route_of_metres 200000]) (route initial_form))
                 (mkForm (route initial_form) "Prague" "Brno" defaultCoords
                         (Some (49.25, 16.5)%float) "Jana Novakova"
                         "jana@example.com" "+420 777 123 456" "2025-03-10"
                         "08:30" "" false false "" None))
              Samples.empty_world
              (number_of_Z 200000)
              (Math_round (number_of_Z 200000 / 1000 * Planner.PRICE_PER_KM)%float)
              (49.25, 16.5)%float
              eq_refl eq_refl eq_refl eq_refl eq_refl Hid)
    as [_ [_ H]].
  destruct (H eq_refl eq_refl) as [_ [_ [_ [_ [_ [_ [_ [_ [_ [Hurl _]]]]]]]]]].
  exact (Hurl "0a1b2c3d-0000-4000-8000-000000000000" "https://app.example"
              eq_refl eq_refl).
Defined.

End BookingFormFacts.

(* ================================================================== *)
(** * Signing in and out *)
(* ================================================================== *)

Module AuthFlowFacts.
Import JS AuthStore Router AuthFlow.
Open Scope string_scope.

Lemma signed_in_authenticated (u : User) (profile_role : option string) :
  isAuthenticated (signed_in u profile_role) = true.
Proof. reflexivity. Qed.

(** X21.  The way round the guard.  An unauthenticated navigation to a
    protected location is sent to the login page with the location's
    full path in the query; a login there with both fields filled in
    that the backend accepts sends the browser to that very path, and
    the guard now lets the navigation through, whatever the role of the
    user. *)
Theorem login_returns_to_requested_page (s : AuthState) (to : Location)
  (page : LoginPage) (u : User) (profile_role : option string) :
  requiresAuth (matched to) = true ->
  isAuthenticated (auth s) = false ->
  fullPath to <> "" ->
  email page <> "" -> password page <> "" ->
  exists query,
    beforeEach (auth s) to = redirect "login" query
    /\ path_of_name "login" = Some "/login"
    /\ login_onMounted query s = None
    /\ let r := login_submit (sign_in_data (Some u)) profile_role query page s in
       snd r = Some (fullPath to)
       /\ beforeEach (auth (snd (fst r))) to = proceed
       /\ errorMessage (fst (fst r)) = errorMessage page
       /\ error (snd (fst r)) = None.
Proof.
  intros Hreq Hauth Hpath Hemail Hpw.
  exists [("redirect", fullPath to)].
  unfold beforeEach, login_onMounted. rewrite Hreq, Hauth. cbn [andb negb].
  split; [reflexivity|]. split; [reflexivity|]. split; [reflexivity|].
  cbv zeta. unfold login_submit.
  destruct (email page) as [|c1 e1]; [congruence|].
  destruct (password page) as [|c2 p2]; [congruence|].
  cbn [truthy negb orb login fst snd auth error errorMessage].
  rewrite signed_in_authenticated. cbn [andb negb].
  unfold redirectPath, Mail.or_else. cbn [get String.eqb].
  change (get "redirect" [("redirect", fullPath to)]) with (Some (fullPath to)).
  destruct (fullPath to) as [|c3 p3]; [congruence|].
  repeat split.
Qed.

Lemma login_returns_to_requested_page_witness :
  exists query,
    beforeEach (auth initial_auth)
               {| matched := {| path := "/admin"; name := "admin";
                                requiresAuth := true |};
                  fullPath := "/admin" |}
    = redirect "login" query
    /\ snd (login_submit
              (sign_in_data (Some {| user_id := "u1"; user_metadata := None |}))
              None query
              (mkLoginPage "admin@example.com" "secret" "" false)
              initial_auth)
       = Some "/admin".
Proof.
  assert (H1 : "/admin" <> "") by discriminate.
  assert (H2 : "admin@example.com" <> "") by discriminate.
  assert (H3 : "secret" <> "") by discriminate.
  destruct (login_returns_to_requested_page initial_auth
              {| matched := {| path := "/admin"; name := "admin";
                               requiresAuth := true |};
                 fullPath := "/admin" |}
              (mkLoginPage "admin@example.com" "secret" "" false)
              {| user_id := "u1"; user_metadata := None |} None
              eq_refl eq_refl H1 H2 H3)
    as [query [Hguard [_ [_ [Hnav _]]]]].
  exists query. split; [exact Hguard | exact Hnav].
Defined.

(** X22.  A login that fails leaves the session as it was.  With the
    address or the password empty the store is not called at all; when
    the backend reports an error, or returns no user, the store's user
    is unchanged, so a protected location stays closed to a visitor;
    in each case the page shows a message and sends the browser
    nowhere.  The store's error holds the backend's message, the page
    shows `Invalid email or password' whatever the error was. *)
Theorem failed_login_keeps_session (reply : SignInReply)
  (profile_role : option string) (query : Object) (page : LoginPage)
  (s : AuthState) :
  let r := login_submit reply profile_role query page s in
  (email page = "" \/ password page = "" ->
     snd (fst r) = s /\ snd r = None
     /\ errorMessage (fst (fst r)) = "Please enter both email and password")
  /\ (email page <> "" -> password page <> "" ->
      (forall u, reply <> sign_in_data (Some u)) ->
      auth (snd (fst r)) = auth s /\ snd r = None
      /\ errorMessage (fst (fst r)) = "Invalid email or password"
      /\ isLoading (snd (fst r)) = false
      /\ (forall authError, reply = sign_in_error authError ->
            error (snd (fst r)) = Some (messageOr "Login failed" authError))
      /\ (forall to, beforeEach (auth (snd (fst r))) to = beforeEach (auth s) to)).
Proof.
  cbv zeta. unfold login_submit. split.
  - intros [H|H]; rewrite H; cbn [truthy negb orb];
      [|rewrite orb_true_r]; repeat split.
  - intros Hemail Hpw Hreply.
    destruct (email page) as [|c1 e1]; [congruence|].
    destruct (password page) as [|c2 p2]; [congruence|].
    cbn [truthy negb orb].
    destruct reply as [e|[u|]]; cbn [login fst snd auth isLoading error errorMessage].
    + repeat split. intros authError [= <-]. reflexivity.
    + exfalso. exact (Hreply u eq_refl).
    + repeat split. intros authError H. discriminate.
Qed.

Lemma failed_login_keeps_session_witness :
  snd (login_submit (sign_in_error (newError "Invalid login credentials")) None []
                    (mkLoginPage "admin@example.com" "" "" false)
                    initial_auth)
  = None.
Proof.
  destruct (failed_login_keeps_session
              (sign_in_error (newError "Invalid login credentials")) None []
              (mkLoginPage "admin@example.com" "" "" false) initial_auth)
    as [H _].
  destruct (H (or_intror eq_refl)) as [_ [Hnav _]]. exact Hnav.
Defined.

(** X23.  Logging out from the admin page.  The browser is sent to the
    login page in every case, and the store's error is that of the
    sign-out.  When the sign-out goes through, or fails but emits
    [SIGNED_OUT] to the listener that [initialize] registered, the user
    is cleared: the login page stays, and the admin page is closed
    again, a navigation to it ending on the login page with [/admin] as
    the path to return to.  Only when the sign-out fails without the
    event is the user kept, and the login page then sends the browser
    straight back to the admin page, which the guard lets it enter. *)
Theorem logout_from_admin_page (o : SignOut) (s : AuthState) :
  isAuthenticated (auth s) = true ->
  let r := admin_logout o s in
  push (snd r) (fst r) = Some ("/login", [])
  /\ error (fst r) = option_map (messageOr "Logout failed") (sign_out_error o)
  /\ isLoading (fst r) = false
  /\ (sign_out_error o = None \/ emits_SIGNED_OUT o = true ->
      isAuthenticated (auth (fst r)) = false
      /\ login_onMounted [] (fst r) = None
      /\ push "/admin" (fst r) = Some ("/login", [("redirect", "/admin")]))
  /\ (sign_out_error o <> None -> emits_SIGNED_OUT o = false ->
      auth (fst r) = auth s
      /\ exists back, login_onMounted [] (fst r) = Some back
                      /\ push back (fst r) = Some ("/admin", [])).
Proof.
  intros Hauth. cbv zeta. unfold admin_logout. cbn [fst snd].
  destruct o as [[e|] [|]]; cbn [sign_out_error emits_SIGNED_OUT];
    (split; [reflexivity|]); (split; [reflexivity|]);
    (split; [reflexivity|]).
  - split; [intros _; repeat split | intros _ H; discriminate].
  - split; [intros [H|H]; discriminate|].
    intros _ _. cbn [logout auth].
    split; [reflexivity|].
    exists "/admin". unfold login_onMounted, push. cbn [auth].
    rewrite Hauth. split; [reflexivity|].
    change (resolve "/admin")
      with (Some {| matched := {| path := "/admin"; name := "admin";
                                  requiresAuth := true |};
                    fullPath := "/admin" |}).
    unfold beforeEach. cbn [matched requiresAuth]. rewrite Hauth. reflexivity.
  - split; [intros _; repeat split | intros H; congruence].
  - split; [intros _; repeat split | intros H; congruence].
Qed.

Lemma logout_from_admin_page_witness :
  let s := mkAuthState (signed_in {| user_id := "u1"; user_metadata := None |}
                                  (Some "admin")) false None in
  let failed_and_emitted :=
    {| sign_out_error := Some (newError "Network request failed");
       emits_SIGNED_OUT := true |} in
  push "/admin" (fst (admin_logout failed_and_emitted s))
  = Some ("/login", [("redirect", "/admin")])
  /\ error (fst (admin_logout failed_and_emitted s))
     = Some "Network request failed".
Proof.
  cbv zeta.
  destruct (logout_from_admin_page
              {| sign_out_error := Some (newError "Network request failed");
                 emits_SIGNED_OUT := true |}
              (mkAuthState (signed_in {| user_id := "u1"; user_metadata := None |}
                                      (Some "admin")) false None)
              eq_refl) as [_ [Herr [_ [H _]]]].
  destruct (H (or_intror eq_refl)) as [_ [_ Hpush]].
  split; [exact Hpush | exact Herr].
Defined.

(** X24.  The role of the profile overrides the role of the session's
    metadata: after [initialize], the sign-in listener or [login] have
    stored a user, [isAdmin] holds exactly when the profile that was
    found has the role [admin], and, where no profile was found, when
    the metadata of the session already said so.  The other members of
    the metadata are kept.  [isAuthenticated] holds in every case. *)
Theorem profile_role_overrides_metadata (u : User)
  (profile_role : option string) :
  isAuthenticated (signed_in u profile_role) = true
  /\ isAdmin (signed_in u profile_role)
     = match profile_role with
       | Some role => String.eqb role "admin"
       | None => isAdmin {| user := Some u |}
       end
  /\ (forall key md,
         key <> "role" -> user_metadata u = Some md ->
         exists md', user_metadata (store_role profile_role u) = Some md'
                     /\ get key md' = get key md).
Proof.
  split; [reflexivity|]. split.
  - destruct profile_role as [role|]; [|reflexivity].
    unfold isAdmin, signed_in, store_role. cbn [user user_metadata get].
    change ("role" =? "role") with true. cbn iota. reflexivity.
  - intros key md Hkey Hmd. unfold store_role.
    destruct profile_role as [role|]; [|exists md; split; [exact Hmd | reflexivity]].
    rewrite Hmd. eexists. split; [reflexivity|].
    cbn [user_metadata get fst].
    destruct (String.eqb_spec "role" key) as [E|_]; [congruence|].
    clear Hmd. induction md as [|[k v] md IH]; [reflexivity|].
    cbn [filter fst get]. destruct (String.eqb_spec k "role") as [->|Hk].
    + cbn [negb]. destruct (String.eqb_spec "role" key) as [E|_]; [congruence|].
      exact IH.
    + cbn [negb get]. destruct (k =? key); [reflexivity | exact IH].
Qed.

Lemma profile_role_overrides_metadata_witness :
  isAdmin (signed_in {| user_id := "u1";
                        user_metadata := Some [("role", "admin"); ("name", "Eva")] |}
                     (Some "customer"))
  = false
  /\ exists md',
       user_metadata (store_role (Some "customer")
                        {| user_id := "u1";
                           user_metadata := Some [("role", "admin"); ("name", "Eva")] |})
       = Some md'
       /\ get "name" md' = Some "Eva".
Proof.
  destruct (profile_role_overrides_metadata
              {| user_id := "u1";
                 user_metadata := Some [("role", "admin"); ("name", "Eva")] |}
              (Some "customer")) as [_ [Hadmin Hkeep]].
  split; [exact Hadmin|].
  assert (Hkey : "name" <> "role") by discriminate.
  destruct (Hkeep "name" [("role", "admin"); ("name", "Eva")] Hkey eq_refl)
    as [md' [Hmd Hget]].
  exists md'. split; [exact Hmd | exact Hget].
Defined.

(** X25.  Reloading the admin page with a session in the browser.
    Whether the guard runs on the store as [initialize] leaves it, or
    on the store as it is declared (the first navigation being started
    before [initialize] is over), the browser ends on the admin page: in
    the second case by way of the login page, whose [onMounted] sends
    it back.  Without a session (none found, or [getSession] fails) it
    ends on the login page with [/admin] as the path to return to, and
    stays there. *)
Theorem reload_of_admin_page (session : Settled (option User))
  (profile_role : option string) :
  let s := initialize session profile_role initial_auth in
  isLoading s = false /\ error s = None
  /\ push "/admin" initial_auth = Some ("/login", [("redirect", "/admin")])
  /\ (forall u, session = Resolved (Some u) ->
        push "/admin" s = Some ("/admin", [])
        /\ exists back, login_onMounted [("redirect", "/admin")] s = Some back
                        /\ push back s = Some ("/admin", []))
  /\ ((forall u, session <> Resolved (Some u)) ->
        push "/admin" s = Some ("/login", [("redirect", "/admin")])
        /\ login_onMounted [("redirect", "/admin")] s = None).
Proof.
  cbv zeta. split; [destruct session as [[u|]|e]; reflexivity|].
  split; [destruct session as [[u|]|e]; reflexivity|].
  split; [reflexivity|]. split.
  - intros u ->. split; [reflexivity|].
    exists "/admin". split; reflexivity.
  - intros Hno. destruct session as [[u|]|e];
      [exfalso; exact (Hno u eq_refl) | split; reflexivity | split; reflexivity].
Qed.

Lemma reload_of_admin_page_witness :
  push "/admin"
       (initialize (Resolved (Some {| user_id := "u1"; user_metadata := None |}))
                   (Some "admin") initial_auth)
  = Some ("/admin", []).
Proof.
  destruct (reload_of_admin_page
              (Resolved (Some {| user_id := "u1"; user_metadata := None |}))
              (Some "admin")) as [_ [_ [_ [H _]]]].
  exact (proj1 (H _ eq_refl)).
Defined.

End AuthFlowFacts.

(* ================================================================== *)
(** * The booking under the policies of the table *)
(* ================================================================== *)

Module PoliciesFacts.
Import JS GoPay OrdersStore PaymentResultPage PaymentResultView StoreInvariant.
Import Policies.
Import OrdersStoreFacts DeletionFacts StoreInvariantFacts PaymentResultViewFacts.
Open Scope list_scope.
Open Scope string_scope.

(** For the admin the calls are those of the store. *)
Lemma addOrder_as_admin (env : AddOrderEnv) (order : NewOrder) (w : World) :
  addOrder_as admin env order w = addOrder env order w.
Proof. reflexivity. Qed.

Lemma onMounted_as_admin (env : PollEnv) (q : option string) (w : World) :
  onMounted_as admin env q w = onMounted env q w.
Proof. reflexivity. Qed.

(** The update of a visitor reaches no row. *)
Lemma update_as_anonymous (failure : option Thrown)
  (patch : Supabase.Row -> Supabase.Row) (v : string) (t : Supabase.Table) :
  update_as anonymous failure patch v t = (failure, t).
Proof.
  unfold update_as, Supabase.update. destruct failure as [e|]; [reflexivity|].
  cbn [may_update]. apply (f_equal (pair None)).
  transitivity (map (fun r : Supabase.Row => r) t); [|apply map_id].
  apply map_ext. intros r. destruct (Supabase.has_id v r); reflexivity.
Qed.

Lemma updateOrderStatus_as_anonymous_table (failure : option Thrown)
  (v : string) (s : Supabase.Status) (w : World) :
  table (updateOrderStatus_as anonymous failure v s w) = table w.
Proof.
  unfold updateOrderStatus_as. rewrite update_as_anonymous. reflexivity.
Qed.

Lemma updatePaymentStatus_as_anonymous_table
  (failure cascade_failure : option Thrown) (v ps : string) (w : World) :
  table (updatePaymentStatus_as anonymous failure cascade_failure v ps w)
  = table w.
Proof.
  unfold updatePaymentStatus_as. rewrite update_as_anonymous.
  destruct failure as [e|]; [reflexivity|].
  destruct (find (is_order v) (orders (begin (store w)))); [|reflexivity].
  destruct (ps =? "PAID"); [|reflexivity].
  cbn [table]. rewrite updateOrderStatus_as_anonymous_table. reflexivity.
Qed.

Lemma onMounted_as_anonymous_table (env : PollEnv) (q : option string)
  (w : World) :
  table (snd (onMounted_as anonymous env q w)) = table w.
Proof.
  unfold onMounted_as. destruct q as [v|]; [|reflexivity].
  destruct (negb (truthy (Some v))); [reflexivity|].
  unfold fetchOrderById.
  destruct (Supabase.select_single (fetch_failure env) v (table w)) as [r|e];
    [|reflexivity].
  destruct (truthy (paymentId (mapDbRowToOrder r))); [|reflexivity].
  destruct (paymentId (mapDbRowToOrder r)) as [pid|]; [|reflexivity].
  destruct (getPaymentStatus pid (draw1 env) (draw2 env)) as [s|];
    [|reflexivity].
  cbn [snd]. rewrite updatePaymentStatus_as_anonymous_table. reflexivity.
Qed.

(** What a visitor's [addOrder] leaves when the insert goes through:
    the new row without payment fields, whatever the write-back
    reported, and the URL of the session if one was created. *)
Lemma addOrder_as_anonymous (env : AddOrderEnv) (order : NewOrder) (w : World) :
  insert_failure env = None ->
  existsb (Supabase.has_id (gen_random_uuid env)) (table w) = false ->
  let rnew := Supabase.new_row (gen_random_uuid env) (now env)
                               (mapOrderToDbRow order) in
  let r := addOrder_as anonymous env order w in
  table (snd r) = (table w ++ [rnew])%list
  /\ store (snd r)
     = finally (store (fetchOrders (refresh_failure env)
                         {| table := (table w ++ [rnew])%list;
                            store := begin (store w) |}))
  /\ fst r
     = Some {| orderId := gen_random_uuid env;
               added_paymentUrl :=
                 match createPayment (payment_env env)
                         {| od_id := gen_random_uuid env;
                            od_customerName := n_customerName order;
                            od_customerEmail := n_customerEmail order;
                            od_price := n_price order;
                            od_description :=
                              "Transportation from " ++ n_startAddress order
                                ++ " to " ++ n_endAddress order |} with
                 | Resolved pr => Some (pr_url pr)
                 | Rejected _ => None
                 end |}.
Proof.
  intros Hins Hfree. cbv zeta. unfold addOrder_as, Supabase.insert.
  rewrite Hins, Hfree.
  change (Supabase.id (Supabase.new_row (gen_random_uuid env) (now env)
                                        (mapOrderToDbRow order)))
    with (gen_random_uuid env).
  destruct (createPayment _ _) as [pr|e].
  - rewrite update_as_anonymous. repeat split.
  - repeat split.
Qed.

(** X3.  The order that was booked is found afterwards.  When the
    insert, the payment session and the refresh go through and the
    write-back of the payment fields reports no error, [addOrder]
    returns the URL of the session, and [getOrderById] and the direct
    fetch both return the order with the fields that were submitted and
    the status pending.  Its payment fields are those of the session
    when an admin made the booking; when a visitor made it, the order
    that is found has no payment field at all, the policies of the
    table keeping the write-back from the row without an error. *)
Theorem booked_order_is_found (c : Caller) (env : AddOrderEnv)
  (order : NewOrder) (w : World) (uuid origin : string) :
  NoDup (map Supabase.id (table w)) ->
  insert_failure env = None ->
  existsb (Supabase.has_id (gen_random_uuid env)) (table w) = false ->
  uuidv4 (payment_env env) = Some uuid ->
  window_location_origin (payment_env env) = Some origin ->
  payment_update_failure env = None ->
  refresh_failure env = None ->
  let pid := "mock_payment_" ++ substring 0 8 uuid in
  let url := origin ++ "/payment-result?orderId=" ++ gen_random_uuid env
                    ++ "&mockPayment=true" in
  let o := stored_order env order (written_back c pid url) in
  let r := addOrder_as c env order w in
  fst r = Some {| orderId := gen_random_uuid env; added_paymentUrl := Some url |}
  /\ getOrderById (gen_random_uuid env) (store (snd r)) = Some o
  /\ fst (fetchOrderById None (gen_random_uuid env) (snd r)) = Some o
  /\ OrdersStore.status o = Supabase.pending
  /\ OrdersStore.error (store (snd r)) = None.
Proof.
  intros Hnt Hins Hfree Hu Ho Hupd Href. cbv zeta. destruct c.
  - (* a visitor *)
    destruct (addOrder_as_anonymous env order w Hins Hfree)
      as [Ht [Hs Hres]].
    set (rnew := Supabase.new_row (gen_random_uuid env) (now env)
                                  (mapOrderToDbRow order)) in *.
    assert (Hnt2 : NoDup (map Supabase.id (table w ++ [rnew])%list))
      by (apply NoDup_ids_appended; assumption).
    assert (Hin : In rnew (table w ++ [rnew])%list)
      by (apply in_or_app; right; left; reflexivity).
    split.
    { rewrite Hres. unfold createPayment. rewrite Hu, Ho. reflexivity. }
    split.
    { rewrite Hs. unfold getOrderById, fetchOrders. rewrite Href.
      cbn [Supabase.select_all store orders finally with_orders begin table].
      change (stored_order env order (written_back anonymous _ _))
        with (mapDbRowToOrder rnew).
      change (gen_random_uuid env) with (id (mapDbRowToOrder rnew)) at 1.
      apply find_is_order_unique.
      - rewrite ids_of_mapped_rows.
        apply (Permutation_NoDup
                 (Permutation_sym
                    (Permutation_map Supabase.id
                       (order_created_at_desc_perm (table w ++ [rnew])%list)))).
        exact Hnt2.
      - apply in_map. apply in_order_created_at_desc. exact Hin. }
    split.
    { unfold fetchOrderById, Supabase.select_single. rewrite Ht.
      change (gen_random_uuid env) with (Supabase.id rnew) at 1.
      rewrite (filter_has_id_unique _ rnew Hnt2 Hin). reflexivity. }
    split; [reflexivity|].
    rewrite Hs. unfold fetchOrders. rewrite Href. reflexivity.
  - (* an admin *)
    rewrite addOrder_as_admin.
    destruct (addOrder_lands_then_lookup env order w uuid origin
                Hnt Hins Hfree Hu Ho Hupd Href) as [H1 [H2 [H3 H4]]].
    cbv zeta in *. repeat split; assumption.
Qed.

Lemma booked_order_is_found_witness :
  let r := addOrder_as anonymous (Samples.add_env Samples.browser)
                       Samples.booking Samples.fresh_page_world in
  option_map added_paymentUrl (fst r)
  = Some (Some "https://app.example/payment-result?orderId=o3&mockPayment=true")
  /\ option_map paymentUrl (getOrderById "o3" (store (snd r))) = Some None.
Proof.
  destruct (booked_order_is_found anonymous (Samples.add_env Samples.browser)
              Samples.booking Samples.fresh_page_world
              "0a1b2c3d-0000-4000-8000-000000000000" "https://app.example"
              (proj1 coherent_fresh_page) eq_refl eq_refl eq_refl eq_refl
              eq_refl eq_refl) as [Hres [Hget _]].
  cbv zeta in *. split.
  - exact (f_equal (option_map added_paymentUrl) Hres).
  - exact (f_equal (option_map paymentUrl) Hget).
Defined.

(** X9.  From the booking to the payment page, by caller.  The order
    is inserted, the payment session created, the write-back reports no
    error, and the payment-result page is loaded for the new id (the
    [orderId] the returned URL carries) with its calls going through.
    For an admin the page shows the order under one of the six
    statuses, that status is what the table then holds for the order,
    and `Try Payment Again' leads to the URL that [addOrder] returned.
    For a visitor, who is handed the same URL, the page shows UNKNOWN:
    the row has no payment id, nothing is written, and `Try Payment
    Again' does nothing.  No poll of a visitor changes the table. *)
Theorem booking_then_poll (c : Caller) (env : AddOrderEnv)
  (order : NewOrder) (w : World) (uuid origin : string) (penv : PollEnv) :
  NoDup (map Supabase.id (table w)) ->
  insert_failure env = None ->
  existsb (Supabase.has_id (gen_random_uuid env)) (table w) = false ->
  gen_random_uuid env <> "" ->
  uuidv4 (payment_env env) = Some uuid ->
  window_location_origin (payment_env env) = Some origin ->
  payment_update_failure env = None ->
  fetch_failure penv = None -> update_failure penv = None ->
  unit_draw (draw2 penv) ->
  let pid := "mock_payment_" ++ substring 0 8 uuid in
  let url := origin ++ "/payment-result?orderId=" ++ gen_random_uuid env
                    ++ "&mockPayment=true" in
  let o := stored_order env order (written_back c pid url) in
  let a := addOrder_as c env order w in
  let p := onMounted_as c penv (Some (gen_random_uuid env)) (page_load (snd a)) in
  option_map added_paymentUrl (fst a) = Some (Some url)
  /\ PaymentResultPage.order (fst p) = Some o
  /\ PaymentResultPage.error (fst p) = None
  /\ match c with
     | admin =>
         exists s, In s statuses
           /\ PaymentResultPage.paymentStatus (fst p) = Some s
           /\ fst (fetchOrderById None (gen_random_uuid env) (snd p))
              = Some (set_paymentStatus s o)
           /\ tryAgain (fst p) = Some url
     | anonymous =>
         PaymentResultPage.paymentStatus (fst p) = Some "UNKNOWN"
         /\ table (snd p) = table (snd a)
         /\ fst (fetchOrderById None (gen_random_uuid env) (snd p)) = Some o
         /\ tryAgain (fst p) = None
     end
  /\ (forall penv' q w',
         table (snd (onMounted_as anonymous penv' q w')) = table w').
Proof.
  intros Hnt Hins Hfree Hid Hu Ho Hupd Hf Hupd' H2. cbv zeta.
  assert (Hlast : forall penv' q w',
             table (snd (onMounted_as anonymous penv' q w')) = table w')
    by (intros; apply onMounted_as_anonymous_table).
  destruct c.
  - (* a visitor *)
    destruct (addOrder_as_anonymous env order w Hins Hfree)
      as [Ht [_ Hres]].
    set (rnew := Supabase.new_row (gen_random_uuid env) (now env)
                                  (mapOrderToDbRow order)) in *.
    assert (Hnt2 : NoDup (map Supabase.id (table w ++ [rnew])%list))
      by (apply NoDup_ids_appended; assumption).
    assert (Hin : In rnew (table w ++ [rnew])%list)
      by (apply in_or_app; right; left; reflexivity).
    assert (Hp : exists st,
               onMounted_as anonymous penv (Some (gen_random_uuid env))
                            (page_load (snd (addOrder_as anonymous env order w)))
               = (shown (mapDbRowToOrder rnew) (Some "UNKNOWN"),
                  mkWorld (table w ++ [rnew])%list st)).
    { unfold onMounted_as, page_load. rewrite (truthy_nonempty _ Hid).
      cbn [negb]. unfold fetchOrderById, Supabase.select_single.
      rewrite Hf, Ht. cbn [table store].
      change (filter (Supabase.has_id (gen_random_uuid env))
                     (table w ++ [rnew])%list)
        with (filter (Supabase.has_id (Supabase.id rnew))
                     (table w ++ [rnew])%list).
      rewrite (filter_has_id_unique _ rnew Hnt2 Hin).
      eexists. reflexivity. }
    destruct Hp as [st Hp]. rewrite Hp. cbn [fst snd table].
    split.
    { rewrite Hres. unfold createPayment. rewrite Hu, Ho. reflexivity. }
    split; [reflexivity|]. split; [reflexivity|].
    split; [|exact Hlast].
    split; [reflexivity|]. split; [symmetry; exact Ht|].
    split; [|reflexivity].
    unfold fetchOrderById, Supabase.select_single. cbn [table].
    change (gen_random_uuid env) with (Supabase.id rnew) at 1.
    rewrite (filter_has_id_unique _ rnew Hnt2 Hin). reflexivity.
  - (* an admin *)
    rewrite addOrder_as_admin, onMounted_as_admin.
    destruct (booking_then_poll_lands env order w uuid origin penv
                Hnt Hins Hfree Hid Hu Ho Hupd Hf Hupd' H2)
      as [Hurl [s [Hs [Hshown [Hfetch Htry]]]]].
    cbv zeta in *.
    split; [exact Hurl|]. rewrite Hshown in *.
    split; [reflexivity|]. split; [reflexivity|].
    split; [|exact Hlast].
    exists s. repeat split; assumption.
Qed.

Lemma booking_then_poll_witness :
  let a := addOrder_as anonymous (Samples.add_env Samples.browser)
                       Samples.booking Samples.fresh_page_world in
  PaymentResultPage.paymentStatus
    (fst (onMounted_as anonymous Samples.poll_paid (Some "o3")
                       (page_load (snd a))))
  = Some "UNKNOWN".
Proof.
  assert (Hid : gen_random_uuid (Samples.add_env Samples.browser) <> "")
    by discriminate.
  assert (H2 : unit_draw (draw2 Samples.poll_paid)) by (split; reflexivity).
  destruct (booking_then_poll anonymous
              (Samples.add_env Samples.browser) Samples.booking
              Samples.fresh_page_world
              "0a1b2c3d-0000-4000-8000-000000000000" "https://app.example"
              Samples.poll_paid
              (proj1 coherent_fresh_page) eq_refl eq_refl Hid eq_refl eq_refl
              eq_refl eq_refl eq_refl H2)
    as [_ [_ [_ [[Hstatus _] _]]]].
  exact Hstatus.
Defined.

End PoliciesFacts.
